(** * Coupon distribution site: the claim workflow and the admin dashboard

    A shallow embedding of the two page components of the repository
    (the public home page with [claimCoupon], its mount effect and its
    timer, and the admin dashboard with [loadCoupons], [addCoupon],
    [toggleCouponStatus] and [deleteCoupon]) together with the parts of the
    host (JavaScript numbers, strings and dates, the cookie jar, the remote
    tables) that their handlers call.

    Conventions.
    - A JavaScript number that is an integer or NaN is an [option Z]
      ([None] is NaN).  Every integer that reaches a handler lies far inside
      the range where doubles are exact, or ends up in [TimeClip], which
      rejects what lies outside; quotients are taken in [Q].
    - A timestamp column or an ISO-8601 string produced by [toISOString] is
      the time value it denotes (milliseconds since the epoch).
    - A remote call resolves to data or to an error object; which one is
      decided by the environment record of the handler.
    - Every [new Date()] of the source is a clock reading of its own; two
      readings of one run are two arguments.
    - The cookie jar is the list of cookies in the order in which
      [document.cookie] lists them, each printed as [name=value], or as the
      bare value when it has no name. *)

From Stdlib Require Import ZArith QArith Qround List String Ascii Bool Lia.
From Stdlib Require Import Decimal DecimalString DecimalPos.
From Stdlib Require Import Permutation Sorted.
Import ListNotations.

Local Open Scope string_scope.
Local Open Scope Z_scope.

(** ** JavaScript values used by the handlers *)

Module JS.

(** Numbers that are integers or NaN. *)
Definition Number := option Z.

Definition NaN : Number := None.

Definition add (a b : Number) : Number :=
  match a, b with
  | Some x, Some y => Some (x + y)
  | _, _ => None
  end.

(** [Number::toString] on an integer (radix 10) and on NaN. *)
Definition string_of_Z (z : Z) : string := NilZero.string_of_int (Z.to_int z).

Definition toString (n : Number) : string :=
  match n with
  | Some z => string_of_Z z
  | None => "NaN"
  end.

(** A string is falsy exactly when it is empty; [undefined] is falsy. *)
Definition truthy (s : string) : bool :=
  match s with
  | EmptyString => false
  | String _ _ => true
  end.

Definition truthy_opt (o : option string) : bool :=
  match o with
  | Some s => truthy s
  | None => false
  end.

(** [a || b] on possibly undefined strings. *)
Definition or_else (o : option string) (d : string) : string :=
  match o with
  | Some s => if truthy s then s else d
  | None => d
  end.

(** [s.startsWith(p)] *)
Definition startsWith (s p : string) : bool := String.prefix p s.

(** [s.split(c)] for a one-character separator. *)
Fixpoint split_from (c : ascii) (cur : string) (s : string) : list string :=
  match s with
  | EmptyString => [cur]
  | String a r =>
      if Ascii.eqb a c then cur :: split_from c EmptyString r
      else split_from c (cur ++ String a EmptyString) r
  end.

Definition split (c : ascii) (s : string) : list string :=
  split_from c EmptyString s.

(** [s.substring(from, to)]: both indices are clamped to the length and
    swapped when out of order. *)
Definition substring (from to : nat) (s : string) : string :=
  let len := String.length s in
  let a := Nat.min from len in
  let b := Nat.min to len in
  let lo := Nat.min a b in
  let hi := Nat.max a b in
  String.substring lo (hi - lo) s.

Definition upper_char (c : ascii) : ascii :=
  let n := nat_of_ascii c in
  if ((97 <=? n) && (n <=? 122))%nat then ascii_of_nat (n - 32) else c.

(** [s.toUpperCase()] on ASCII text. *)
Fixpoint toUpperCase (s : string) : string :=
  match s with
  | EmptyString => EmptyString
  | String c r => String (upper_char c) (toUpperCase r)
  end.

(** [arr.join(sep)] *)
Fixpoint join (sep : string) (l : list string) : string :=
  match l with
  | [] => EmptyString
  | [x] => x
  | x :: r => x ++ sep ++ join sep r
  end.

(** *** [parseInt(s)] without a radix argument *)

Definition is_space (c : ascii) : bool :=
  let n := nat_of_ascii c in
  ((n =? 32) || ((9 <=? n) && (n <=? 13)))%nat.

Fixpoint trimStart (s : string) : string :=
  match s with
  | EmptyString => EmptyString
  | String c r => if is_space c then trimStart r else s
  end.

Definition digit_value (radix : Z) (c : ascii) : option Z :=
  let n := Z.of_nat (nat_of_ascii c) in
  let v :=
    if (48 <=? n) && (n <=? 57) then Some (n - 48)
    else if (97 <=? n) && (n <=? 122) then Some (n - 87)
    else if (65 <=? n) && (n <=? 90) then Some (n - 55)
    else None in
  match v with
  | Some d => if d <? radix then Some d else None
  | None => None
  end.

(** The longest prefix of radix digits, accumulated left to right; [acc]
    is [None] until the first digit is seen. *)
Fixpoint parse_digits (radix : Z) (s : string) (acc : option Z) : option Z :=
  match s with
  | EmptyString => acc
  | String c r =>
      match digit_value radix c with
      | Some d =>
          parse_digits radix r
            (Some (match acc with Some a => a * radix + d | None => d end))
      | None => acc
      end
  end.

Definition strip_sign (s : string) : Z * string :=
  match s with
  | String "-" r => (-1, r)
  | String "+" r => (1, r)
  | _ => (1, s)
  end.

Definition strip_hex_prefix (s : string) : Z * string :=
  match s with
  | String "0" (String "x" r) => (16, r)
  | String "0" (String "X" r) => (16, r)
  | _ => (10, s)
  end.

Definition parseInt (s : string) : Number :=
  let (sign, s1) := strip_sign (trimStart s) in
  let (radix, s2) := strip_hex_prefix s1 in
  match parse_digits radix s2 None with
  | Some v => Some (sign * v)
  | None => NaN
  end.

(** [parseInt] applied to a possibly undefined value: [undefined] is
    converted to the string "undefined", which has no digits. *)
Definition parseInt_opt (o : option string) : Number :=
  match o with
  | Some s => parseInt s
  | None => NaN
  end.

(** *** The textual outcome of [Math.random().toString(36)]

    [Math.random()] returns a double in the interval from 0 (inclusive)
    to 1 (exclusive).  In radix 36 such a number prints as "0" when it is
    zero and otherwise as "0." followed by the digits of its fraction; how
    many digits are printed is left to the engine.  An outcome of the
    generator is therefore represented by the list of fraction digits that
    gets printed. *)

Record digit36 := { dval : nat; dval_lt : (dval <? 36)%nat = true }.

Definition Random := list digit36.

Definition radix_char (d : digit36) : ascii :=
  if (dval d <? 10)%nat then ascii_of_nat (48 + dval d)
  else ascii_of_nat (87 + dval d).

Fixpoint radix_chars (ds : list digit36) : string :=
  match ds with
  | [] => EmptyString
  | d :: r => String (radix_char d) (radix_chars r)
  end.

Definition random_toString36 (r : Random) : string :=
  match r with
  | [] => "0"
  | _ :: _ => "0." ++ radix_chars r
  end.

End JS.

(** ** Dates: the time-value arithmetic of the language standard *)

Module DateTime.

Definition msPerDay : Z := 86400000.

Definition Day (t : Z) : Z := t / msPerDay.

Definition TimeWithinDay (t : Z) : Z := t mod msPerDay.

Definition DaysInYear (y : Z) : Z :=
  if (y mod 4 =? 0) && (negb (y mod 100 =? 0) || (y mod 400 =? 0))
  then 366 else 365.

Definition DayFromYear (y : Z) : Z :=
  365 * (y - 1970) + (y - 1969) / 4 - (y - 1901) / 100 + (y - 1601) / 400.

Definition TimeFromYear (y : Z) : Z := msPerDay * DayFromYear y.

(** The largest year whose first day is not after the day of [t]: an
    estimate from the mean year length, corrected by at most one year. *)
Definition YearFromTime (t : Z) : Z :=
  let d := Day t in
  let y := 1970 + (d * 400) / 146097 in
  if d <? DayFromYear y then y - 1
  else if DayFromYear (y + 1) <=? d then y + 1
  else y.

Definition LeapOfYear (y : Z) : Z := if DaysInYear y =? 366 then 1 else 0.

Definition InLeapYear (t : Z) : Z := LeapOfYear (YearFromTime t).

Definition DayWithinYear (t : Z) : Z := Day t - DayFromYear (YearFromTime t).

Definition MonthFromTime (t : Z) : Z :=
  let d := DayWithinYear t in
  let l := InLeapYear t in
  if d <? 31 then 0
  else if d <? 59 + l then 1
  else if d <? 90 + l then 2
  else if d <? 120 + l then 3
  else if d <? 151 + l then 4
  else if d <? 181 + l then 5
  else if d <? 212 + l then 6
  else if d <? 243 + l then 7
  else if d <? 273 + l then 8
  else if d <? 304 + l then 9
  else if d <? 334 + l then 10
  else 11.

Definition DateFromTime (t : Z) : Z :=
  let d := DayWithinYear t in
  let l := InLeapYear t in
  match MonthFromTime t with
  | 0 => d + 1
  | 1 => d - 30
  | 2 => d - 58 - l
  | 3 => d - 89 - l
  | 4 => d - 119 - l
  | 5 => d - 150 - l
  | 6 => d - 180 - l
  | 7 => d - 211 - l
  | 8 => d - 242 - l
  | 9 => d - 272 - l
  | 10 => d - 303 - l
  | _ => d - 333 - l
  end.

(** Day number, within its year, of the first day of month [mn]. *)
Definition MonthStart (leap mn : Z) : Z :=
  match mn with
  | 0 => 0
  | 1 => 31
  | 2 => 59 + leap
  | 3 => 90 + leap
  | 4 => 120 + leap
  | 5 => 151 + leap
  | 6 => 181 + leap
  | 7 => 212 + leap
  | 8 => 243 + leap
  | 9 => 273 + leap
  | 10 => 304 + leap
  | _ => 334 + leap
  end.

(** [MakeDay(year, month, date)]: the day number of the first of the
    month, plus [date - 1]. *)
Definition MakeDay (year month date : Z) : Z :=
  let ym := year + month / 12 in
  let mn := month mod 12 in
  DayFromYear ym + MonthStart (LeapOfYear ym) mn + date - 1.

Definition MakeDate (day time : Z) : Z := day * msPerDay + time.

Definition maxTime : Z := 8640000000000000.

Definition TimeClip (t : Z) : JS.Number :=
  if Z.abs t <=? maxTime then Some t else JS.NaN.

(** The offset of local time from UTC, in milliseconds: [tza t true] at
    the UTC time value [t], [tza t false] at the local time value [t]. *)
Definition Zone := Z -> bool -> Z.

Definition LocalTime (tza : Zone) (t : Z) : Z := t + tza t true.

Definition UTC (tza : Zone) (t : Z) : Z := t - tza t false.

(** A [Date] object is its time value; NaN is the invalid date. *)
Definition Date := JS.Number.

(** [new Date()] at the clock reading [now]. *)
Definition Date_now (now : Z) : Date := Some now.

(** [new Date(v)] for a number [v]. *)
Definition Date_of (v : JS.Number) : Date :=
  match v with
  | Some t => TimeClip t
  | None => JS.NaN
  end.

Definition getTime (d : Date) : JS.Number := d.

Definition getDate (tza : Zone) (d : Date) : JS.Number :=
  match d with
  | Some t => Some (DateFromTime (LocalTime tza t))
  | None => JS.NaN
  end.

Definition setDate (tza : Zone) (d : Date) (date : JS.Number) : Date :=
  match d, date with
  | Some tv, Some dt =>
      let t := LocalTime tza tv in
      let newDate :=
        MakeDate (MakeDay (YearFromTime t) (MonthFromTime t) dt)
                 (TimeWithinDay t) in
      TimeClip (UTC tza newDate)
  | _, _ => JS.NaN
  end.

(** [d.toISOString()]: the instant written out, or [None] when the call
    throws a RangeError on an invalid date. *)
Definition toISOString (d : Date) : option Z := d.

End DateTime.

(** ** The browser: cookies and toasts *)

Module Browser.

Record Cookie := {
  name : string;
  value : string;
  attributes : list string
}.

(** The jar in the order in which [document.cookie] lists it. *)
Definition Jar := list Cookie.

(** One cookie as [document.cookie] lists it: [name=value], and the bare
    value for a cookie that has no name. *)
Definition row (c : Cookie) : string :=
  match name c with
  | EmptyString => value c
  | _ => name c ++ "=" ++ value c
  end.

(** [document.cookie.split('; ')] *)
Definition rows (jar : Jar) : list string := map row jar.

(** [document.cookie.split('; ').find(row => row.startsWith(NAME))
    ?.split('=')[1]] *)
Definition read_cookie (NAME : string) (jar : Jar) : option string :=
  match find (fun row => JS.startsWith row NAME) (rows jar) with
  | Some row => nth_error (JS.split "=" row) 1
  | None => None
  end.

(** The cookie string assembled by the handlers, kept in parsed form:
    [[`${NAME}=${v}`, 'path=/', 'max-age=86400', 'SameSite=Lax']], with
    'Secure' pushed when the page is served over https. *)
Definition cookieOptions (NAME v : string) (https : bool) : Cookie :=
  {| name := NAME;
     value := v;
     attributes :=
       ["path=/"; "max-age=86400"; "SameSite=Lax"]
         ++ (if https then ["Secure"] else []) |}.

(** [document.cookie = ...]: a cookie of the same name is replaced where
    it stands, a new one is added at the end.  The browser is taken to
    accept the cookie.  The handlers write both of their cookies with
    path=/ and without a domain, so a cookie of the same name stands for
    the same cookie.  The jar holds the cookies that are
    alive while the handlers at hand run: the browser drops a cookie when
    its max-age has run out, which is a step of its own between two runs
    and not part of a write. *)
Fixpoint document_cookie_set (c : Cookie) (jar : Jar) : Jar :=
  match jar with
  | [] => [c]
  | x :: r =>
      if String.eqb (name x) (name c) then c :: r
      else x :: document_cookie_set c r
  end.

Inductive Toast :=
| toast_error (message : string)
| toast_success (message : string).

End Browser.

(** ** The remote tables and the calls the handlers issue against them

    The two collections are lists of rows in the order in which the store
    scans them.  Each call of a handler carries a flag of its environment
    that says whether the store answers with an error; a call that is
    answered with an error changes no row.  Every call is recorded, so that
    statements can speak of what a handler sent.  Calls of other clients
    between two calls of one handler are not part of this model. *)

Module Remote.

(** The status column.  The handlers write the three literals
    'available', 'claimed' and 'disabled' and no other value. *)
Inductive Status := available | claimed | disabled.

Definition Status_eqb (a b : Status) : bool :=
  match a, b with
  | available, available | claimed, claimed | disabled, disabled => true
  | _, _ => false
  end.

Record Coupon := {
  id : string;
  code : string;
  status : Status;
  claimed_by : option string;
  claimed_at : option Z;
  expires_at : Z;
  created_at : Z
}.

Record Claim := {
  claim_id : string;
  coupon_id : string;
  ip_address : string;
  session_id : string;
  claim_created_at : Z
}.

Record Tables := {
  coupons : list Coupon;
  claims : list Claim
}.

(** The object passed to [.update({...})]: the columns it names. *)
Record Patch := {
  set_status : option Status;
  set_claimed_by : option (option string);
  set_claimed_at : option (option Z)
}.

Definition apply_patch (p : Patch) (c : Coupon) : Coupon :=
  {| id := id c;
     code := code c;
     status := match set_status p with Some s => s | None => status c end;
     claimed_by :=
       match set_claimed_by p with Some v => v | None => claimed_by c end;
     claimed_at :=
       match set_claimed_at p with Some v => v | None => claimed_at c end;
     expires_at := expires_at c;
     created_at := created_at c |}.

(** The [.eq(column, value)] filters used by the handlers. *)
Inductive Filter :=
| eq_id (v : string)
| eq_status (v : Status).

Definition matches (f : Filter) (c : Coupon) : bool :=
  match f with
  | eq_id v => String.eqb (id c) v
  | eq_status v => Status_eqb (status c) v
  end.

Definition matches_all (fs : list Filter) (c : Coupon) : bool :=
  forallb (fun f => matches f c) fs.

Inductive Request :=
| SelectSingle (fs : list Filter)
| SelectCoupons
| UpdateCoupons (p : Patch) (fs : list Filter)
| InsertClaim (coupon ip session : string)
| InsertCoupon (code : string) (expires_at : Z).

(** The remote side: the two tables and the requests received so far. *)
Record Server := {
  tables : Tables;
  requests : list Request
}.

Definition received (q : Request) (s : Server) : Server :=
  {| tables := tables s; requests := requests s ++ [q] |}.

Definition with_coupons (l : list Coupon) (s : Server) : Server :=
  {| tables := {| coupons := l; claims := claims (tables s) |};
     requests := requests s |}.

Definition with_claims (l : list Claim) (s : Server) : Server :=
  {| tables := {| coupons := coupons (tables s); claims := l |};
     requests := requests s |}.

(** [from('coupons').select('*').eq(...).limit(1).single()]: the first
    matching row in table order as [data]; [None] stands for an error
    object, which is what [.single()] gives when no row matches and what a
    fault gives. *)
Definition select_single (fs : list Filter) (fault : bool) (s : Server)
  : Server * option Coupon :=
  let s' := received (SelectSingle fs) s in
  if fault then (s', None)
  else (s', find (matches_all fs) (coupons (tables s))).

(** [from('coupons').update(p).eq(...)]: every matching row is patched;
    the reply tells only whether the call went through ([true]) or came
    back with an error ([false]), not how many rows matched. *)
Definition update_coupons (p : Patch) (fs : list Filter) (fault : bool)
    (s : Server) : Server * bool :=
  let s' := received (UpdateCoupons p fs) s in
  if fault then (s', false)
  else
    (with_coupons
       (map (fun c => if matches_all fs c then apply_patch p c else c)
            (coupons (tables s))) s',
     true).

(** [from('claims').insert({coupon_id, ip_address, session_id})]: the
    table supplies the key and the creation time of the row. *)
Definition insert_claim (coupon ip session : string)
    (key : string) (stamp : Z) (fault : bool) (s : Server) : Server * bool :=
  let s' := received (InsertClaim coupon ip session) s in
  if fault then (s', false)
  else
    (with_claims
       (claims (tables s)
          ++ [{| claim_id := key; coupon_id := coupon; ip_address := ip;
                 session_id := session; claim_created_at := stamp |}]) s',
     true).

(** Modelled from the spec: the declaration of the coupons table is not
    part of the sources.  A row inserted with only [code] and [expires_at]
    is created with status available, with [claimed_by] and [claimed_at]
    null, and with [created_at] set to the time of creation. *)
Definition new_coupon (key code : string) (expires stamp : Z) : Coupon :=
  {| id := key;
     code := code;
     status := available;
     claimed_by := None;
     claimed_at := None;
     expires_at := expires;
     created_at := stamp |}.

(** [from('coupons').insert({code, expires_at})] *)
Definition insert_coupon (code : string) (expires : Z)
    (key : string) (stamp : Z) (fault : bool) (s : Server) : Server * bool :=
  let s' := received (InsertCoupon code expires) s in
  if fault then (s', false)
  else
    (with_coupons (coupons (tables s) ++ [new_coupon key code expires stamp]) s',
     true).

(** Rows by [created_at], newest first. *)
Fixpoint insert_desc (c : Coupon) (l : list Coupon) : list Coupon :=
  match l with
  | [] => [c]
  | x :: r =>
      if created_at x <? created_at c then c :: l
      else x :: insert_desc c r
  end.

Fixpoint order_desc (l : list Coupon) : list Coupon :=
  match l with
  | [] => []
  | c :: r => insert_desc c (order_desc r)
  end.

(** [from('coupons').select('*').order('created_at', {ascending: false})] *)
Definition select_coupons (fault : bool) (s : Server)
  : Server * option (list Coupon) :=
  let s' := received SelectCoupons s in
  if fault then (s', None)
  else (s', Some (order_desc (coupons (tables s)))).

End Remote.

(** ** The home page: rate limiter and claim workflow

    A handler is a function from the world before the click to the world
    after it.  Every [new Date()] of the source is a clock reading of its
    own: a function takes one argument for each reading it makes, and the
    environment record of [claimCoupon] supplies the readings of one run
    together with the answers of the store.  The expiry of a cookie after
    one day is not part of this model. *)

Module Home.

Import Browser Remote DateTime.

Definition SESSION_ID_COOKIE : string := "coupon_session_id".
Definition LAST_CLAIM_TIME_COOKIE : string := "last_claim_time".

(** [getOrCreateSessionId()]: the identifier and the jar it leaves. *)
Definition getOrCreateSessionId (https : bool) (randomUUID : string)
    (jar : Jar) : string * Jar :=
  let existingSessionId := read_cookie SESSION_ID_COOKIE jar in
  if JS.truthy_opt existingSessionId then
    (JS.or_else existingSessionId EmptyString, jar)
  else
    let newSessionId := randomUUID in
    (newSessionId,
     document_cookie_set (cookieOptions SESSION_ID_COOKIE newSessionId https) jar).

(** [canUserClaim()] at the clock reading [now]. *)
Definition canUserClaim (jar : Jar) (now : Z) : bool :=
  let lastClaimTime := read_cookie LAST_CLAIM_TIME_COOKIE jar in
  if negb (JS.truthy_opt lastClaimTime) then true
  else
    let lastClaim := Date_of (JS.parseInt_opt lastClaimTime) in
    match getTime (Date_now now), getTime lastClaim with
    | Some n, Some l =>
        let hoursSinceLastClaim :=
          (inject_Z (n - l) / inject_Z (1000 * 60 * 60))%Q in
        Qle_bool 1 hoursSinceLastClaim
    | _, _ => false
    end.

(** [setLastClaimTime()] at the clock reading [now]. *)
Definition setLastClaimTime (https : bool) (now : Z) (jar : Jar) : Jar :=
  document_cookie_set
    (cookieOptions LAST_CLAIM_TIME_COOKIE
       (JS.toString (getTime (Date_now now))) https)
    jar.

(** The component state. *)
Record State := {
  loading : bool;
  claimedCoupon : option string;
  sessionId : string;
  canClaim : bool;
  timeUntilNextClaim : string
}.

Definition initial : State :=
  {| loading := false; claimedCoupon := None; sessionId := EmptyString;
     canClaim := true; timeUntilNextClaim := EmptyString |}.

Definition setLoading (b : bool) (st : State) : State :=
  {| loading := b; claimedCoupon := claimedCoupon st;
     sessionId := sessionId st; canClaim := canClaim st;
     timeUntilNextClaim := timeUntilNextClaim st |}.

Definition setClaimedCoupon (c : option string) (st : State) : State :=
  {| loading := loading st; claimedCoupon := c;
     sessionId := sessionId st; canClaim := canClaim st;
     timeUntilNextClaim := timeUntilNextClaim st |}.

Definition setSessionId (s : string) (st : State) : State :=
  {| loading := loading st; claimedCoupon := claimedCoupon st;
     sessionId := s; canClaim := canClaim st;
     timeUntilNextClaim := timeUntilNextClaim st |}.

Definition setCanClaim (b : bool) (st : State) : State :=
  {| loading := loading st; claimedCoupon := claimedCoupon st;
     sessionId := sessionId st; canClaim := b;
     timeUntilNextClaim := timeUntilNextClaim st |}.

Definition setTimeUntilNextClaim (s : string) (st : State) : State :=
  {| loading := loading st; claimedCoupon := claimedCoupon st;
     sessionId := sessionId st; canClaim := canClaim st;
     timeUntilNextClaim := s |}.

(** [Math.ceil((nextClaimTime.getTime() - now.getTime()) / (1000 * 60))] *)
Definition minutesLeft (nextClaimTime : Date) (now : Z) : JS.Number :=
  match getTime nextClaimTime, getTime (Date_now now) with
  | Some next, Some n =>
      Some (Qceiling (inject_Z (next - n) / inject_Z (1000 * 60))%Q)
  | _, _ => JS.NaN
  end.

(** The text shown for a number of minutes; comparisons with NaN are
    false, so NaN is "not greater than 60" and "different from 1". *)
Definition waitText (minutesLeft : JS.Number) : string :=
  let over := match minutesLeft with Some m => 60 <? m | None => false end in
  let plural := match minutesLeft with Some m => negb (m =? 1) | None => true end in
  if over then "1 hour"
  else JS.toString minutesLeft ++ " minute" ++ (if plural then "s" else "").

(** The message computed by [updateClaimStatus] when the visitor has to
    wait; [now] is the reading of the [new Date()] in that branch. *)
Definition waitMessage (jar : Jar) (now : Z) : string :=
  let lastClaimTime :=
    JS.parseInt (JS.or_else (read_cookie LAST_CLAIM_TIME_COOKIE jar) "0") in
  let nextClaimTime :=
    Date_of (JS.add lastClaimTime (Some (60 * 60 * 1000))) in
  waitText (minutesLeft nextClaimTime now).

(** [updateClaimStatus()].  The clock is read twice: by [canUserClaim()]
    ([now_can]) and, when the answer is no, once more for the minutes that
    are left ([now_left]). *)
Definition updateClaimStatus (jar : Jar) (now_can now_left : Z) (st : State)
  : State :=
  let can := canUserClaim jar now_can in
  let st := setCanClaim can st in
  if negb can then setTimeUntilNextClaim (waitMessage jar now_left) st
  else st.

Record World := {
  ui : State;
  jar : Jar;
  server : Server;
  toasts : list Toast
}.

(** What the surroundings contribute to one run of [claimCoupon]:
    whether the page is served over https, the value of
    [crypto.randomUUID()], the clock at the rate-limit check, the field
    [client_ip] of the session data, for each call whether the store
    answers with an error, the clock when the update is sent, the key and
    creation time the store gives to the claim record, the clock when
    [setLastClaimTime] writes the cookie ([now_done]), and the two readings
    of the [updateClaimStatus] that follows ([now_recheck], [now_left]). *)
Record Env := {
  https : bool;
  randomUUID : string;
  now_check : Z;
  client_ip : option string;
  select_fault : bool;
  update_fault : bool;
  now_update : Z;
  insert_fault : bool;
  claim_key : string;
  claim_stamp : Z;
  revert_fault : bool;
  now_done : Z;
  now_recheck : Z;
  now_left : Z
}.

Definition failed_to_claim : string :=
  "Failed to claim coupon. Please try again later.".

Definition no_coupons : string :=
  "No coupons available at the moment. Please try again later.".

Definition finish (st : State) (j : Jar) (s : Server) (ts : list Toast)
    (t : Toast) : World :=
  {| ui := st; jar := j; server := s; toasts := ts ++ [t] |}.

(** The body of the [try] block of [claimCoupon]; [sid] is the value of
    [sessionId] that the handler closed over ([setSessionId] takes effect
    with the next rendering only).  The client library resolves a call that
    fails to an error object, which the handler tests; the [catch] clause,
    which shows the same "Failed to claim coupon" toast, is reached when
    [toISOString] throws.  The [finally] clause is applied by the caller. *)
Definition claim_remote (e : Env) (sid : string) (st : State) (j : Jar)
    (s : Server) (ts : list Toast) : World :=
  let '(s1, coupon) := select_single [eq_status available] (select_fault e) s in
  match coupon with
  | None => finish st j s1 ts (toast_error no_coupons)
  | Some coupon =>
      match toISOString (Date_now (now_update e)) with
      | None => finish st j s1 ts (toast_error failed_to_claim)
      | Some iso =>
          let '(s2, updated) :=
            update_coupons
              {| set_status := Some claimed;
                 set_claimed_by := Some (Some sid);
                 set_claimed_at := Some (Some iso) |}
              [eq_id (id coupon); eq_status available]
              (update_fault e) s1 in
          if negb updated then finish st j s2 ts (toast_error failed_to_claim)
          else
            let '(s3, inserted) :=
              insert_claim (id coupon)
                (JS.or_else (client_ip e) "0.0.0.0") sid
                (claim_key e) (claim_stamp e) (insert_fault e) s2 in
            if negb inserted then
              let '(s4, _) :=
                update_coupons
                  {| set_status := Some available;
                     set_claimed_by := Some None;
                     set_claimed_at := Some None |}
                  [eq_id (id coupon)]
                  (revert_fault e) s3 in
              finish st j s4 ts (toast_error failed_to_claim)
            else
              let j' := setLastClaimTime (https e) (now_done e) j in
              let st' := setClaimedCoupon (Some (code coupon)) st in
              let st' :=
                updateClaimStatus j' (now_recheck e) (now_left e) st' in
              finish st' j' s3 ts (toast_success "Coupon claimed successfully!")
      end
  end.

Definition finally_setLoading (w : World) : World :=
  {| ui := setLoading false (ui w); jar := jar w; server := server w;
     toasts := toasts w |}.

(** [claimCoupon()] *)
Definition claimCoupon (e : Env) (w : World) : World :=
  let st := ui w in
  let sid := sessionId st in
  let '(ready, st1, j1) :=
    if negb (JS.truthy sid) then
      let '(fresh, j) := getOrCreateSessionId (https e) (randomUUID e) (jar w) in
      if negb (JS.truthy fresh) then (false, st, j)
      else (true, setSessionId fresh st, j)
    else (true, st, jar w) in
  if negb ready then
    finish st1 j1 (server w) (toasts w) (toast_error "Session not initialized")
  else if negb (canUserClaim j1 (now_check e)) then
    finish st1 j1 (server w) (toasts w)
      (toast_error
         ("Please wait " ++ timeUntilNextClaim st
            ++ " before claiming another coupon"))
  else
    finally_setLoading
      (claim_remote e sid (setLoading true st1) j1 (server w) (toasts w)).

End Home.

(** ** The admin dashboard: listing, creating and toggling coupons *)

Module Admin.

Import Browser Remote DateTime.

(** The part of the component state that the handlers read or write:
    the list shown in the table and the expiry field.  The field holds
    [parseInt] of what was typed, which is an integer or NaN. *)
Record State := {
  coupons : list Coupon;
  expiryDays : JS.Number
}.

Definition initial : State := {| coupons := []; expiryDays := Some 7 |}.

Definition setCoupons (l : list Coupon) (st : State) : State :=
  {| coupons := l; expiryDays := expiryDays st |}.

(** [onChange={(e) => setExpiryDays(parseInt(e.target.value))}] *)
Definition setExpiryDays (typed : string) (st : State) : State :=
  {| coupons := coupons st; expiryDays := JS.parseInt typed |}.

Record World := {
  ui : State;
  server : Server;
  toasts : list Toast
}.

Definition notify (t : Toast) (w : World) : World :=
  {| ui := ui w; server := server w; toasts := toasts w ++ [t] |}.

(** [loadCoupons()] *)
Definition loadCoupons (fault : bool) (w : World) : World :=
  let '(s1, reply) := select_coupons fault (server w) in
  match reply with
  | Some data =>
      {| ui := setCoupons data (ui w); server := s1; toasts := toasts w |}
  | None =>
      {| ui := ui w; server := s1;
         toasts := toasts w ++ [toast_error "Failed to load coupons"] |}
  end.

(** The first line of [addCoupon]. *)
Definition generate_code (r : JS.Random) : string :=
  JS.toUpperCase (JS.substring 2 10 (JS.random_toString36 r)).

(** The second and third line of [addCoupon]. *)
Definition expiry_date (tza : Zone) (now : Z) (expiryDays : JS.Number) : Date :=
  let expires_at := Date_now now in
  setDate tza expires_at (JS.add (getDate tza expires_at) expiryDays).

Record AddEnv := {
  random : JS.Random;
  now : Z;
  zone : Zone;
  insert_fault : bool;
  coupon_key : string;
  coupon_stamp : Z;
  reload_fault : bool
}.

(** [addCoupon()] *)
Definition addCoupon (e : AddEnv) (w : World) : World :=
  let code := generate_code (random e) in
  let expires_at := expiry_date (zone e) (now e) (expiryDays (ui w)) in
  match toISOString expires_at with
  | None => notify (toast_error "Failed to add coupon") w
  | Some iso =>
      let '(s1, ok) :=
        insert_coupon code iso (coupon_key e) (coupon_stamp e)
          (insert_fault e) (server w) in
      let w1 := {| ui := ui w; server := s1; toasts := toasts w |} in
      if negb ok then notify (toast_error "Failed to add coupon") w1
      else
        loadCoupons (reload_fault e)
          (notify (toast_success "Coupon added successfully") w1)
  end.

Record ToggleEnv := {
  update_fault : bool;
  refresh_fault : bool
}.

Definition newStatus (coupon : Coupon) : Status :=
  if Status_eqb (status coupon) available then disabled else available.

(** [toggleCouponStatus(coupon)] *)
Definition toggleCouponStatus (e : ToggleEnv) (coupon : Coupon) (w : World)
  : World :=
  let newStatus := newStatus coupon in
  let '(s1, ok) :=
    update_coupons
      {| set_status := Some newStatus;
         set_claimed_by := None;
         set_claimed_at := None |}
      [eq_id (id coupon)]
      (update_fault e) (server w) in
  let w1 := {| ui := ui w; server := s1; toasts := toasts w |} in
  if negb ok then notify (toast_error "Failed to update coupon status") w1
  else
    loadCoupons (refresh_fault e)
      (notify
         (toast_success
            ("Coupon "
               ++ (if Status_eqb newStatus available then "enabled"
                   else "disabled")))
         w1).

(** A click on the toggle button of row [i] of the table:
    [onClick={() => toggleCouponStatus(coupon)}]. *)
Definition click_toggle (e : ToggleEnv) (i : nat) (w : World) : World :=
  match nth_error (coupons (ui w)) i with
  | Some coupon => toggleCouponStatus e coupon w
  | None => w
  end.

(** The status shown in row [i] of the table. *)
Definition shown_status (i : nat) (w : World) : option Status :=
  option_map status (nth_error (coupons (ui w)) i).

End Admin.

(** ** Notions used in the statements *)

(** The coupon invariant of the data model. *)
Definition coupon_ok (c : Remote.Coupon) : Prop :=
  match Remote.status c with
  | Remote.claimed =>
      Remote.claimed_by c <> None /\ Remote.claimed_at c <> None
  | Remote.available =>
      Remote.claimed_by c = None /\ Remote.claimed_at c = None
  | Remote.disabled => True
  end.

Definition table_ok (s : Remote.Server) : Prop :=
  Forall coupon_ok (Remote.coupons (Remote.tables s)).

(** Text made only of decimal digits and upper-case Latin letters. *)
Definition is_digit_or_upper (c : ascii) : bool :=
  let n := nat_of_ascii c in
  (((48 <=? n) && (n <=? 57)) || ((65 <=? n) && (n <=? 90)))%nat.

Fixpoint all_chars (P : ascii -> bool) (s : string) : bool :=
  match s with
  | EmptyString => true
  | String c r => P c && all_chars P r
  end.

Definition is_available (c : Remote.Coupon) : bool :=
  Remote.Status_eqb (Remote.status c) Remote.available.

(** A coupon after a successful claim by [sid] at the instant [at_]. *)
Definition claimed_version (sid : string) (at_ : Z) (c : Remote.Coupon)
  : Remote.Coupon :=
  {| Remote.id := Remote.id c;
     Remote.code := Remote.code c;
     Remote.status := Remote.claimed;
     Remote.claimed_by := Some sid;
     Remote.claimed_at := Some at_;
     Remote.expires_at := Remote.expires_at c;
     Remote.created_at := Remote.created_at c |}.

(** The printed fraction of one half: the single digit "i". *)
Definition one_half : JS.Random := [{| JS.dval := 18; JS.dval_lt := eq_refl |}].

(** The local time value [d] days after the local time of [now]. *)
Definition expiry_target (tza : DateTime.Zone) (now d : Z) : Z :=
  DateTime.LocalTime tza now + d * DateTime.msPerDay.

(** The update issued by the toggle of [coupon], as a function on rows. *)
Definition toggled (coupon x : Remote.Coupon) : Remote.Coupon :=
  if Remote.matches_all [Remote.eq_id (Remote.id coupon)] x then
    Remote.apply_patch
      {| Remote.set_status := Some (Admin.newStatus coupon);
         Remote.set_claimed_by := None; Remote.set_claimed_at := None |} x
  else x.

(** The table on the dashboard shows what the last successful load of the
    coupons returned; it is in step when that is what is stored now. *)
Definition in_step (w : Admin.World) : Prop :=
  Admin.coupons (Admin.ui w)
  = Remote.order_desc (Remote.coupons (Remote.tables (Admin.server w))).

(** A dashboard over the given rows, freshly loaded. *)
Definition dashboard (rows : list Remote.Coupon) : Admin.World :=
  {| Admin.ui := Admin.setCoupons (Remote.order_desc rows) Admin.initial;
     Admin.server :=
       {| Remote.tables := {| Remote.coupons := rows; Remote.claims := [] |};
          Remote.requests := [] |};
     Admin.toasts := [] |}.

Definition no_faults : Admin.ToggleEnv :=
  {| Admin.update_fault := false; Admin.refresh_fault := false |}.

(** A coupon that session "s1" has claimed. *)
Definition claimed_sample : Remote.Coupon :=
  {| Remote.id := "k1"; Remote.code := "AB12CD34";
     Remote.status := Remote.claimed;
     Remote.claimed_by := Some "s1"; Remote.claimed_at := Some 1700000000000;
     Remote.expires_at := 1700600000000; Remote.created_at := 1699990000000 |}.

Definition available_sample : Remote.Coupon :=
  {| Remote.id := "k2"; Remote.code := "ZZ99YY88";
     Remote.status := Remote.available;
     Remote.claimed_by := None; Remote.claimed_at := None;
     Remote.expires_at := 1700600000000; Remote.created_at := 1699980000000 |}.

(** The session is under its rate limit at the time [now]: no last-claim
    timestamp is recorded, or the recorded one is at least one hour old. *)
Definition under_rate_limit (jar : Browser.Jar) (now : Z) : Prop :=
  Browser.read_cookie Home.LAST_CLAIM_TIME_COOKIE jar = None
  \/ exists (s : string) (T : Z),
      Browser.read_cookie Home.LAST_CLAIM_TIME_COOKIE jar = Some s
      /\ JS.parseInt s = Some T
      /\ Z.abs T <= DateTime.maxTime
      /\ 3600000 <= now - T.

(** The row written by the compensating update. *)
Definition reverted_version (c : Remote.Coupon) : Remote.Coupon :=
  {| Remote.id := Remote.id c;
     Remote.code := Remote.code c;
     Remote.status := Remote.available;
     Remote.claimed_by := None;
     Remote.claimed_at := None;
     Remote.expires_at := Remote.expires_at c;
     Remote.created_at := Remote.created_at c |}.

(** The two updates of the claim workflow. *)
Definition claim_patch (sid : string) (at_ : Z) : Remote.Patch :=
  {| Remote.set_status := Some Remote.claimed;
     Remote.set_claimed_by := Some (Some sid);
     Remote.set_claimed_at := Some (Some at_) |}.

Definition revert_patch : Remote.Patch :=
  {| Remote.set_status := Some Remote.available;
     Remote.set_claimed_by := Some None;
     Remote.set_claimed_at := Some None |}.

(** The claim record of a run of the workflow for the coupon [c]. *)
Definition claim_record (e : Home.Env) (sid : string) (c : Remote.Coupon)
  : Remote.Claim :=
  {| Remote.claim_id := Home.claim_key e;
     Remote.coupon_id := Remote.id c;
     Remote.ip_address := JS.or_else (Home.client_ip e) "0.0.0.0";
     Remote.session_id := sid;
     Remote.claim_created_at := Home.claim_stamp e |}.

(** The coupons table once the guarded update for the coupon [c] has gone
    through. *)
Definition claimed_table (sid : string) (at_ : Z) (c : Remote.Coupon)
    (rows : list Remote.Coupon) : list Remote.Coupon :=
  map (fun x =>
         if Remote.matches_all
              [Remote.eq_id (Remote.id c); Remote.eq_status Remote.available] x
         then Remote.apply_patch (claim_patch sid at_) x
         else x)
      rows.

(** A visitor with an initialised session and no earlier claim, in front of
    the given coupons. *)
Definition visitor (rows : list Remote.Coupon) : Home.World :=
  {| Home.ui := Home.setSessionId "s1" Home.initial;
     Home.jar := [Browser.cookieOptions Home.SESSION_ID_COOKIE "s1" true];
     Home.server :=
       {| Remote.tables := {| Remote.coupons := rows; Remote.claims := [] |};
          Remote.requests := [] |};
     Home.toasts := [] |}.

(** Surroundings in which every remote call goes through, and the same
    with a failing insert of the claim record. *)
Definition calm : Home.Env :=
  {| Home.https := true; Home.randomUUID := "u1";
     Home.now_check := 1700000000000; Home.client_ip := None;
     Home.select_fault := false; Home.update_fault := false;
     Home.now_update := 1700000000100; Home.insert_fault := false;
     Home.claim_key := "c1"; Home.claim_stamp := 1700000000200;
     Home.revert_fault := false; Home.now_done := 1700000000300;
     Home.now_recheck := 1700000000301; Home.now_left := 1700000000302 |}.

Definition insert_fails (revert_fault : bool) : Home.Env :=
  {| Home.https := true; Home.randomUUID := "u1";
     Home.now_check := 1700000000000; Home.client_ip := None;
     Home.select_fault := false; Home.update_fault := false;
     Home.now_update := 1700000000100; Home.insert_fault := true;
     Home.claim_key := "c1"; Home.claim_stamp := 1700000000200;
     Home.revert_fault := revert_fault; Home.now_done := 1700000000300;
     Home.now_recheck := 1700000000301; Home.now_left := 1700000000302 |}.

(** No cookie of a name other than [NAME] is listed by [document.cookie]
    with a row that begins with [NAME]. *)
Definition jar_clear (NAME : string) (jar : Browser.Jar) : Prop :=
  Forall
    (fun k =>
       JS.startsWith (Browser.row k) NAME = true -> Browser.name k = NAME)
    jar.

(** No cookie of another name is listed with a row that begins with the
    text "last_claim_time". *)
Definition jar_unambiguous (jar : Browser.Jar) : Prop :=
  jar_clear Home.LAST_CLAIM_TIME_COOKIE jar.

(** The only cookies that [document.cookie] lists with a row beginning with
    [NAME] are the page's own: cookies of the name [NAME] as the handlers
    write them over the protocol at hand (path=/, no domain), which a
    further write under [NAME] replaces. *)
Definition only_own (NAME : string) (https : bool) (jar : Browser.Jar)
  : Prop :=
  Forall
    (fun k =>
       JS.startsWith (Browser.row k) NAME = true ->
       exists v : string, k = Browser.cookieOptions NAME v https)
    jar.

(** A cookie without a name, which [document.cookie] lists as its bare
    value. *)
Definition bare (v : string) (attrs : list string) : Browser.Cookie :=
  {| Browser.name := EmptyString; Browser.value := v;
     Browser.attributes := attrs |}.

(** The characters of an identifier made by [crypto.randomUUID()]:
    hexadecimal digits in lower case, and hyphens. *)
Definition is_uuid_char (c : ascii) : bool :=
  let n := nat_of_ascii c in
  (((48 <=? n) && (n <=? 57)) || ((97 <=? n) && (n <=? 102)) || (n =? 45))%nat.

(** No cookie is listed with a row that begins with [NAME]. *)
Definition not_listed (NAME : string) (jar : Browser.Jar) : Prop :=
  Forall (fun k => JS.startsWith (Browser.row k) NAME = false) jar.

(** The jar holds the last-claim timestamp [T]: a cookie named
    last_claim_time whose value is the decimal text of [T], and no cookie
    listed before it has a row that begins with that name. *)
Definition recorded (T : Z) (jar : Browser.Jar) : Prop :=
  exists (before after : Browser.Jar) (attrs : list string),
    jar
    = (before
         ++ {| Browser.name := Home.LAST_CLAIM_TIME_COOKIE;
               Browser.value := JS.string_of_Z T;
               Browser.attributes := attrs |} :: after)%list
    /\ not_listed Home.LAST_CLAIM_TIME_COOKIE before.

(** The jar holds no last-claim timestamp: no cookie is listed with a row
    that begins with last_claim_time. *)
Definition nothing_recorded (jar : Browser.Jar) : Prop :=
  not_listed Home.LAST_CLAIM_TIME_COOKIE jar.

Definition not_equals_sign (a : ascii) : bool := negb (Ascii.eqb a "=").

(** ** The effect run when the home page is mounted, and its timer *)

Module HomeEffects.

Import Browser Home.

(** The body of the effect: [getOrCreateSessionId()], [setSessionId(sid)],
    [updateClaimStatus()] with its two clock readings. *)
Definition mount (https : bool) (randomUUID : string) (now_can now_left : Z)
    (w : World) : World :=
  let '(sid, j) := getOrCreateSessionId https randomUUID (jar w) in
  {| ui := updateClaimStatus j now_can now_left (setSessionId sid (ui w));
     jar := j; server := server w; toasts := toasts w |}.

(** The callback of [setInterval].  The effect has no dependencies, so the
    [sessionId] the callback compares with is the one of the first
    rendering, the initial state. *)
Definition interval (https : bool) (randomUUID : string)
    (now_can now_left : Z) (w : World) : World :=
  let '(currentSid, j) := getOrCreateSessionId https randomUUID (jar w) in
  let st :=
    if negb (String.eqb currentSid (sessionId initial))
    then setSessionId currentSid (ui w) else ui w in
  {| ui := updateClaimStatus j now_can now_left st;
     jar := j; server := server w; toasts := toasts w |}.

(** The callback run once for each triple of a generator value and two
    clock readings, in order. *)
Fixpoint intervals (https : bool) (runs : list (string * (Z * Z)))
    (w : World) : World :=
  match runs with
  | [] => w
  | (randomUUID, (now_can, now_left)) :: rest =>
      intervals https rest (interval https randomUUID now_can now_left w)
  end.

(** [disabled={loading || !sessionId || !canClaim}] of the claim button. *)
Definition button_disabled (st : State) : bool :=
  loading st || negb (JS.truthy (sessionId st)) || negb (canClaim st).

End HomeEffects.

(** The columns of a coupon that no handler of the two pages writes after
    the row is created. *)
Definition fixed_columns (c : Remote.Coupon) : string * string * Z * Z :=
  (Remote.id c, Remote.code c, Remote.expires_at c, Remote.created_at c).

(** All columns of a coupon but the status. *)
Definition but_status (c : Remote.Coupon)
  : string * string * option string * option Z * Z * Z :=
  (Remote.id c, Remote.code c, Remote.claimed_by c, Remote.claimed_at c,
   Remote.expires_at c, Remote.created_at c).

(** Newest first. *)
Definition newer_or_same (a b : Remote.Coupon) : Prop :=
  Remote.created_at b <= Remote.created_at a.

(** ** Deleting a coupon

    The delete calls are recorded beside the page, as the keys they were
    sent for.  What the store does to the claim records of a deleted coupon
    (refuse the delete, remove them, or keep them) is decided by the
    declaration of the tables, which is not part of the sources: a refusal
    is an error answer, and otherwise the environment supplies the claims
    table the store is left with. *)

Module Deletion.

Import Browser Remote.

Record World := {
  page : Admin.World;
  deleted : list string
}.

Record Env := {
  delete_fault : bool;
  claims_left : list Claim;
  reload_fault : bool
}.

(** [from('coupons').delete().eq('id', id)] *)
Definition delete_coupons (key : string) (fault : bool)
    (claims_left : list Claim) (s : Server) : Server * bool :=
  if fault then (s, false)
  else
    ({| tables :=
          {| coupons :=
               filter (fun c => negb (matches (eq_id key) c))
                 (coupons (tables s));
             claims := claims_left |};
        requests := requests s |},
     true).

(** [deleteCoupon(id)] *)
Definition deleteCoupon (e : Env) (key : string) (w : World) : World :=
  let '(s1, ok) :=
    delete_coupons key (delete_fault e) (claims_left e)
      (Admin.server (page w)) in
  let p1 :=
    {| Admin.ui := Admin.ui (page w); Admin.server := s1;
       Admin.toasts := Admin.toasts (page w) |} in
  if negb ok then
    {| page := Admin.notify (toast_error "Failed to delete coupon") p1;
       deleted := deleted w ++ [key] |}
  else
    {| page :=
         Admin.loadCoupons (reload_fault e)
           (Admin.notify (toast_success "Coupon deleted successfully") p1);
       deleted := deleted w ++ [key] |}.

(** A click on the delete button of row [i] of the table:
    [onClick={() => deleteCoupon(coupon.id)}]. *)
Definition click_delete (e : Env) (i : nat) (w : World) : World :=
  match nth_error (Admin.coupons (Admin.ui (page w))) i with
  | Some coupon => deleteCoupon e (id coupon) w
  | None => w
  end.

End Deletion.

(** The rows whose key is not [key]. *)
Definition without_key (key : string) (l : list Remote.Coupon)
  : list Remote.Coupon :=
  filter (fun c => negb (String.eqb (Remote.id c) key)) l.

(** The keys of the stored coupons are pairwise different. *)
Definition keys_unique (l : list Remote.Coupon) : Prop :=
  NoDup (map Remote.id l).

(** The compensating update for the coupon [c], as a function on rows. *)
Definition compensated (c x : Remote.Coupon) : Remote.Coupon :=
  if Remote.matches_all [Remote.eq_id (Remote.id c)] x
  then Remote.apply_patch revert_patch x else x.

(** * Properties *)

(** ** Calendar arithmetic *)

Section Calendar.

Import DateTime.

Local Ltac split_ifs :=
  repeat match goal with
         | |- context [if ?b then _ else _] => destruct b
         end.

(** [YearFromTime] is the year the day of [t] falls in. *)
Lemma YearFromTime_spec (t : Z) :
  DayFromYear (YearFromTime t) <= Day t < DayFromYear (YearFromTime t + 1).
Proof.
  unfold YearFromTime. set (d := Day t). clearbody d. cbv zeta.
  destruct (Z.ltb_spec d (DayFromYear (1970 + d * 400 / 146097))) as [H1|H1].
  - unfold DayFromYear in *. Z.to_euclidean_division_equations. lia.
  - destruct (Z.leb_spec (DayFromYear (1970 + d * 400 / 146097 + 1)) d)
      as [H2|H2].
    + unfold DayFromYear in *. Z.to_euclidean_division_equations. lia.
    + lia.
Qed.

Lemma MonthFromTime_range (t : Z) : 0 <= MonthFromTime t <= 11.
Proof. unfold MonthFromTime. cbv zeta. split_ifs; lia. Qed.

Lemma DateFromTime_MonthStart (t : Z) :
  DateFromTime t
  = DayWithinYear t - MonthStart (InLeapYear t) (MonthFromTime t) + 1.
Proof.
  unfold DateFromTime, MonthFromTime. cbv zeta.
  split_ifs; cbn [MonthStart]; lia.
Qed.

(** Moving the day of the month by [d] moves the day number by [d]. *)
Lemma MakeDay_same_month (t d : Z) :
  MakeDay (YearFromTime t) (MonthFromTime t) (DateFromTime t + d) = Day t + d.
Proof.
  unfold MakeDay. cbv zeta.
  pose proof (MonthFromTime_range t) as Hm.
  rewrite (Z.div_small (MonthFromTime t) 12) by lia.
  rewrite (Z.mod_small (MonthFromTime t) 12) by lia.
  rewrite Z.add_0_r, DateFromTime_MonthStart.
  unfold DayWithinYear, InLeapYear. lia.
Qed.

Lemma Day_TimeWithinDay (t : Z) : MakeDate (Day t) (TimeWithinDay t) = t.
Proof.
  unfold MakeDate, Day, TimeWithinDay, msPerDay.
  pose proof (Z.div_mod t 86400000). lia.
Qed.

(** [d.setDate(d.getDate() + n)] on a valid date. *)
Lemma setDate_getDate (tza : Zone) (now n : Z) :
  setDate tza (Date_now now) (JS.add (getDate tza (Date_now now)) (Some n))
  = TimeClip (UTC tza (LocalTime tza now + n * msPerDay)).
Proof.
  unfold setDate, getDate, Date_now, JS.add. cbv zeta.
  rewrite MakeDay_same_month. f_equal. f_equal.
  rewrite <- (Day_TimeWithinDay (LocalTime tza now)) at 3.
  unfold MakeDate. lia.
Qed.

Lemma TimeClip_valid (t : Z) : Z.abs t <= maxTime -> TimeClip t = Some t.
Proof.
  intros H. unfold TimeClip.
  destruct (Z.leb_spec (Z.abs t) maxTime); [reflexivity | lia].
Qed.



End Calendar.

(** ** Printing and parsing integers *)

Section Numbers.

Lemma parse_digits_acc (u : Decimal.uint) (acc : positive) :
  JS.parse_digits 10 (NilEmpty.string_of_uint u) (Some (Z.pos acc))
  = Some (Z.pos (Pos.of_uint_acc u acc)).
Proof.
  revert acc. induction u; intros acc; cbn [NilEmpty.string_of_uint JS.parse_digits Pos.of_uint_acc];
    try reflexivity;
    match goal with
    | |- context [JS.digit_value 10 ?c] =>
        let v := eval vm_compute in (JS.digit_value 10 c) in
        change (JS.digit_value 10 c) with v; cbv iota beta
    end;
    rewrite <- IHu; f_equal; f_equal; lia.
Qed.

Lemma parse_digits_zero (u : Decimal.uint) :
  JS.parse_digits 10 (NilEmpty.string_of_uint u) (Some 0)
  = Some (Z.of_N (Pos.of_uint u)).
Proof.
  induction u; cbn [NilEmpty.string_of_uint JS.parse_digits Pos.of_uint];
    try reflexivity;
    match goal with
    | |- context [JS.digit_value 10 ?c] =>
        let v := eval vm_compute in (JS.digit_value 10 c) in
        change (JS.digit_value 10 c) with v; cbv iota beta
    end;
    try (exact IHu);
    match goal with
    | |- JS.parse_digits _ _ (Some ?a) = _ =>
        let v := eval vm_compute in a in change a with v
    end;
    rewrite parse_digits_acc; reflexivity.
Qed.

Lemma parse_digits_start (u : Decimal.uint) :
  u <> Nil ->
  JS.parse_digits 10 (NilEmpty.string_of_uint u) None
  = JS.parse_digits 10 (NilEmpty.string_of_uint u) (Some 0).
Proof.
  destruct u; intros H; try congruence; reflexivity.
Qed.


Lemma parseInt_digits (u : Decimal.uint) :
  u <> Nil ->
  JS.parseInt (NilEmpty.string_of_uint u)
  = JS.parse_digits 10 (NilEmpty.string_of_uint u) (Some 0)
  /\ JS.parseInt (String "-" (NilEmpty.string_of_uint u))
     = option_map Z.opp (JS.parse_digits 10 (NilEmpty.string_of_uint u) (Some 0)).
Proof.
  intros Hu. rewrite <- (parse_digits_start u Hu).
  assert (Hshape : JS.trimStart (NilEmpty.string_of_uint u) = NilEmpty.string_of_uint u
          /\ JS.strip_sign (NilEmpty.string_of_uint u) = (1, NilEmpty.string_of_uint u)
          /\ JS.strip_hex_prefix (NilEmpty.string_of_uint u) = (10, NilEmpty.string_of_uint u)).
  { destruct u as [|v|v|v|v|v|v|v|v|v|v]; try congruence;
      destruct v; repeat split; reflexivity. }
  destruct Hshape as (Ht & Hs & Hx).
  unfold JS.parseInt. split.
  - rewrite Ht, Hs, Hx.
    destruct (JS.parse_digits 10 (NilEmpty.string_of_uint u) None) as [v|];
      [f_equal; lia | reflexivity].
  - cbn [JS.trimStart]. change (JS.is_space "-") with false. cbv iota.
    cbn [JS.strip_sign]. rewrite Hx.
    destruct (JS.parse_digits 10 (NilEmpty.string_of_uint u) None) as [v|];
      [cbn; f_equal; lia | reflexivity].
Qed.

Lemma NilZero_nonnil (u : Decimal.uint) :
  u <> Nil -> NilZero.string_of_uint u = NilEmpty.string_of_uint u.
Proof. destruct u; intros H; [congruence | reflexivity ..]. Qed.

(** Reading back a printed integer. *)
Lemma parseInt_string_of_Z (z : Z) : JS.parseInt (JS.string_of_Z z) = Some z.
Proof.
  unfold JS.string_of_Z. destruct z as [|p|p]; [reflexivity | |];
    cbn [Z.to_int NilZero.string_of_int];
    pose proof (Unsigned.to_uint_nonnil p) as Hn;
    rewrite (NilZero_nonnil _ Hn);
    destruct (parseInt_digits (Pos.to_uint p) Hn) as [Hp Hm];
    [rewrite Hp | rewrite Hm]; rewrite parse_digits_zero, Unsigned.of_to;
    reflexivity.
Qed.

End Numbers.

(** ** The rate limiter *)

Section RateLimiter.

Import Browser DateTime Home.

Lemma hours_at_least_one (a : Z) :
  Qle_bool 1 (inject_Z a / inject_Z (1000 * 60 * 60))%Q = true
  <-> 3600000 <= a.
Proof.
  rewrite Qle_bool_iff.
  change (inject_Z (1000 * 60 * 60)) with (3600000 # 1)%Q.
  unfold Qle, Qdiv, Qmult, Qinv, inject_Z. simpl. lia.
Qed.

Lemma minutes_ceiling (a : Z) :
  Qceiling (inject_Z a / inject_Z (1000 * 60))%Q = - ((- a) / 60000).
Proof.
  change (inject_Z (1000 * 60)) with (60000 # 1)%Q.
  unfold Qceiling, Qfloor, Qopp, Qdiv, Qmult, Qinv, inject_Z. simpl.
  rewrite Z.mul_1_r. reflexivity.
Qed.

(** The ceiling as the least whole number of minutes that covers [a]. *)
Lemma minutes_ceiling_bounds (a : Z) :
  let m := - ((- a) / 60000) in (m - 1) * 60000 < a <= m * 60000.
Proof. cbv zeta. Z.to_euclidean_division_equations. lia. Qed.

Lemma minutes_ceiling_unique (a m : Z) :
  (m - 1) * 60000 < a <= m * 60000 -> - ((- a) / 60000) = m.
Proof. intros H. Z.to_euclidean_division_equations. lia. Qed.

Lemma parseInt_truthy (s : string) (T : Z) :
  JS.parseInt s = Some T -> JS.truthy s = true.
Proof. destruct s; [discriminate | reflexivity]. Qed.

Variable jar : Jar.

Lemma canUserClaim_absent (N : Z) :
  read_cookie LAST_CLAIM_TIME_COOKIE jar = None -> canUserClaim jar N = true.
Proof. intros H. unfold canUserClaim. rewrite H. reflexivity. Qed.

Variables (s : string) (T : Z).
Hypothesis Hread : read_cookie LAST_CLAIM_TIME_COOKIE jar = Some s.
Hypothesis Hparse : JS.parseInt s = Some T.

Lemma canUserClaim_recorded (N : Z) :
  Z.abs T <= maxTime ->
  (canUserClaim jar N = true <-> 3600000 <= N - T).
Proof.
  intros Hv. unfold canUserClaim. rewrite Hread. cbn [JS.truthy_opt].
  rewrite (parseInt_truthy _ _ Hparse). cbn [negb JS.parseInt_opt].
  rewrite Hparse. cbn [Date_of]. rewrite (TimeClip_valid _ Hv).
  cbn [getTime Date_now]. apply hours_at_least_one.
Qed.

Lemma canUserClaim_too_early (N : Z) :
  N - T < 3600000 -> canUserClaim jar N = false.
Proof.
  intros Hlt. unfold canUserClaim. rewrite Hread. cbn [JS.truthy_opt].
  rewrite (parseInt_truthy _ _ Hparse). cbn [negb JS.parseInt_opt].
  rewrite Hparse. cbn [Date_of]. unfold TimeClip.
  destruct (Z.abs T <=? maxTime); cbn [getTime Date_now JS.NaN]; [|reflexivity].
  destruct (Qle_bool 1 (inject_Z (N - T) / inject_Z (1000 * 60 * 60))) eqn:E;
    [|reflexivity].
  apply hours_at_least_one in E. lia.
Qed.

Lemma waitMessage_recorded (N : Z) :
  Z.abs (T + 3600000) <= maxTime ->
  waitMessage jar N = waitText (Some (- ((N - (T + 3600000)) / 60000))).
Proof.
  intros Hv. unfold waitMessage. rewrite Hread. cbn [JS.or_else].
  rewrite (parseInt_truthy _ _ Hparse), Hparse. cbn [JS.add].
  change (60 * 60 * 1000) with 3600000. cbn [Date_of].
  rewrite (TimeClip_valid _ Hv). unfold minutesLeft.
  cbn [getTime Date_now]. rewrite minutes_ceiling.
  replace (- (T + 3600000 - N)) with (N - (T + 3600000)) by lia.
  reflexivity.
Qed.

Lemma updateClaimStatus_wait (N1 N2 : Z) (st : State) :
  Z.abs (T + 3600000) <= maxTime ->
  N1 - T < 3600000 ->
  canClaim (updateClaimStatus jar N1 N2 st) = false
  /\ timeUntilNextClaim (updateClaimStatus jar N1 N2 st)
     = waitText (Some (- ((N2 - (T + 3600000)) / 60000))).
Proof.
  intros Hv Hlt. unfold updateClaimStatus.
  rewrite (canUserClaim_too_early N1 Hlt). cbn [negb].
  rewrite (waitMessage_recorded N2 Hv). split; reflexivity.
Qed.

End RateLimiter.

Lemma waitText_ceiling (m : Z) :
  Home.waitText (Some m)
  = if 60 <? m then "1 hour"
    else JS.string_of_Z m ++ " minute" ++ (if m =? 1 then "" else "s").
Proof.
  unfold Home.waitText. destruct (60 <? m); [reflexivity |].
  cbn [JS.toString]. destruct (m =? 1); reflexivity.
Qed.

Lemma waitText_small (m : Z) :
  1 <= m <= 60 ->
  (Home.waitText (Some m) = "1 minute" <-> m = 1).
Proof.
  intros Hm. split.
  - intros H.
    assert (Hk : exists k : nat, m = Z.of_nat k /\ (k <= 60)%nat).
    { exists (Z.to_nat m). lia. }
    destruct Hk as (k & -> & Hk).
    do 61 (destruct k as [|k]; [first [reflexivity | lia | (vm_compute in H; discriminate H)] |]).
    lia.
  - intros ->. reflexivity.
Qed.

(** ** The generated coupon code *)

Section CouponCode.

Lemma upper_radix_char (d : JS.digit36) :
  is_digit_or_upper (JS.upper_char (JS.radix_char d)) = true.
Proof.
  destruct d as [n Hn].
  do 36 (destruct n as [|n]; [reflexivity |]).
  discriminate Hn.
Qed.

Lemma all_chars_toUpperCase (P : ascii -> bool) (s : string) :
  all_chars P (JS.toUpperCase s) = all_chars (fun c => P (JS.upper_char c)) s.
Proof. induction s as [|c r IH]; cbn; [reflexivity | rewrite IH; reflexivity]. Qed.

Lemma length_toUpperCase (s : string) :
  String.length (JS.toUpperCase s) = String.length s.
Proof. induction s as [|c r IH]; cbn; [reflexivity | rewrite IH; reflexivity]. Qed.

Lemma all_chars_radix_chars (r : list JS.digit36) :
  all_chars (fun c => is_digit_or_upper (JS.upper_char c)) (JS.radix_chars r)
  = true.
Proof.
  induction r as [|d r IH]; cbn; [reflexivity |].
  rewrite upper_radix_char, IH. reflexivity.
Qed.

Lemma all_chars_prefix (P : ascii -> bool) (k : nat) (s : string) :
  all_chars P s = true -> all_chars P (String.substring 0 k s) = true.
Proof.
  revert s. induction k as [|k IH]; intros s H.
  - destruct s; reflexivity.
  - destruct s as [|c r]; [reflexivity |]. cbn in *.
    apply andb_true_iff in H. destruct H as [Hc Hr].
    rewrite Hc, (IH r Hr). reflexivity.
Qed.

Lemma length_prefix (k : nat) (s : string) :
  (String.length (String.substring 0 k s) <= k)%nat.
Proof.
  revert s. induction k as [|k IH]; intros s.
  - destruct s; cbn; lia.
  - destruct s as [|c r]; cbn; [lia |]. specialize (IH r). lia.
Qed.

(** [substring(2, 10)] of a text of at least two characters. *)
Lemma substring_2_10 (a b : ascii) (t : string) :
  JS.substring 2 10 (String a (String b t))
  = String.substring 0 (Nat.min 8 (String.length t)) t.
Proof.
  unfold JS.substring. cbn [String.length].
  replace (Nat.min 2 (S (S (String.length t)))) with 2%nat by lia.
  replace (Nat.min 10 (S (S (String.length t))))
    with (S (S (Nat.min 8 (String.length t)))) by lia.
  replace (Nat.min 2 (S (S (Nat.min 8 (String.length t))))) with 2%nat by lia.
  replace (Nat.max 2 (S (S (Nat.min 8 (String.length t)))))
    with (S (S (Nat.min 8 (String.length t)))) by lia.
  replace (S (S (Nat.min 8 (String.length t))) - 2)%nat
    with (Nat.min 8 (String.length t)) by lia.
  reflexivity.
Qed.

Lemma generate_code_prefix (d : JS.digit36) (r : list JS.digit36) :
  Admin.generate_code (d :: r)
  = JS.toUpperCase
      (String.substring 0 (Nat.min 8 (String.length (JS.radix_chars (d :: r))))
         (JS.radix_chars (d :: r))).
Proof.
  unfold Admin.generate_code, JS.random_toString36.
  change ("0." ++ JS.radix_chars (d :: r))
    with (String "0" (String "." (JS.radix_chars (d :: r)))).
  rewrite substring_2_10. reflexivity.
Qed.



Lemma generate_code_alphanumeric (r : JS.Random) :
  all_chars is_digit_or_upper (Admin.generate_code r) = true.
Proof.
  destruct r as [|d r]; [reflexivity |].
  rewrite generate_code_prefix, all_chars_toUpperCase.
  apply all_chars_prefix, all_chars_radix_chars.
Qed.

Lemma generate_code_length (r : JS.Random) :
  (String.length (Admin.generate_code r) <= 8)%nat.
Proof.
  destruct r as [|d r]; [cbn; lia |].
  rewrite generate_code_prefix, length_toUpperCase.
  pose proof (length_prefix
                (Nat.min 8 (String.length (JS.radix_chars (d :: r))))
                (JS.radix_chars (d :: r))).
  lia.
Qed.

End CouponCode.

(** ** Creating a coupon *)

Section AddCoupon.

Import Browser Remote DateTime Admin.

Variables (e : AddEnv) (w : World) (d : Z).
Hypothesis Hdays : expiryDays (ui w) = Some d.


Lemma expiry_date_days :
  expiry_date (zone e) (now e) (expiryDays (ui w))
  = TimeClip (UTC (zone e) (expiry_target (zone e) (now e) d)).
Proof. unfold expiry_date. rewrite Hdays. apply setDate_getDate. Qed.

Hypothesis Hrange : Z.abs (UTC (zone e) (expiry_target (zone e) (now e) d)) <= maxTime.

Lemma addCoupon_requests :
  requests (server (addCoupon e w))
  = (requests (server w)
       ++ InsertCoupon (generate_code (random e)) (UTC (zone e) (expiry_target (zone e) (now e) d))
       :: (if insert_fault e then [] else [SelectCoupons]))%list.
Proof.
  unfold addCoupon. rewrite expiry_date_days, (TimeClip_valid _ Hrange).
  cbn [toISOString]. unfold insert_coupon, loadCoupons, select_coupons.
  destruct (insert_fault e); cbn.
  - reflexivity.
  - destruct (reload_fault e); cbn; rewrite <- app_assoc; reflexivity.
Qed.

Hypothesis Hinsert : insert_fault e = false.

Lemma addCoupon_table :
  Remote.coupons (tables (server (addCoupon e w)))
  = (Remote.coupons (tables (server w))
       ++ [new_coupon (coupon_key e) (generate_code (random e))
             (UTC (zone e) (expiry_target (zone e) (now e) d)) (coupon_stamp e)])%list.
Proof.
  unfold addCoupon. rewrite expiry_date_days, (TimeClip_valid _ Hrange).
  cbn [toISOString]. unfold insert_coupon, loadCoupons, select_coupons.
  rewrite Hinsert. cbn. destruct (reload_fault e); reflexivity.
Qed.

End AddCoupon.

(** C9. Whatever the random generator yields, the generated code consists
    of decimal digits and upper-case Latin letters only and is at most 8
    characters long; it can be shorter than 8 (one half prints as "0.i" and
    gives the one-letter code "I"); and the handler issues the insert as its
    first request, without reading the table, so that an accepted insert adds
    the row whatever codes are already stored. *)
Theorem coupon_code_shape (r : JS.Random) :
  all_chars is_digit_or_upper (Admin.generate_code r) = true
  /\ (String.length (Admin.generate_code r) <= 8)%nat
  /\ Admin.generate_code one_half = "I"
  /\ Admin.generate_code [] = ""
  /\ (forall (e : Admin.AddEnv) (w : Admin.World) (d : Z),
        Admin.random e = r ->
        Admin.expiryDays (Admin.ui w) = Some d ->
        Z.abs (DateTime.UTC (Admin.zone e)
                 (expiry_target (Admin.zone e) (Admin.now e) d))
          <= DateTime.maxTime ->
        Admin.insert_fault e = false ->
        Remote.requests (Admin.server (Admin.addCoupon e w))
        = (Remote.requests (Admin.server w)
             ++ [Remote.InsertCoupon (Admin.generate_code r)
                   (DateTime.UTC (Admin.zone e)
                      (expiry_target (Admin.zone e) (Admin.now e) d));
                 Remote.SelectCoupons])%list
        /\ Remote.coupons (Remote.tables (Admin.server (Admin.addCoupon e w)))
           = (Remote.coupons (Remote.tables (Admin.server w))
                ++ [Remote.new_coupon (Admin.coupon_key e) (Admin.generate_code r)
                      (DateTime.UTC (Admin.zone e)
                         (expiry_target (Admin.zone e) (Admin.now e) d))
                      (Admin.coupon_stamp e)])%list).
Proof.
  split; [apply generate_code_alphanumeric |].
  split; [apply generate_code_length |].
  split; [reflexivity |]. split; [reflexivity |].
  intros e w d <- Hd Hr Hi. split.
  - rewrite (addCoupon_requests e w d Hd Hr), Hi. reflexivity.
  - apply (addCoupon_table e w d Hd Hr Hi).
Qed.

Lemma coupon_code_shape_witness :
  let e :=
    {| Admin.random := one_half; Admin.now := 1700000000000;
       Admin.zone := fun _ _ => 19800000; Admin.insert_fault := false;
       Admin.coupon_key := "k2"; Admin.coupon_stamp := 1700000000000;
       Admin.reload_fault := false |} in
  let stored :=
    {| Remote.id := "k1"; Remote.code := "I"; Remote.status := Remote.available;
       Remote.claimed_by := None; Remote.claimed_at := None;
       Remote.expires_at := 1700000000000; Remote.created_at := 1600000000000 |} in
  let w :=
    {| Admin.ui := Admin.initial;
       Admin.server :=
         {| Remote.tables := {| Remote.coupons := [stored]; Remote.claims := [] |};
            Remote.requests := [] |};
       Admin.toasts := [] |} in
  map Remote.code (Remote.coupons (Remote.tables (Admin.server (Admin.addCoupon e w))))
  = ["I"; "I"].
Proof.
  intros e w0 w.
  destruct (coupon_code_shape one_half) as (_ & _ & _ & _ & H).
  destruct (H e w 7) as [_ Ht];
    [reflexivity | reflexivity | vm_compute; discriminate | reflexivity |].
  rewrite Ht. reflexivity.
Defined.




(** ** Toggling a coupon *)

Section Toggle.

Import Browser Remote Admin.

Lemma insert_desc_map (f : Coupon -> Coupon) (c : Coupon) (l : list Coupon) :
  (forall x, created_at (f x) = created_at x) ->
  insert_desc (f c) (map f l) = map f (insert_desc c l).
Proof.
  intros Hf. induction l as [|x r IH]; cbn; [reflexivity |].
  rewrite !Hf. destruct (created_at x <? created_at c); cbn;
    [reflexivity | rewrite IH; reflexivity].
Qed.

Lemma order_desc_map (f : Coupon -> Coupon) (l : list Coupon) :
  (forall x, created_at (f x) = created_at x) ->
  order_desc (map f l) = map f (order_desc l).
Proof.
  intros Hf. induction l as [|x r IH]; cbn; [reflexivity |].
  rewrite IH. apply insert_desc_map, Hf.
Qed.

Lemma toggled_created_at (coupon x : Coupon) :
  created_at (toggled coupon x) = created_at x.
Proof. unfold toggled. destruct (matches_all _ x); reflexivity. Qed.

Lemma toggled_self (coupon : Coupon) :
  toggled coupon coupon
  = {| id := id coupon; code := code coupon; status := newStatus coupon;
       claimed_by := claimed_by coupon; claimed_at := claimed_at coupon;
       expires_at := expires_at coupon; created_at := created_at coupon |}.
Proof.
  unfold toggled, matches_all, matches. cbn [forallb].
  rewrite String.eqb_refl. reflexivity.
Qed.

Variables (e : ToggleEnv) (coupon : Coupon) (w : World).
Hypothesis Hupdate : update_fault e = false.
Hypothesis Hrefresh : refresh_fault e = false.

Lemma toggle_table :
  Remote.coupons (tables (server (toggleCouponStatus e coupon w)))
  = map (toggled coupon) (Remote.coupons (tables (server w))).
Proof.
  unfold toggleCouponStatus, update_coupons, loadCoupons, select_coupons.
  rewrite Hupdate, Hrefresh. reflexivity.
Qed.

Lemma toggle_view :
  coupons (ui (toggleCouponStatus e coupon w))
  = order_desc (map (toggled coupon) (Remote.coupons (tables (server w)))).
Proof.
  unfold toggleCouponStatus, update_coupons, loadCoupons, select_coupons.
  rewrite Hupdate, Hrefresh. reflexivity.
Qed.

End Toggle.

Lemma click_twice_view (e1 e2 : Admin.ToggleEnv) (w : Admin.World) (i : nat)
    (c : Remote.Coupon) :
  in_step w ->
  nth_error (Admin.coupons (Admin.ui w)) i = Some c ->
  Admin.update_fault e1 = false -> Admin.refresh_fault e1 = false ->
  Admin.update_fault e2 = false -> Admin.refresh_fault e2 = false ->
  nth_error
    (Admin.coupons (Admin.ui (Admin.click_toggle e2 i (Admin.click_toggle e1 i w))))
    i
  = Some (toggled (toggled c c) (toggled c c)).
Proof.
  intros Hstep Hrow Hu1 Hr1 Hu2 Hr2.
  unfold Admin.click_toggle at 2. rewrite Hrow.
  assert (Hview1 :
            Admin.coupons (Admin.ui (Admin.toggleCouponStatus e1 c w))
            = map (toggled c) (Admin.coupons (Admin.ui w))).
  { rewrite (toggle_view e1 c w Hu1 Hr1), Hstep.
    apply order_desc_map, toggled_created_at. }
  assert (Hrow1 :
            nth_error (Admin.coupons (Admin.ui (Admin.toggleCouponStatus e1 c w))) i
            = Some (toggled c c)).
  { rewrite Hview1, nth_error_map, Hrow. reflexivity. }
  unfold Admin.click_toggle. rewrite Hrow1.
  rewrite (toggle_view e2 _ _ Hu2 Hr2), (toggle_table e1 c w Hu1 Hr1).
  rewrite !order_desc_map by apply toggled_created_at.
  rewrite <- Hstep, !nth_error_map, Hrow. reflexivity.
Qed.

(** C5, as amended.  For every coupon shown on the dashboard whose status
    is available or disabled, two clicks on its toggle button in succession
    leave the row as it was: the status is back to the original one. *)
Theorem toggle_twice_restores_status
    (e1 e2 : Admin.ToggleEnv) (w : Admin.World) (i : nat) (c : Remote.Coupon) :
  in_step w ->
  nth_error (Admin.coupons (Admin.ui w)) i = Some c ->
  Remote.status c <> Remote.claimed ->
  Admin.update_fault e1 = false -> Admin.refresh_fault e1 = false ->
  Admin.update_fault e2 = false -> Admin.refresh_fault e2 = false ->
  nth_error
    (Admin.coupons (Admin.ui (Admin.click_toggle e2 i (Admin.click_toggle e1 i w))))
    i
  = Some c
  /\ Admin.shown_status i (Admin.click_toggle e2 i (Admin.click_toggle e1 i w))
     = Some (Remote.status c).
Proof.
  intros Hstep Hrow Hst Hu1 Hr1 Hu2 Hr2.
  assert (Heq : toggled (toggled c c) (toggled c c) = c).
  { rewrite !toggled_self. destruct c as [k cd st cb ca ex cr].
    cbn in Hst |- *. destruct st; [reflexivity | congruence | reflexivity]. }
  unfold Admin.shown_status.
  rewrite (click_twice_view e1 e2 w i c Hstep Hrow Hu1 Hr1 Hu2 Hr2), Heq.
  split; reflexivity.
Qed.

Lemma toggle_twice_restores_status_witness :
  Admin.shown_status 0
    (Admin.click_toggle no_faults 0
       (Admin.click_toggle no_faults 0 (dashboard [available_sample])))
  = Some Remote.available.
Proof.
  apply (toggle_twice_restores_status no_faults no_faults
           (dashboard [available_sample]) 0 available_sample);
    [reflexivity | reflexivity | discriminate | reflexivity ..].
Defined.

(** C5 as stated fails on a claimed coupon: the first click makes it
    available, the second one disabled. *)
Lemma toggle_twice_claimed_counterexample :
  Admin.shown_status 0 (dashboard [claimed_sample]) = Some Remote.claimed
  /\ Admin.shown_status 0
       (Admin.click_toggle no_faults 0 (dashboard [claimed_sample]))
     = Some Remote.available
  /\ Admin.shown_status 0
       (Admin.click_toggle no_faults 0
          (Admin.click_toggle no_faults 0 (dashboard [claimed_sample])))
     = Some Remote.disabled
  /\ ~ (forall (w : Admin.World) (i : nat),
          in_step w ->
          Admin.shown_status i
            (Admin.click_toggle no_faults i (Admin.click_toggle no_faults i w))
          = Admin.shown_status i w).
Proof.
  split; [reflexivity |]. split; [reflexivity |]. split; [reflexivity |].
  intros H. specialize (H (dashboard [claimed_sample]) 0%nat eq_refl).
  discriminate H.
Qed.

(** ** The claim workflow *)

Section ClaimWorkflow.

Import Browser Remote Home.

Lemma under_rate_limit_eligible (j : Jar) (now : Z) :
  under_rate_limit j now -> canUserClaim j now = true.
Proof.
  intros [Hnone | (s & T & Hread & Hparse & Hv & Hold)].
  - apply canUserClaim_absent, Hnone.
  - apply (canUserClaim_recorded j s T Hread Hparse now Hv), Hold.
Qed.

Lemma truthy_nonempty (s : string) : s <> EmptyString -> JS.truthy s = true.
Proof. destruct s; [congruence | reflexivity]. Qed.

Lemma matches_available (x : Coupon) :
  matches_all [eq_status available] x = is_available x.
Proof. unfold matches_all, is_available. cbn. apply andb_true_r. Qed.

Lemma find_available (l : list Coupon) :
  find (matches_all [eq_status available]) l = find is_available l.
Proof.
  induction l as [|x r IH]; cbn [find]; [reflexivity |].
  rewrite matches_available, IH. reflexivity.
Qed.

(** A list with exactly one element satisfying [P]. *)
Lemma filter_singleton {A : Type} (P : A -> bool) (l : list A) (c : A) :
  filter P l = [c] ->
  exists l1 l2,
    l = (l1 ++ c :: l2)%list /\ P c = true
    /\ Forall (fun x => P x = false) l1
    /\ Forall (fun x => P x = false) l2.
Proof.
  induction l as [|x r IH]; cbn [filter]; [discriminate |].
  destruct (P x) eqn:Px; intros H.
  - inversion H as [[Hx Hr]]. subst x. exists [], r.
    repeat split; [exact Px | constructor |].
    clear - Hr. induction r as [|y r IH]; [constructor |].
    cbn [filter] in Hr. destruct (P y) eqn:Py; [discriminate |].
    constructor; [exact Py | apply IH, Hr].
  - destruct (IH H) as (l1 & l2 & -> & Pc & H1 & H2).
    exists (x :: l1), l2. repeat split; try assumption.
    constructor; assumption.
Qed.

Lemma find_app_skip {A : Type} (P : A -> bool) (l1 l2 : list A) :
  Forall (fun x => P x = false) l1 -> find P (l1 ++ l2) = find P l2.
Proof.
  intros H. induction l1 as [|x r IH]; [reflexivity |].
  inversion H as [|? ? Hx Hr]; subst. cbn [List.app find].
  rewrite Hx. apply IH, Hr.
Qed.

Lemma map_unchanged {A : Type} (Q : A -> bool) (f : A -> A) (l : list A) :
  Forall (fun x => Q x = false) l ->
  map (fun x => if Q x then f x else x) l = l.
Proof.
  intros H. induction l as [|x r IH]; [reflexivity |].
  inversion H as [|? ? Hx Hr]; subst. cbn [map].
  rewrite Hx, (IH Hr). reflexivity.
Qed.

(** Past the two checks, the handler runs the remote part. *)
Lemma claimCoupon_ready (e : Env) (w : World) :
  sessionId (ui w) <> EmptyString ->
  canUserClaim (jar w) (now_check e) = true ->
  claimCoupon e w
  = finally_setLoading
      (claim_remote e (sessionId (ui w)) (setLoading true (ui w)) (jar w)
         (server w) (toasts w)).
Proof.
  intros Hsid Hcan. unfold claimCoupon.
  rewrite (truthy_nonempty _ Hsid). cbn [negb]. rewrite Hcan. reflexivity.
Qed.

Lemma cookie_set_member (c : Cookie) (j : Jar) :
  In c (document_cookie_set c j).
Proof.
  induction j as [|x r IH]; cbn [document_cookie_set]; [left; reflexivity |].
  destruct (String.eqb (name x) (name c)); [left; reflexivity | right; exact IH].
Qed.

End ClaimWorkflow.

Section ClaimRuns.

Import Browser Remote Home.

Lemma guarded_update_table (p : Patch) (c : Coupon) (l1 l2 : list Coupon) :
  Forall (fun x => is_available x = false) l1 ->
  Forall (fun x => is_available x = false) l2 ->
  is_available c = true ->
  map (fun x =>
         if matches_all [eq_id (id c); eq_status available] x
         then apply_patch p x else x)
      (l1 ++ c :: l2)
  = (l1 ++ apply_patch p c :: l2)%list.
Proof.
  intros H1 H2 Hc.
  assert (Hskip : forall l,
             Forall (fun x => is_available x = false) l ->
             Forall (fun x =>
                       matches_all [eq_id (id c); eq_status available] x
                       = false) l).
  { intros l Hl. eapply Forall_impl; [|exact Hl]. intros x Hx.
    unfold matches_all. cbn [forallb matches].
    fold (is_available x). rewrite Hx.
    destruct (String.eqb (id x) (id c)); reflexivity. }
  rewrite map_app. cbn [map].
  rewrite (map_unchanged _ _ l1 (Hskip l1 H1)).
  rewrite (map_unchanged _ _ l2 (Hskip l2 H2)).
  unfold matches_all at 1. cbn [forallb matches].
  fold (is_available c). rewrite Hc, String.eqb_refl. reflexivity.
Qed.

Variables (e : Env) (w : World) (c : Coupon).
Hypothesis Hsid : sessionId (ui w) <> EmptyString.
Hypothesis Hcan : canUserClaim (jar w) (now_check e) = true.
Hypothesis Hselect : select_fault e = false.
Hypothesis Hfound : find is_available (coupons (tables (server w))) = Some c.
Hypothesis Hupdate : update_fault e = false.

Lemma claimCoupon_inserted :
  insert_fault e = false ->
  claimCoupon e w
  = {| ui :=
         setLoading false
           (updateClaimStatus
              (setLastClaimTime (https e) (now_done e) (jar w))
              (now_recheck e) (now_left e)
              (setClaimedCoupon (Some (code c)) (setLoading true (ui w))));
       jar := setLastClaimTime (https e) (now_done e) (jar w);
       server :=
         {| tables :=
              {| coupons :=
                   claimed_table (sessionId (ui w)) (now_update e) c
                     (coupons (tables (server w)));
                 claims :=
                   claims (tables (server w))
                     ++ [claim_record e (sessionId (ui w)) c] |};
            requests :=
              requests (server w)
                ++ [SelectSingle [eq_status available];
                    UpdateCoupons
                      (claim_patch (sessionId (ui w)) (now_update e))
                      [eq_id (id c); eq_status available];
                    InsertClaim (id c) (JS.or_else (client_ip e) "0.0.0.0")
                      (sessionId (ui w))] |};
       toasts := toasts w ++ [toast_success "Coupon claimed successfully!"] |}.
Proof.
  intros Hinsert. rewrite (claimCoupon_ready e w Hsid Hcan).
  unfold claim_remote, select_single. rewrite Hselect, find_available, Hfound.
  cbn [DateTime.toISOString DateTime.Date_now].
  unfold update_coupons. rewrite Hupdate. cbn [negb].
  unfold insert_claim. rewrite Hinsert. cbn [negb].
  unfold finish, finally_setLoading, received, with_coupons, with_claims,
    claimed_table, claim_record, claim_patch.
  cbn [ui jar server toasts tables requests coupons claims].
  rewrite <- !app_assoc. reflexivity.
Qed.

Lemma claimCoupon_reverted :
  insert_fault e = true ->
  claimCoupon e w
  = {| ui := setLoading false (setLoading true (ui w));
       jar := jar w;
       server :=
         {| tables :=
              {| coupons :=
                   if revert_fault e then
                     claimed_table (sessionId (ui w)) (now_update e) c
                       (coupons (tables (server w)))
                   else
                     map (fun x =>
                            if matches_all [eq_id (id c)] x
                            then apply_patch revert_patch x else x)
                         (claimed_table (sessionId (ui w)) (now_update e) c
                            (coupons (tables (server w))));
                 claims := claims (tables (server w)) |};
            requests :=
              requests (server w)
                ++ [SelectSingle [eq_status available];
                    UpdateCoupons
                      (claim_patch (sessionId (ui w)) (now_update e))
                      [eq_id (id c); eq_status available];
                    InsertClaim (id c) (JS.or_else (client_ip e) "0.0.0.0")
                      (sessionId (ui w));
                    UpdateCoupons revert_patch [eq_id (id c)]] |};
       toasts := toasts w ++ [toast_error failed_to_claim] |}.
Proof.
  intros Hinsert. rewrite (claimCoupon_ready e w Hsid Hcan).
  unfold claim_remote, select_single. rewrite Hselect, find_available, Hfound.
  cbn [DateTime.toISOString DateTime.Date_now].
  unfold update_coupons at 2. rewrite Hupdate. cbn [negb].
  unfold insert_claim. rewrite Hinsert. cbn [negb].
  unfold update_coupons.
  destruct (revert_fault e);
    unfold finish, finally_setLoading, received, with_coupons, with_claims,
      claimed_table, claim_patch, revert_patch;
    cbn [ui jar server toasts tables requests coupons claims];
    rewrite <- !app_assoc; reflexivity.
Qed.

End ClaimRuns.

Section ClaimOutcomes.

Import Browser Remote Home.

Lemma updateClaimStatus_claimedCoupon (j : Jar) (n n' : Z) (st : State) :
  claimedCoupon (updateClaimStatus j n n' st) = claimedCoupon st.
Proof. unfold updateClaimStatus. destruct (canUserClaim j n); reflexivity. Qed.

Lemma filter_nil_find {A : Type} (P : A -> bool) (l : list A) :
  filter P l = [] -> find P l = None.
Proof.
  induction l as [|x r IH]; cbn [filter find]; [reflexivity |].
  destruct (P x); [discriminate | exact IH].
Qed.

(** With no row to claim, or with a failing query, the handler stops
    after the query. *)
Lemma claimCoupon_nothing_found (e : Env) (w : World) :
  sessionId (ui w) <> EmptyString ->
  canUserClaim (jar w) (now_check e) = true ->
  select_fault e = true
  \/ find is_available (coupons (tables (server w))) = None ->
  claimCoupon e w
  = {| ui := setLoading false (setLoading true (ui w));
       jar := jar w;
       server := received (SelectSingle [eq_status available]) (server w);
       toasts := toasts w ++ [toast_error no_coupons] |}.
Proof.
  intros Hsid Hcan Hnone. rewrite (claimCoupon_ready e w Hsid Hcan).
  unfold claim_remote, select_single.
  destruct (select_fault e) eqn:Hf; [reflexivity |].
  destruct Hnone as [Hn | Hn]; [discriminate |].
  rewrite find_available, Hn. reflexivity.
Qed.

Lemma reverted_after_claim (sid : string) (at_ : Z) (c x : Coupon) :
  id x = id c ->
  (if matches_all [eq_id (id c)]
        (if matches_all [eq_id (id c); eq_status available] x
         then apply_patch (claim_patch sid at_) x else x)
   then apply_patch revert_patch
          (if matches_all [eq_id (id c); eq_status available] x
           then apply_patch (claim_patch sid at_) x else x)
   else (if matches_all [eq_id (id c); eq_status available] x
         then apply_patch (claim_patch sid at_) x else x))
  = reverted_version x.
Proof.
  intros Hid.
  destruct (matches_all [eq_id (id c); eq_status available] x);
    unfold matches_all; cbn [forallb matches apply_patch claim_patch id
                               set_status set_claimed_by set_claimed_at];
    rewrite Hid, String.eqb_refl; reflexivity.
Qed.

End ClaimOutcomes.

(** C1. With exactly one available coupon [c] stored, a session that is
    under its rate limit, and remote calls that go through, the claim
    workflow reports success: [c] becomes claimed by the session identifier
    at the time of the update while every other row stays as it was, one
    claim record referencing [c] is added, the last-claim cookie is set to
    the current time, and the code of [c] is handed to the page. *)
Theorem claimCoupon_succeeds
    (e : Home.Env) (w : Home.World) (c : Remote.Coupon) :
  Home.sessionId (Home.ui w) <> "" ->
  under_rate_limit (Home.jar w) (Home.now_check e) ->
  filter is_available (Remote.coupons (Remote.tables (Home.server w))) = [c] ->
  Home.select_fault e = false ->
  Home.update_fault e = false ->
  Home.insert_fault e = false ->
  let w' := Home.claimCoupon e w in
  let sid := Home.sessionId (Home.ui w) in
  Home.toasts w'
  = (Home.toasts w ++ [Browser.toast_success "Coupon claimed successfully!"])%list
  /\ (exists l1 l2 : list Remote.Coupon,
         Remote.coupons (Remote.tables (Home.server w)) = (l1 ++ c :: l2)%list
         /\ Remote.coupons (Remote.tables (Home.server w'))
            = (l1 ++ claimed_version sid (Home.now_update e) c :: l2)%list)
  /\ Remote.claims (Remote.tables (Home.server w'))
     = (Remote.claims (Remote.tables (Home.server w))
          ++ [claim_record e sid c])%list
  /\ Remote.coupon_id (claim_record e sid c) = Remote.id c
  /\ Home.jar w'
     = Browser.document_cookie_set
         (Browser.cookieOptions Home.LAST_CLAIM_TIME_COOKIE
            (JS.string_of_Z (Home.now_done e)) (Home.https e))
         (Home.jar w)
  /\ (exists k : Browser.Cookie,
         In k (Home.jar w')
         /\ Browser.name k = Home.LAST_CLAIM_TIME_COOKIE
         /\ JS.parseInt (Browser.value k) = Some (Home.now_done e))
  /\ Home.claimedCoupon (Home.ui w') = Some (Remote.code c)
  /\ Home.loading (Home.ui w') = false.
Proof.
  intros Hsid Hlimit Hone Hsel Hupd Hins w' sid.
  pose proof (under_rate_limit_eligible _ _ Hlimit) as Hcan.
  destruct (filter_singleton _ _ _ Hone) as (l1 & l2 & Hl & Hc & H1 & H2).
  assert (Hfound :
            find is_available (Remote.coupons (Remote.tables (Home.server w)))
            = Some c).
  { rewrite Hl, (find_app_skip _ _ _ H1). cbn [find]. rewrite Hc. reflexivity. }
  subst w'. rewrite (claimCoupon_inserted e w c Hsid Hcan Hsel Hfound Hupd Hins).
  cbn [Home.toasts Home.server Home.jar Home.ui Remote.tables Remote.coupons
         Remote.claims].
  split; [reflexivity |]. split.
  { exists l1, l2. split; [exact Hl |].
    unfold claimed_table. rewrite Hl.
    rewrite (guarded_update_table _ c l1 l2 H1 H2 Hc). reflexivity. }
  split; [reflexivity |]. split; [reflexivity |]. split; [reflexivity |].
  split.
  { eexists. split; [apply cookie_set_member |].
    split; [reflexivity | apply parseInt_string_of_Z]. }
  split; [| reflexivity].
  cbn [Home.setLoading Home.claimedCoupon].
  rewrite updateClaimStatus_claimedCoupon. reflexivity.
Qed.

Lemma claimCoupon_succeeds_witness :
  Home.claimedCoupon
    (Home.ui (Home.claimCoupon calm (visitor [claimed_sample; available_sample])))
  = Some "ZZ99YY88".
Proof.
  apply (claimCoupon_succeeds calm (visitor [claimed_sample; available_sample])
           available_sample);
    [discriminate | left; reflexivity | reflexivity | reflexivity
    | reflexivity | reflexivity].
Defined.

(** C4. With no available coupon stored, the claim workflow of an eligible
    session ends with the "no coupons available" failure and changes
    nothing: the two tables and the cookie jar, the last-claim cookie
    included, are as before; the only request sent is the query. *)
Theorem claimCoupon_none_available (e : Home.Env) (w : Home.World) :
  Home.sessionId (Home.ui w) <> "" ->
  under_rate_limit (Home.jar w) (Home.now_check e) ->
  filter is_available (Remote.coupons (Remote.tables (Home.server w))) = [] ->
  let w' := Home.claimCoupon e w in
  Home.toasts w' = (Home.toasts w ++ [Browser.toast_error Home.no_coupons])%list
  /\ Remote.tables (Home.server w') = Remote.tables (Home.server w)
  /\ Home.jar w' = Home.jar w
  /\ Browser.read_cookie Home.LAST_CLAIM_TIME_COOKIE (Home.jar w')
     = Browser.read_cookie Home.LAST_CLAIM_TIME_COOKIE (Home.jar w)
  /\ Remote.requests (Home.server w')
     = (Remote.requests (Home.server w)
          ++ [Remote.SelectSingle [Remote.eq_status Remote.available]])%list
  /\ Home.claimedCoupon (Home.ui w') = Home.claimedCoupon (Home.ui w).
Proof.
  intros Hsid Hlimit Hzero w'.
  pose proof (under_rate_limit_eligible _ _ Hlimit) as Hcan.
  subst w'.
  rewrite (claimCoupon_nothing_found e w Hsid Hcan
             (or_intror (filter_nil_find _ _ Hzero))).
  repeat split; reflexivity.
Qed.

Lemma claimCoupon_none_available_witness :
  Home.toasts (Home.claimCoupon calm (visitor [claimed_sample]))
  = [Browser.toast_error Home.no_coupons].
Proof.
  apply (claimCoupon_none_available calm (visitor [claimed_sample]));
    [discriminate | left; reflexivity | reflexivity].
Defined.

(** C3. In every run in which the query returned the coupon [c], the
    update went through and the insert of the claim record failed, the
    workflow sends the compensating update (status available, claimed_by
    and claimed_at null, for the key of [c]) and reports "Failed to claim
    coupon" whether or not that update succeeds; when it succeeds, every
    row with the key of [c] is available with both fields null. *)
Theorem claimCoupon_compensates
    (e : Home.Env) (w : Home.World) (c : Remote.Coupon) :
  Home.sessionId (Home.ui w) <> "" ->
  under_rate_limit (Home.jar w) (Home.now_check e) ->
  Home.select_fault e = false ->
  find is_available (Remote.coupons (Remote.tables (Home.server w))) = Some c ->
  Home.update_fault e = false ->
  Home.insert_fault e = true ->
  let w' := Home.claimCoupon e w in
  let sid := Home.sessionId (Home.ui w) in
  Home.toasts w' = (Home.toasts w ++ [Browser.toast_error Home.failed_to_claim])%list
  /\ Remote.requests (Home.server w')
     = (Remote.requests (Home.server w)
          ++ [Remote.SelectSingle [Remote.eq_status Remote.available];
              Remote.UpdateCoupons (claim_patch sid (Home.now_update e))
                [Remote.eq_id (Remote.id c); Remote.eq_status Remote.available];
              Remote.InsertClaim (Remote.id c)
                (JS.or_else (Home.client_ip e) "0.0.0.0") sid;
              Remote.UpdateCoupons revert_patch [Remote.eq_id (Remote.id c)]])%list
  /\ (Home.revert_fault e = false ->
      In (reverted_version c) (Remote.coupons (Remote.tables (Home.server w')))
      /\ Forall (fun x =>
                   Remote.id x = Remote.id c ->
                   Remote.status x = Remote.available
                   /\ Remote.claimed_by x = None
                   /\ Remote.claimed_at x = None)
           (Remote.coupons (Remote.tables (Home.server w'))))
  /\ Remote.claims (Remote.tables (Home.server w'))
     = Remote.claims (Remote.tables (Home.server w))
  /\ Home.jar w' = Home.jar w
  /\ Home.claimedCoupon (Home.ui w') = Home.claimedCoupon (Home.ui w).
Proof.
  intros Hsid Hlimit Hsel Hfound Hupd Hins w' sid.
  pose proof (under_rate_limit_eligible _ _ Hlimit) as Hcan.
  subst w' sid.
  rewrite (claimCoupon_reverted e w c Hsid Hcan Hsel Hfound Hupd Hins).
  cbn [Home.toasts Home.server Home.jar Home.ui Remote.tables Remote.coupons
         Remote.claims Remote.requests].
  split; [reflexivity |]. split; [reflexivity |].
  split; [| repeat split; reflexivity].
  intros Hrev. rewrite Hrev. unfold claimed_table. rewrite map_map.
  split.
  - apply in_map_iff. exists c. split.
    + apply (reverted_after_claim _ (Home.now_update e) c c eq_refl).
    + apply (find_some _ _ Hfound).
  - apply Forall_forall. intros y Hy Hid.
    apply in_map_iff in Hy. destruct Hy as (x & Hx & _). cbv beta in Hx.
    destruct (String.eqb_spec (Remote.id x) (Remote.id c)) as [Heq | Hne].
    + rewrite (reverted_after_claim _ (Home.now_update e) c x Heq) in Hx.
      subst y. repeat split; reflexivity.
    + exfalso. apply Hne. rewrite <- Hid, <- Hx.
      unfold Remote.matches_all. cbn [forallb Remote.matches].
      destruct (String.eqb_spec (Remote.id x) (Remote.id c)) as [|_];
        [contradiction |].
      cbn [andb]. rewrite (proj2 (String.eqb_neq _ _) Hne). reflexivity.
Qed.

Lemma claimCoupon_compensates_witness :
  Home.toasts (Home.claimCoupon (insert_fails true) (visitor [available_sample]))
  = [Browser.toast_error Home.failed_to_claim]
  /\ Remote.coupons
       (Remote.tables
          (Home.server
             (Home.claimCoupon (insert_fails false) (visitor [available_sample]))))
     = [available_sample].
Proof.
  split.
  - apply (claimCoupon_compensates (insert_fails true)
             (visitor [available_sample]) available_sample);
      [discriminate | left; reflexivity | reflexivity | reflexivity
      | reflexivity | reflexivity].
  - destruct (claimCoupon_compensates (insert_fails false)
                (visitor [available_sample]) available_sample)
      as (_ & _ & _ & _);
      [discriminate | left; reflexivity | reflexivity | reflexivity
      | reflexivity | reflexivity |].
    reflexivity.
Defined.

(** ** The coupon invariant *)

Section Invariant.

Import Browser Remote.

Lemma update_keeps_invariant (p : Patch) (fs : list Filter) (fault : bool)
    (s : Server) :
  (forall x, coupon_ok x -> matches_all fs x = true ->
             coupon_ok (apply_patch p x)) ->
  table_ok s -> table_ok (fst (update_coupons p fs fault s)).
Proof.
  intros Hp Hs. unfold update_coupons, table_ok in *.
  destruct fault; cbn; [exact Hs |].
  apply Forall_forall. intros y Hy. apply in_map_iff in Hy.
  destruct Hy as (x & <- & Hx).
  pose proof (proj1 (Forall_forall _ _) Hs x Hx) as Hok.
  destruct (matches_all fs x) eqn:Hm; [apply Hp; assumption | exact Hok].
Qed.

Lemma claim_patch_ok (sid : string) (at_ : Z) (x : Coupon) :
  coupon_ok (apply_patch (claim_patch sid at_) x).
Proof. unfold coupon_ok. cbn. split; discriminate. Qed.

Lemma revert_patch_ok (x : Coupon) : coupon_ok (apply_patch revert_patch x).
Proof. unfold coupon_ok. cbn. split; reflexivity. Qed.

Lemma new_coupon_ok (key code : string) (expires stamp : Z) :
  coupon_ok (new_coupon key code expires stamp).
Proof. unfold coupon_ok. cbn. split; reflexivity. Qed.

Lemma insert_claim_keeps_invariant (a b c k : string) (stamp : Z)
    (fault : bool) (s : Server) :
  table_ok s -> table_ok (fst (insert_claim a b c k stamp fault s)).
Proof. intros Hs. unfold insert_claim. destruct fault; exact Hs. Qed.

Lemma claim_remote_keeps_invariant (e : Home.Env) (sid : string)
    (st : Home.State) (j : Jar) (s : Server) (ts : list Toast) :
  table_ok s -> table_ok (Home.server (Home.claim_remote e sid st j s ts)).
Proof.
  intros Hs. unfold Home.claim_remote.
  destruct (select_single [eq_status available] (Home.select_fault e) s)
    as [s1 found] eqn:E1.
  assert (H1 : table_ok s1).
  { unfold select_single in E1.
    destruct (Home.select_fault e); inversion E1; exact Hs. }
  destruct found as [coupon |]; [| exact H1].
  cbn [DateTime.toISOString DateTime.Date_now].
  destruct (update_coupons _ _ (Home.update_fault e) s1) as [s2 updated] eqn:E2.
  assert (H2 : table_ok s2).
  { pose proof (update_keeps_invariant
                  (claim_patch sid (Home.now_update e))
                  [eq_id (id coupon); eq_status available]
                  (Home.update_fault e) s1
                  (fun x _ _ => claim_patch_ok sid (Home.now_update e) x) H1)
      as H.
    unfold claim_patch in H. rewrite E2 in H. exact H. }
  destruct (negb updated); [exact H2 |].
  destruct (insert_claim _ _ _ _ _ (Home.insert_fault e) s2)
    as [s3 inserted] eqn:E3.
  assert (H3 : table_ok s3).
  { pose proof (insert_claim_keeps_invariant (id coupon)
                  (JS.or_else (Home.client_ip e) "0.0.0.0") sid
                  (Home.claim_key e) (Home.claim_stamp e)
                  (Home.insert_fault e) s2 H2) as H.
    rewrite E3 in H. exact H. }
  destruct (negb inserted); [| exact H3].
  destruct (update_coupons _ _ (Home.revert_fault e) s3) as [s4 r] eqn:E4.
  pose proof (update_keeps_invariant revert_patch [eq_id (id coupon)]
                (Home.revert_fault e) s3
                (fun x _ _ => revert_patch_ok x) H3) as H.
  unfold revert_patch in H. rewrite E4 in H. exact H.
Qed.

(** The claim workflow, its compensating update included, keeps the
    invariant on every path. *)
Lemma claimCoupon_keeps_invariant (e : Home.Env) (w : Home.World) :
  table_ok (Home.server w) -> table_ok (Home.server (Home.claimCoupon e w)).
Proof.
  intros Hs. unfold Home.claimCoupon.
  destruct (negb (JS.truthy (Home.sessionId (Home.ui w)))).
  - destruct (Home.getOrCreateSessionId _ _ _) as [fresh j].
    destruct (negb (JS.truthy fresh)); cbn [negb]; [exact Hs |].
    destruct (negb (Home.canUserClaim j (Home.now_check e))); [exact Hs |].
    apply claim_remote_keeps_invariant, Hs.
  - cbn [negb].
    destruct (negb (Home.canUserClaim (Home.jar w) (Home.now_check e)));
      [exact Hs |].
    apply claim_remote_keeps_invariant, Hs.
Qed.

(** Creating a coupon keeps the invariant. *)
Lemma addCoupon_keeps_invariant (e : Admin.AddEnv) (w : Admin.World) :
  table_ok (Admin.server w) -> table_ok (Admin.server (Admin.addCoupon e w)).
Proof.
  intros Hs. unfold Admin.addCoupon.
  destruct (DateTime.toISOString _) as [iso |]; [| exact Hs].
  unfold insert_coupon, Admin.loadCoupons, select_coupons.
  destruct (Admin.insert_fault e); cbn; [exact Hs |].
  destruct (Admin.reload_fault e); cbn;
    (apply Forall_app; split; [exact Hs |]);
    (constructor; [apply new_coupon_ok | constructor]).
Qed.

(** Disabling an available coupon keeps the invariant. *)
Lemma disable_keeps_invariant (e : Admin.ToggleEnv) (coupon : Coupon)
    (w : Admin.World) :
  status coupon = available ->
  table_ok (Admin.server w) ->
  table_ok (Admin.server (Admin.toggleCouponStatus e coupon w)).
Proof.
  intros Hst Hs. unfold Admin.toggleCouponStatus.
  destruct (update_coupons _ _ (Admin.update_fault e) (Admin.server w))
    as [s1 ok] eqn:E1.
  assert (H1 : table_ok s1).
  { pose proof (update_keeps_invariant
                  {| set_status := Some (Admin.newStatus coupon);
                     set_claimed_by := None; set_claimed_at := None |}
                  [eq_id (id coupon)] (Admin.update_fault e) (Admin.server w))
      as H.
    rewrite E1 in H. apply H; [| exact Hs].
    intros x _ _. unfold coupon_ok, Admin.newStatus. rewrite Hst. exact I. }
  destruct (negb ok); [exact H1 |].
  unfold Admin.loadCoupons, select_coupons.
  destruct (Admin.refresh_fault e); exact H1.
Qed.

End Invariant.

(** C6.  The claim workflow with its compensating update and the creation
    of a coupon keep the invariant (lemmas above), but the toggle does not:
    on a claimed coupon it sets the status to available and leaves
    claimed_by and claimed_at as they are. *)
Theorem toggle_claimed_breaks_invariant :
  table_ok (Admin.server (dashboard [claimed_sample]))
  /\ Remote.coupons
       (Remote.tables
          (Admin.server (Admin.click_toggle no_faults 0 (dashboard [claimed_sample]))))
     = [{| Remote.id := "k1"; Remote.code := "AB12CD34";
           Remote.status := Remote.available;
           Remote.claimed_by := Some "s1";
           Remote.claimed_at := Some 1700000000000;
           Remote.expires_at := 1700600000000;
           Remote.created_at := 1699990000000 |}]
  /\ ~ table_ok
         (Admin.server (Admin.click_toggle no_faults 0 (dashboard [claimed_sample]))).
Proof.
  split.
  - constructor; [| constructor]. split; discriminate.
  - split; [reflexivity |].
    intros H. inversion H as [| x l Hx _]. destruct Hx as [Hby _]. discriminate Hby.
Qed.

(** ** Reading the last-claim cookie back *)

Section CookieReadBack.

Import Browser Home.

Lemma string_append_nil_r (s : string) : s ++ EmptyString = s.
Proof. induction s as [|a r IH]; cbn; [reflexivity | rewrite IH; reflexivity]. Qed.

Lemma string_append_assoc (a b c : string) : (a ++ b) ++ c = a ++ (b ++ c).
Proof. induction a as [|x r IH]; cbn; [reflexivity | rewrite IH; reflexivity]. Qed.

(** Splitting a text in which the separator does not occur. *)
Lemma split_from_plain (c : ascii) (cur v : string) :
  all_chars (fun a => negb (Ascii.eqb a c)) v = true ->
  JS.split_from c cur v = [cur ++ v].
Proof.
  revert cur. induction v as [|a r IH]; intros cur H; cbn [JS.split_from].
  - rewrite string_append_nil_r. reflexivity.
  - cbn [all_chars] in H. apply andb_true_iff in H. destruct H as [Ha Hr].
    apply negb_true_iff in Ha. rewrite Ha, (IH _ Hr), string_append_assoc.
    reflexivity.
Qed.

Lemma digits_plain (u : Decimal.uint) :
  all_chars not_equals_sign (NilEmpty.string_of_uint u) = true.
Proof. induction u; cbn; [reflexivity | exact IHu ..]. Qed.

Lemma string_of_Z_plain (z : Z) :
  all_chars not_equals_sign (JS.string_of_Z z) = true.
Proof.
  unfold JS.string_of_Z. destruct z as [|p|p]; [reflexivity | |];
    cbn [Z.to_int NilZero.string_of_int];
    rewrite (NilZero_nonnil _ (Unsigned.to_uint_nonnil p));
    [| cbn [all_chars]; change (not_equals_sign "-") with true; cbn [andb]];
    apply digits_plain.
Qed.

Lemma last_claim_row (v : string) :
  all_chars not_equals_sign v = true ->
  JS.startsWith (LAST_CLAIM_TIME_COOKIE ++ "=" ++ v) LAST_CLAIM_TIME_COOKIE = true
  /\ nth_error (JS.split "=" (LAST_CLAIM_TIME_COOKIE ++ "=" ++ v)) 1 = Some v.
Proof.
  intros Hv. split.
  - reflexivity.
  - unfold JS.split, LAST_CLAIM_TIME_COOKIE. cbn.
    rewrite (split_from_plain "=" EmptyString v Hv). reflexivity.
Qed.

Lemma row_named (k : Cookie) :
  name k <> EmptyString -> row k = name k ++ "=" ++ value k.
Proof. unfold row. destruct (name k); [congruence | reflexivity]. Qed.

Lemma row_cookieOptions (NAME v : string) (https : bool) :
  NAME <> EmptyString -> row (cookieOptions NAME v https) = NAME ++ "=" ++ v.
Proof. intros H. rewrite row_named; [reflexivity | exact H]. Qed.

(** What was written under a name is what is read under it, in a jar
    that is clear for the name. *)
Lemma read_back_named (NAME v : string) (https : bool) (j : Jar) :
  NAME <> EmptyString ->
  jar_clear NAME j ->
  JS.startsWith (NAME ++ "=" ++ v) NAME = true ->
  nth_error (JS.split "=" (NAME ++ "=" ++ v)) 1 = Some v ->
  read_cookie NAME (document_cookie_set (cookieOptions NAME v https) j) = Some v.
Proof.
  intros Hname Hj Hstart Hsplit.
  induction j as [|x r IH]; cbn [document_cookie_set].
  - unfold read_cookie, rows. cbn [map find].
    rewrite (row_cookieOptions _ _ _ Hname), Hstart. exact Hsplit.
  - inversion Hj as [|? ? Hx Hr]; subst. cbn [name cookieOptions].
    destruct (String.eqb_spec (name x) NAME) as [Heq | Hne].
    + unfold read_cookie, rows. cbn [map find].
      rewrite (row_cookieOptions _ _ _ Hname), Hstart. exact Hsplit.
    + unfold read_cookie, rows. cbn [map find].
      destruct (JS.startsWith (row x) NAME) eqn:E; [elim (Hne (Hx eq_refl)) |].
      apply (IH Hr).
Qed.

Lemma read_back (v : string) (https : bool) (j : Jar) :
  jar_unambiguous j ->
  all_chars not_equals_sign v = true ->
  read_cookie LAST_CLAIM_TIME_COOKIE
    (document_cookie_set (cookieOptions LAST_CLAIM_TIME_COOKIE v https) j)
  = Some v.
Proof.
  intros Hj Hv. destruct (last_claim_row v Hv) as [Hstart Hsplit].
  apply read_back_named; [discriminate | exact Hj | exact Hstart | exact Hsplit].
Qed.

(** A recorded timestamp is the one the lookup of the handlers finds. *)
Lemma read_recorded (T : Z) (j : Jar) :
  recorded T j ->
  read_cookie LAST_CLAIM_TIME_COOKIE j = Some (JS.string_of_Z T).
Proof.
  intros (before & after & attrs & -> & Hb).
  destruct (last_claim_row _ (string_of_Z_plain T)) as [Hstart Hsplit].
  unfold read_cookie, rows. rewrite map_app.
  rewrite find_app_skip.
  - cbn [map find]. rewrite row_named by discriminate.
    cbn [name value]. rewrite Hstart. exact Hsplit.
  - clear - Hb. induction Hb as [|x r Hx Hr IH]; cbn [map];
      constructor; assumption.
Qed.

Lemma read_nothing_recorded (j : Jar) :
  nothing_recorded j -> read_cookie LAST_CLAIM_TIME_COOKIE j = None.
Proof.
  intros H. unfold read_cookie, rows.
  assert (E : find (fun row => JS.startsWith row LAST_CLAIM_TIME_COOKIE)
                (map row j) = None).
  { induction H as [|x r Hx Hr IH]; cbn [map find]; [reflexivity |].
    rewrite Hx. exact IH. }
  rewrite E. reflexivity.
Qed.

(** [setLastClaimTime] records its clock reading. *)
Lemma setLastClaimTime_recorded (https : bool) (T : Z) (j : Jar) :
  jar_unambiguous j -> recorded T (setLastClaimTime https T j).
Proof.
  intros Hj. unfold setLastClaimTime.
  cbn [DateTime.getTime DateTime.Date_now JS.toString].
  induction Hj as [|x r Hx Hr IH]; cbn [document_cookie_set].
  - exists [], [], (attributes (cookieOptions LAST_CLAIM_TIME_COOKIE
                                  (JS.string_of_Z T) https)).
    split; [reflexivity | constructor].
  - cbn [name cookieOptions].
    destruct (String.eqb_spec (name x) LAST_CLAIM_TIME_COOKIE) as [Heq | Hne].
    + exists [], r, (attributes (cookieOptions LAST_CLAIM_TIME_COOKIE
                                   (JS.string_of_Z T) https)).
      split; [reflexivity | constructor].
    + destruct IH as (before & after & attrs & E & Hb).
      exists (x :: before), after, attrs. split.
      * cbn [List.app]. f_equal. exact E.
      * constructor; [| exact Hb].
        destruct (JS.startsWith (row x) LAST_CLAIM_TIME_COOKIE) eqn:Es;
          [elim (Hne (Hx eq_refl)) | reflexivity].
Qed.

(** After a successful claim the session has to wait for an hour. *)
Lemma claim_then_rate_limited
    (e : Env) (w : World) (c : Remote.Coupon) (N : Z) :
  sessionId (ui w) <> EmptyString ->
  canUserClaim (jar w) (now_check e) = true ->
  select_fault e = false ->
  find is_available (Remote.coupons (Remote.tables (server w))) = Some c ->
  update_fault e = false ->
  insert_fault e = false ->
  jar_unambiguous (jar w) ->
  Z.abs (now_done e) <= DateTime.maxTime ->
  read_cookie LAST_CLAIM_TIME_COOKIE (jar (claimCoupon e w))
  = Some (JS.string_of_Z (now_done e))
  /\ (canUserClaim (jar (claimCoupon e w)) N = true
      <-> 3600000 <= N - now_done e).
Proof.
  intros Hsid Hcan Hsel Hfound Hupd Hins Hj Hv.
  rewrite (claimCoupon_inserted e w c Hsid Hcan Hsel Hfound Hupd Hins).
  cbn [jar]. unfold setLastClaimTime.
  cbn [DateTime.getTime DateTime.Date_now JS.toString].
  pose proof (read_back (JS.string_of_Z (now_done e)) (https e) (jar w) Hj
                (string_of_Z_plain _)) as Hread.
  split; [exact Hread |].
  apply (canUserClaim_recorded _ _ _ Hread (parseInt_string_of_Z _) N Hv).
Qed.

End CookieReadBack.

(** The singular is used for one minute and for nothing else. *)
Lemma waitText_singular (m : Z) :
  Home.waitText (Some m) = "1 minute" <-> m = 1.
Proof.
  destruct (Z_lt_le_dec 60 m) as [Hbig | Hsmall].
  - unfold Home.waitText. destruct (Z.ltb_spec 60 m); [| lia].
    split; [discriminate | lia].
  - destruct (Z_le_gt_dec 1 m) as [Hpos | Hneg].
    + apply waitText_small. lia.
    + destruct m as [| p | p]; [| lia |].
      * split; [intros H; vm_compute in H; discriminate H | lia].
      * split; [| lia]. intros H. unfold Home.waitText in H.
        cbn [Z.ltb Z.compare JS.toString] in H.
        unfold JS.string_of_Z in H.
        cbn [Z.to_int NilZero.string_of_int String.append] in H.
        discriminate H.
Qed.

(** C2. With the last-claim timestamp [T] recorded in the cookie jar, the
    rate limiter answers "eligible" at the time [N] exactly when [N - T] is
    at least one hour (3600000 ms): it says yes at the boundary of exactly
    one hour and no everywhere below it.  With no last-claim timestamp in
    the jar it answers "eligible" at every [N].  That [T] is recorded is
    said of the jar and not of the lookup of the handler: the jar holds the
    cookie last_claim_time with the text of [T], listed before any other
    row that begins with that name. *)
Theorem rate_limiter_eligibility (jar : Browser.Jar) (T N : Z) :
  (recorded T jar ->
   Z.abs T <= DateTime.maxTime ->
   (Home.canUserClaim jar N = true <-> 3600000 <= N - T)
   /\ (N - T = 3600000 -> Home.canUserClaim jar N = true)
   /\ (N - T < 3600000 -> Home.canUserClaim jar N = false))
  /\ (nothing_recorded jar -> Home.canUserClaim jar N = true).
Proof.
  split.
  - intros Hrec Hv.
    pose proof (read_recorded T jar Hrec) as Hread.
    pose proof (canUserClaim_recorded jar _ T Hread (parseInt_string_of_Z T)
                  N Hv) as Hiff.
    split; [exact Hiff |]. split.
    + intros Hb. apply Hiff. lia.
    + intros Hlt.
      apply (canUserClaim_too_early jar _ T Hread (parseInt_string_of_Z T)
               N Hlt).
  - intros Hnone. apply canUserClaim_absent, read_nothing_recorded, Hnone.
Qed.

Lemma rate_limiter_eligibility_witness :
  let session := Browser.cookieOptions Home.SESSION_ID_COOKIE "s1" true in
  let jar :=
    [session;
     Browser.cookieOptions Home.LAST_CLAIM_TIME_COOKIE "1700000000000" true] in
  Home.canUserClaim jar 1700003600000 = true
  /\ Home.canUserClaim jar 1700003599999 = false
  /\ Home.canUserClaim jar 1700001800000 = false
  /\ Home.canUserClaim [session] 1700001800000 = true.
Proof.
  intros session jar.
  assert (Hrec : recorded 1700000000000 jar).
  { exists [session], [], ["path=/"; "max-age=86400"; "SameSite=Lax"; "Secure"].
    split; [reflexivity | repeat constructor]. }
  assert (Hv : Z.abs 1700000000000 <= DateTime.maxTime)
    by (vm_compute; discriminate).
  split.
  { apply (proj1 (rate_limiter_eligibility jar 1700000000000 1700003600000)
             Hrec Hv). lia. }
  split.
  { apply (proj1 (rate_limiter_eligibility jar 1700000000000 1700003599999)
             Hrec Hv). lia. }
  split.
  { apply (proj1 (rate_limiter_eligibility jar 1700000000000 1700001800000)
             Hrec Hv). lia. }
  apply (proj2 (rate_limiter_eligibility [session] 0 1700001800000)).
  repeat constructor.
Defined.

(** C8. With the last-claim timestamp [T] recorded, a run of
    [updateClaimStatus] reads the clock twice: [N1] for the answer of the
    rate limiter and [N2] for the minutes that are left.  While [N1] is
    less than one hour after [T] (as it is when [N1] is not after [N2] and
    [N2] is less than one hour after [T]), the wait message names the
    number [m] of minutes left from [N2] until [T] plus one hour, rounded
    up: "1 hour" when [m] exceeds 60, and otherwise [m] followed by
    "minute" or "minutes"; [m] is at least 1 while [N2] is less than one
    hour after [T].  With [N2] 45 minutes after the claim it reads
    "15 minutes", with [N2] one minute after the claim "59 minutes"; and it
    reads the same when it is [N1] that comes 45 minutes, or one minute,
    after the claim and [N2] follows less than a minute later. *)
Theorem wait_message_remaining_minutes
    (jar : Browser.Jar) (T N1 N2 : Z) (st : Home.State) :
  recorded T jar ->
  Z.abs (T + 3600000) <= DateTime.maxTime ->
  N1 - T < 3600000 ->
  let shown :=
    Home.timeUntilNextClaim (Home.updateClaimStatus jar N1 N2 st) in
  (exists m : Z,
      (m - 1) * 60000 < T + 3600000 - N2 <= m * 60000
      /\ (N2 - T < 3600000 -> 1 <= m)
      /\ shown = if 60 <? m then "1 hour"
                 else JS.string_of_Z m ++ " minute"
                        ++ (if m =? 1 then "" else "s"))
  /\ (N2 = T + 45 * 60000 -> shown = "15 minutes")
  /\ (N2 = T + 1 * 60000 -> shown = "59 minutes")
  /\ (N1 = T + 45 * 60000 -> N1 <= N2 < N1 + 60000 -> shown = "15 minutes")
  /\ (N1 = T + 1 * 60000 -> N1 <= N2 < N1 + 60000 -> shown = "59 minutes").
Proof.
  intros Hrec Hv Hlt1 shown.
  pose proof (read_recorded T jar Hrec) as Hread.
  destruct (updateClaimStatus_wait jar _ T Hread (parseInt_string_of_Z T)
              N1 N2 st Hv Hlt1) as [_ Hmsg].
  subst shown. rewrite Hmsg.
  pose proof (minutes_ceiling_bounds (T + 3600000 - N2)) as Hb.
  cbv zeta in Hb.
  replace (- (T + 3600000 - N2)) with (N2 - (T + 3600000)) in Hb by lia.
  set (m := - ((N2 - (T + 3600000)) / 60000)) in *.
  split.
  { exists m. split; [exact Hb |]. split; [lia |]. apply waitText_ceiling. }
  split.
  { intros HN. assert (m = 15) as -> by lia. reflexivity. }
  split.
  { intros HN. assert (m = 59) as -> by lia. reflexivity. }
  split.
  - intros HN Hnear. assert (m = 15) as -> by lia. reflexivity.
  - intros HN Hnear. assert (m = 59) as -> by lia. reflexivity.
Qed.

Lemma wait_message_remaining_minutes_witness :
  let jar :=
    [Browser.cookieOptions Home.SESSION_ID_COOKIE "s1" true;
     Browser.cookieOptions Home.LAST_CLAIM_TIME_COOKIE "1700000000000" true] in
  Home.timeUntilNextClaim
    (Home.updateClaimStatus jar
       (1700000000000 + 45 * 60000 - 1) (1700000000000 + 45 * 60000)
       Home.initial)
  = "15 minutes"
  /\ Home.timeUntilNextClaim
       (Home.updateClaimStatus jar
          (1700000000000 + 1 * 60000) (1700000000000 + 1 * 60000 + 7)
          Home.initial)
     = "59 minutes".
Proof.
  intros jar.
  assert (Hrec : recorded 1700000000000 jar).
  { exists [Browser.cookieOptions Home.SESSION_ID_COOKIE "s1" true], [],
      ["path=/"; "max-age=86400"; "SameSite=Lax"; "Secure"].
    split; [reflexivity | repeat constructor]. }
  assert (Hv : Z.abs (1700000000000 + 3600000) <= DateTime.maxTime)
    by (vm_compute; discriminate).
  split.
  - destruct (wait_message_remaining_minutes jar 1700000000000
                (1700000000000 + 45 * 60000 - 1) (1700000000000 + 45 * 60000)
                Home.initial Hrec Hv)
      as (_ & H & _); [lia |].
    apply H. reflexivity.
  - destruct (wait_message_remaining_minutes jar 1700000000000
                (1700000000000 + 1 * 60000) (1700000000000 + 1 * 60000 + 7)
                Home.initial Hrec Hv)
      as (_ & _ & _ & _ & H); [lia |].
    apply H; [reflexivity | lia].
Defined.

(** C10. While the rate limiter says no (its clock reading [N1] is less
    than one hour after the recorded timestamp [T]), the wait message is
    computed from the second clock reading [N2] of the same run.  When the
    minutes left at [N2] round up to exactly 60, the message reads
    "60 minutes" and not "1 hour"; this is so when the limiter is asked at
    the very moment of the last claim and [N2] follows less than a minute
    later.  The singular "1 minute" is shown exactly when the minutes left
    at [N2] round up to 1. *)
Theorem wait_message_sixty_and_singular
    (jar : Browser.Jar) (T N1 N2 : Z) (st : Home.State) :
  recorded T jar ->
  Z.abs (T + 3600000) <= DateTime.maxTime ->
  N1 - T < 3600000 ->
  let shown :=
    Home.timeUntilNextClaim (Home.updateClaimStatus jar N1 N2 st) in
  Home.canClaim (Home.updateClaimStatus jar N1 N2 st) = false
  /\ (59 * 60000 < T + 3600000 - N2 <= 60 * 60000 ->
      shown = "60 minutes" /\ shown <> "1 hour")
  /\ (N1 = T -> N1 <= N2 < N1 + 60000 -> shown = "60 minutes")
  /\ (shown = "1 minute" <-> 0 * 60000 < T + 3600000 - N2 <= 1 * 60000).
Proof.
  intros Hrec Hv Hlt shown.
  pose proof (read_recorded T jar Hrec) as Hread.
  destruct (updateClaimStatus_wait jar _ T Hread (parseInt_string_of_Z T)
              N1 N2 st Hv Hlt) as [Hcan Hmsg].
  subst shown. rewrite Hmsg.
  pose proof (minutes_ceiling_bounds (T + 3600000 - N2)) as Hb. cbv zeta in Hb.
  replace (- (T + 3600000 - N2)) with (N2 - (T + 3600000)) in Hb by lia.
  set (m := - ((N2 - (T + 3600000)) / 60000)) in *.
  split; [exact Hcan |]. split; [| split].
  - intros H60. assert (m = 60) as -> by lia.
    split; [reflexivity | discriminate].
  - intros HN Hnear. assert (m = 60) as -> by lia. reflexivity.
  - rewrite waitText_singular. lia.
Qed.

Lemma wait_message_sixty_and_singular_witness :
  let jar :=
    [Browser.cookieOptions Home.SESSION_ID_COOKIE "s1" true;
     Browser.cookieOptions Home.LAST_CLAIM_TIME_COOKIE "1700000000000" true] in
  Home.timeUntilNextClaim
    (Home.updateClaimStatus jar 1700000000000 1700000000003 Home.initial)
  = "60 minutes"
  /\ Home.timeUntilNextClaim
       (Home.updateClaimStatus jar 1700003539999 1700003540000 Home.initial)
     = "1 minute"
  /\ Home.timeUntilNextClaim
       (Home.updateClaimStatus jar 1700003539999 1700003539999 Home.initial)
     <> "1 minute".
Proof.
  intros jar.
  assert (Hrec : recorded 1700000000000 jar).
  { exists [Browser.cookieOptions Home.SESSION_ID_COOKIE "s1" true], [],
      ["path=/"; "max-age=86400"; "SameSite=Lax"; "Secure"].
    split; [reflexivity | repeat constructor]. }
  assert (Hv : Z.abs (1700000000000 + 3600000) <= DateTime.maxTime)
    by (vm_compute; discriminate).
  split; [| split].
  - destruct (wait_message_sixty_and_singular jar 1700000000000
                1700000000000 1700000000003 Home.initial Hrec Hv)
      as (_ & _ & H & _); [lia |].
    apply H; [reflexivity | lia].
  - destruct (wait_message_sixty_and_singular jar 1700000000000
                1700003539999 1700003540000 Home.initial Hrec Hv)
      as (_ & _ & _ & H); [lia |].
    apply H. lia.
  - destruct (wait_message_sixty_and_singular jar 1700000000000
                1700003539999 1700003539999 Home.initial Hrec Hv)
      as (_ & _ & _ & H); [lia |].
    intros E. apply H in E. lia.
Defined.

(** X28. The two clock readings of [updateClaimStatus] can lie on the two
    sides of the end of the hour: when the rate limiter is asked before the
    hour is over and the clock is read again less than a minute after it is
    over, the page says "cannot claim" and shows "0 minutes"; with the
    second reading later still the number shown is negative.  The text
    never reads "1 minute" then. *)
Theorem wait_message_across_the_hour
    (jar : Browser.Jar) (T N1 N2 : Z) (st : Home.State) :
  recorded T jar ->
  Z.abs (T + 3600000) <= DateTime.maxTime ->
  N1 - T < 3600000 ->
  3600000 <= N2 - T ->
  let after := Home.updateClaimStatus jar N1 N2 st in
  Home.canClaim after = false
  /\ (N2 - T < 3600000 + 60000 -> Home.timeUntilNextClaim after = "0 minutes")
  /\ (exists m : Z,
        m <= 0
        /\ (m - 1) * 60000 < T + 3600000 - N2 <= m * 60000
        /\ Home.timeUntilNextClaim after = JS.string_of_Z m ++ " minutes").
Proof.
  intros Hrec Hv Hlt Hge after. subst after.
  pose proof (read_recorded T jar Hrec) as Hread.
  destruct (updateClaimStatus_wait jar _ T Hread (parseInt_string_of_Z T)
              N1 N2 st Hv Hlt) as [Hcan Hmsg].
  rewrite Hmsg.
  pose proof (minutes_ceiling_bounds (T + 3600000 - N2)) as Hb. cbv zeta in Hb.
  replace (- (T + 3600000 - N2)) with (N2 - (T + 3600000)) in Hb by lia.
  set (m := - ((N2 - (T + 3600000)) / 60000)) in *.
  split; [exact Hcan |]. split.
  - intros Hnear. assert (m = 0) as -> by lia. reflexivity.
  - exists m. split; [lia |]. split; [exact Hb |].
    rewrite waitText_ceiling.
    destruct (Z.ltb_spec 60 m); [lia |].
    destruct (Z.eqb_spec m 1); [lia | reflexivity].
Qed.

Lemma wait_message_across_the_hour_witness :
  let jar :=
    [Browser.cookieOptions Home.LAST_CLAIM_TIME_COOKIE "1700000000000" true] in
  Home.timeUntilNextClaim
    (Home.updateClaimStatus jar 1700003599999 1700003600000 Home.initial)
  = "0 minutes".
Proof.
  intros jar.
  destruct (wait_message_across_the_hour jar 1700000000000
              1700003599999 1700003600000 Home.initial)
    as (_ & H & _);
    [ exists [], [], ["path=/"; "max-age=86400"; "SameSite=Lax"; "Secure"];
      split; [reflexivity | constructor]
    | vm_compute; discriminate | lia | lia |].
  apply H. lia.
Defined.

(** * Further properties of the handlers *)

(** ** Cookies *)

Section Cookies.

Import Browser Home.

Lemma session_cookie_named : SESSION_ID_COOKIE <> EmptyString.
Proof. discriminate. Qed.

Lemma session_row (v : string) :
  all_chars not_equals_sign v = true ->
  JS.startsWith (SESSION_ID_COOKIE ++ "=" ++ v) SESSION_ID_COOKIE = true
  /\ nth_error (JS.split "=" (SESSION_ID_COOKIE ++ "=" ++ v)) 1 = Some v.
Proof.
  intros Hv. split; [reflexivity |].
  unfold JS.split, SESSION_ID_COOKIE. cbn.
  rewrite (split_from_plain "=" EmptyString v Hv). reflexivity.
Qed.

(** Writing a cookie of one name does not change what is read under a
    name that no row of the written name begins with. *)
Lemma read_other (A B v : string) (https : bool) (j : Jar) :
  B <> EmptyString ->
  (forall w, JS.startsWith (B ++ "=" ++ w) A = false) ->
  read_cookie A (document_cookie_set (cookieOptions B v https) j)
  = read_cookie A j.
Proof.
  intros HB Hoff. unfold read_cookie.
  assert (Hfind :
            find (fun row => JS.startsWith row A)
              (rows (document_cookie_set (cookieOptions B v https) j))
            = find (fun row => JS.startsWith row A) (rows j)).
  { induction j as [|x r IH]; cbn [document_cookie_set].
    - unfold rows. cbn [map find].
      rewrite (row_cookieOptions _ _ _ HB), Hoff. reflexivity.
    - cbn [name cookieOptions].
      destruct (String.eqb_spec (name x) B) as [Heq | Hne].
      + unfold rows. cbn [map find].
        rewrite (row_cookieOptions _ _ _ HB), (row_named x) by congruence.
        rewrite Heq, !Hoff. reflexivity.
      + unfold rows in *. cbn [map find]. rewrite IH. reflexivity. }
  rewrite Hfind. reflexivity.
Qed.

Lemma session_row_not_last (w : string) :
  JS.startsWith (SESSION_ID_COOKIE ++ "=" ++ w) LAST_CLAIM_TIME_COOKIE = false.
Proof. reflexivity. Qed.

Lemma last_row_not_session (w : string) :
  JS.startsWith (LAST_CLAIM_TIME_COOKIE ++ "=" ++ w) SESSION_ID_COOKIE = false.
Proof. reflexivity. Qed.

Lemma getOrCreateSessionId_keeps_last (https : bool) (u : string) (j : Jar) :
  read_cookie LAST_CLAIM_TIME_COOKIE (snd (getOrCreateSessionId https u j))
  = read_cookie LAST_CLAIM_TIME_COOKIE j.
Proof.
  unfold getOrCreateSessionId.
  destruct (JS.truthy_opt (read_cookie SESSION_ID_COOKIE j)); cbn [snd];
    [reflexivity |].
  apply read_other; [discriminate | apply session_row_not_last].
Qed.

Lemma canUserClaim_by_cookie (j1 j2 : Jar) (N : Z) :
  read_cookie LAST_CLAIM_TIME_COOKIE j1 = read_cookie LAST_CLAIM_TIME_COOKIE j2 ->
  canUserClaim j1 N = canUserClaim j2 N.
Proof. intros H. unfold canUserClaim. rewrite H. reflexivity. Qed.

Lemma waitMessage_by_cookie (j1 j2 : Jar) (N : Z) :
  read_cookie LAST_CLAIM_TIME_COOKIE j1 = read_cookie LAST_CLAIM_TIME_COOKIE j2 ->
  waitMessage j1 N = waitMessage j2 N.
Proof. intros H. unfold waitMessage. rewrite H. reflexivity. Qed.

(** The session identifier once the cookie is there. *)
Lemma getOrCreateSessionId_creates (https : bool) (u : string) (j : Jar) :
  jar_clear SESSION_ID_COOKIE j ->
  u <> EmptyString ->
  all_chars not_equals_sign u = true ->
  let r := getOrCreateSessionId https u j in
  read_cookie SESSION_ID_COOKIE (snd r) = Some (fst r)
  /\ JS.truthy (fst r) = true
  /\ jar_clear SESSION_ID_COOKIE (snd r).
Proof.
  intros Hj Hu Hplain. cbv zeta. unfold getOrCreateSessionId.
  destruct (read_cookie SESSION_ID_COOKIE j) as [s |] eqn:E; cbn [JS.truthy_opt].
  - destruct (JS.truthy s) eqn:Hs; cbn [fst snd JS.or_else].
    + rewrite Hs. repeat split; assumption.
    + destruct (session_row u Hplain) as [H1 H2].
      rewrite (read_back_named _ _ https j session_cookie_named Hj H1 H2).
      repeat split; [apply truthy_nonempty, Hu |].
      clear - Hj. induction Hj as [|x r Hx Hr IH]; cbn [document_cookie_set].
      * constructor; [intros _; reflexivity | constructor].
      * cbn [name cookieOptions].
        destruct (String.eqb (name x) SESSION_ID_COOKIE).
        -- constructor; [intros _; reflexivity | exact Hr].
        -- constructor; [exact Hx | exact IH].
  - cbn [fst snd]. destruct (session_row u Hplain) as [H1 H2].
    rewrite (read_back_named _ _ https j session_cookie_named Hj H1 H2).
    repeat split; [apply truthy_nonempty, Hu |].
    clear - Hj. induction Hj as [|x r Hx Hr IH]; cbn [document_cookie_set].
    * constructor; [intros _; reflexivity | constructor].
    * cbn [name cookieOptions].
      destruct (String.eqb (name x) SESSION_ID_COOKIE).
      -- constructor; [intros _; reflexivity | exact Hr].
      -- constructor; [exact Hx | exact IH].
Qed.

Lemma getOrCreateSessionId_existing (https : bool) (u s : string) (j : Jar) :
  read_cookie SESSION_ID_COOKIE j = Some s ->
  JS.truthy s = true ->
  getOrCreateSessionId https u j = (s, j).
Proof.
  intros Hr Hs. unfold getOrCreateSessionId. rewrite Hr. cbn [JS.truthy_opt].
  rewrite Hs. cbn [JS.or_else]. rewrite Hs. reflexivity.
Qed.

Lemma only_own_clear (NAME : string) (https : bool) (j : Jar) :
  only_own NAME https j -> jar_clear NAME j.
Proof.
  intros H. induction H as [|x r Hx Hr IH]; constructor; [| exact IH].
  intros E. destruct (Hx E) as [v ->]. reflexivity.
Qed.

Lemma uuid_char_plain (c : ascii) :
  is_uuid_char c = true -> not_equals_sign c = true.
Proof.
  intros H. unfold not_equals_sign.
  destruct (Ascii.eqb_spec c "="%char) as [-> |]; [discriminate H | reflexivity].
Qed.

Lemma uuid_plain (u : string) :
  all_chars is_uuid_char u = true -> all_chars not_equals_sign u = true.
Proof.
  induction u as [|c r IH]; cbn [all_chars]; [reflexivity |].
  intros H. apply andb_true_iff in H. destruct H as [Hc Hr].
  rewrite (uuid_char_plain c Hc), (IH Hr). reflexivity.
Qed.

Lemma read_not_listed (NAME : string) (j : Jar) :
  not_listed NAME j -> read_cookie NAME j = None.
Proof.
  intros H. unfold read_cookie, rows.
  assert (E : find (fun row => JS.startsWith row NAME) (map row j) = None).
  { induction H as [|x r Hx Hr IH]; cbn [map find]; [reflexivity |].
    rewrite Hx. exact IH. }
  rewrite E. reflexivity.
Qed.

Lemma session_set_appends (u : string) (https : bool) (j : Jar) :
  not_listed SESSION_ID_COOKIE j ->
  document_cookie_set (cookieOptions SESSION_ID_COOKIE u https) j
  = (j ++ [cookieOptions SESSION_ID_COOKIE u https])%list.
Proof.
  intros H.
  induction H as [|x r Hx Hr IH]; cbn [document_cookie_set List.app];
    [reflexivity |].
  cbn [name cookieOptions].
  destruct (String.eqb_spec (name x) SESSION_ID_COOKIE) as [Heq | Hne].
  - rewrite row_named in Hx by (rewrite Heq; discriminate).
    rewrite Heq in Hx. discriminate Hx.
  - rewrite IH. reflexivity.
Qed.

Lemma read_appended_session (u : string) (https : bool) (j : Jar) :
  not_listed SESSION_ID_COOKIE j ->
  all_chars not_equals_sign u = true ->
  read_cookie SESSION_ID_COOKIE
    (j ++ [cookieOptions SESSION_ID_COOKIE u https])%list
  = Some u.
Proof.
  intros H Hplain. destruct (session_row u Hplain) as [H1 H2].
  unfold read_cookie, rows. rewrite map_app, find_app_skip.
  - cbn [map find]. rewrite (row_cookieOptions _ _ _ session_cookie_named).
    rewrite H1. exact H2.
  - clear - H. induction H as [|x r Hx Hr IH]; cbn [map];
      constructor; assumption.
Qed.

(** The timer leaves the last-claim time that is read as it is. *)
Lemma interval_keeps_last (https : bool) (u : string) (n n' : Z) (w : World) :
  read_cookie LAST_CLAIM_TIME_COOKIE (jar (HomeEffects.interval https u n n' w))
  = read_cookie LAST_CLAIM_TIME_COOKIE (jar w).
Proof.
  unfold HomeEffects.interval.
  pose proof (getOrCreateSessionId_keeps_last https u (jar w)) as Hk.
  destruct (getOrCreateSessionId https u (jar w)) as [cur j].
  cbn [snd] in Hk. cbn [jar]. exact Hk.
Qed.

Lemma intervals_keep_last (https : bool) (runs : list (string * (Z * Z))) :
  forall w : World,
    read_cookie LAST_CLAIM_TIME_COOKIE (jar (HomeEffects.intervals https runs w))
    = read_cookie LAST_CLAIM_TIME_COOKIE (jar w).
Proof.
  induction runs as [| [u [n n']] rest IH]; intros w;
    cbn [HomeEffects.intervals]; [reflexivity |].
  rewrite IH. apply interval_keeps_last.
Qed.

End Cookies.

(** X1. Once [getOrCreateSessionId] has run, a further call returns the
    same identifier and leaves the cookie jar as it is, whatever the random
    generator would yield: the session identifier is created at most once.
    (The only cookies listed with a row beginning with "coupon_session_id",
    a cookie without a name included, are the page's own session cookies;
    the generated identifier is not empty and is made of hexadecimal digits
    and hyphens.) *)
Theorem session_id_created_once
    (h1 h2 : bool) (u1 u2 : string) (j : Browser.Jar) :
  only_own Home.SESSION_ID_COOKIE h1 j ->
  u1 <> "" ->
  all_chars is_uuid_char u1 = true ->
  Home.getOrCreateSessionId h2 u2 (snd (Home.getOrCreateSessionId h1 u1 j))
  = Home.getOrCreateSessionId h1 u1 j
  /\ fst (Home.getOrCreateSessionId h1 u1 j) <> "".
Proof.
  intros Hj Hu Hplain.
  destruct (getOrCreateSessionId_creates h1 u1 j (only_own_clear _ _ _ Hj) Hu
              (uuid_plain _ Hplain)) as (Hr & Ht & _).
  split.
  - rewrite (getOrCreateSessionId_existing h2 u2 _ _ Hr Ht).
    destruct (Home.getOrCreateSessionId h1 u1 j); reflexivity.
  - intros E. rewrite E in Ht. discriminate Ht.
Qed.

Lemma session_id_created_once_witness :
  let j := [Browser.cookieOptions Home.LAST_CLAIM_TIME_COOKIE "17" true] in
  Home.getOrCreateSessionId false "b2"
    (snd (Home.getOrCreateSessionId true "a1-0f" j))
  = Home.getOrCreateSessionId true "a1-0f" j
  /\ fst (Home.getOrCreateSessionId true "a1-0f" j) = "a1-0f".
Proof.
  intros j.
  destruct (session_id_created_once true false "a1-0f" "b2" j) as [H _];
    [repeat constructor; discriminate | discriminate | reflexivity |].
  split; [exact H | reflexivity].
Defined.

(** X2. The two cookies do not disturb each other: writing the last-claim
    time leaves the session identifier that is read unchanged, and creating
    the session identifier leaves the last-claim time that is read, and
    with it the answer of the rate limiter, unchanged. *)
Theorem cookies_independent
    (https : bool) (now N : Z) (u : string) (j : Browser.Jar) :
  Browser.read_cookie Home.SESSION_ID_COOKIE (Home.setLastClaimTime https now j)
  = Browser.read_cookie Home.SESSION_ID_COOKIE j
  /\ Browser.read_cookie Home.LAST_CLAIM_TIME_COOKIE
       (snd (Home.getOrCreateSessionId https u j))
     = Browser.read_cookie Home.LAST_CLAIM_TIME_COOKIE j
  /\ Home.canUserClaim (snd (Home.getOrCreateSessionId https u j)) N
     = Home.canUserClaim j N.
Proof.
  split; [| split].
  - unfold Home.setLastClaimTime.
    apply read_other; [discriminate | apply last_row_not_session].
  - apply getOrCreateSessionId_keeps_last.
  - apply canUserClaim_by_cookie, getOrCreateSessionId_keeps_last.
Qed.

(** X3. The last-claim cookie is a round trip: what [setLastClaimTime]
    writes at the time [now] is read back as the text of [now], parses to
    [now], and makes the rate limiter answer "eligible" exactly from one
    hour after [now] on.  (The only cookies listed with a row beginning
    with "last_claim_time", a cookie without a name included, are the
    page's own last-claim cookies.) *)
Theorem last_claim_time_round_trip
    (https : bool) (now N : Z) (j : Browser.Jar) :
  only_own Home.LAST_CLAIM_TIME_COOKIE https j ->
  Z.abs now <= DateTime.maxTime ->
  Browser.read_cookie Home.LAST_CLAIM_TIME_COOKIE
    (Home.setLastClaimTime https now j)
  = Some (JS.string_of_Z now)
  /\ JS.parseInt (JS.string_of_Z now) = Some now
  /\ recorded now (Home.setLastClaimTime https now j)
  /\ (Home.canUserClaim (Home.setLastClaimTime https now j) N = true
      <-> 3600000 <= N - now).
Proof.
  intros Hown Hv. pose proof (only_own_clear _ _ _ Hown) as Hj.
  pose proof (read_back (JS.string_of_Z now) https j Hj (string_of_Z_plain _))
    as Hread.
  split; [exact Hread |]. split; [apply parseInt_string_of_Z |].
  split; [apply setLastClaimTime_recorded, Hj |].
  apply (canUserClaim_recorded _ _ _ Hread (parseInt_string_of_Z _) N Hv).
Qed.

Lemma last_claim_time_round_trip_witness :
  let j :=
    [Browser.cookieOptions Home.SESSION_ID_COOKIE "s1" true;
     Browser.cookieOptions Home.LAST_CLAIM_TIME_COOKIE "1600000000000" true] in
  Home.canUserClaim (Home.setLastClaimTime true 1700000000000 j) 1700003600000
  = true
  /\ Home.canUserClaim (Home.setLastClaimTime true 1700000000000 j)
       1700003599999
     = false.
Proof.
  intros j.
  assert (Hown : only_own Home.LAST_CLAIM_TIME_COOKIE true j).
  { constructor; [discriminate |]. constructor; [| constructor].
    intros _. exists "1600000000000". reflexivity. }
  assert (Hv : Z.abs 1700000000000 <= DateTime.maxTime)
    by (vm_compute; discriminate).
  split.
  - apply (last_claim_time_round_trip true 1700000000000 1700003600000 j
             Hown Hv). lia.
  - destruct (last_claim_time_round_trip true 1700000000000 1700003599999 j
                Hown Hv) as (_ & _ & _ & H).
    destruct (Home.canUserClaim _ 1700003599999); [| reflexivity].
    assert (3600000 <= 1700003599999 - 1700000000000) by (apply H; reflexivity).
    lia.
Defined.

(** X4. Eligibility never goes away with time: whatever the cookie jar
    holds, a visitor whom the rate limiter lets claim at one time it lets
    claim at every later time. *)
Theorem eligibility_monotone (j : Browser.Jar) (N N' : Z) :
  N <= N' ->
  Home.canUserClaim j N = true ->
  Home.canUserClaim j N' = true.
Proof.
  intros Hle. unfold Home.canUserClaim.
  destruct (negb (JS.truthy_opt (Browser.read_cookie
                                   Home.LAST_CLAIM_TIME_COOKIE j)));
    [reflexivity |].
  cbn [DateTime.getTime DateTime.Date_now].
  destruct (DateTime.Date_of _) as [l |]; [| discriminate].
  intros H. apply hours_at_least_one in H. apply hours_at_least_one. lia.
Qed.

Lemma eligibility_monotone_witness :
  Home.canUserClaim
    [Browser.cookieOptions Home.LAST_CLAIM_TIME_COOKIE "1700000000000" true]
    1700009999999
  = true.
Proof.
  apply (eligibility_monotone _ 1700003600000 1700009999999);
    [lia | reflexivity].
Defined.

(** X5. A last-claim cookie whose text does not begin with a number locks
    the visitor out: at every time the rate limiter answers "not eligible"
    and the wait text reads "NaN minutes", whatever the two clock readings
    of [updateClaimStatus] are. *)
Theorem unreadable_last_claim_time
    (j : Browser.Jar) (s : string) (N N' : Z) (st : Home.State) :
  Browser.read_cookie Home.LAST_CLAIM_TIME_COOKIE j = Some s ->
  s <> "" ->
  JS.parseInt s = None ->
  Home.canUserClaim j N = false
  /\ Home.canClaim (Home.updateClaimStatus j N N' st) = false
  /\ Home.timeUntilNextClaim (Home.updateClaimStatus j N N' st)
     = "NaN minutes".
Proof.
  intros Hread Hs Hparse.
  assert (Hcan : Home.canUserClaim j N = false).
  { unfold Home.canUserClaim. rewrite Hread. cbn [JS.truthy_opt].
    rewrite (truthy_nonempty _ Hs). cbn [negb JS.parseInt_opt].
    rewrite Hparse. reflexivity. }
  split; [exact Hcan |].
  unfold Home.updateClaimStatus. rewrite Hcan. cbn [negb].
  split; [reflexivity |].
  cbn [Home.setTimeUntilNextClaim Home.timeUntilNextClaim].
  unfold Home.waitMessage. rewrite Hread. cbn [JS.or_else].
  rewrite (truthy_nonempty _ Hs), Hparse. reflexivity.
Qed.

Lemma unreadable_last_claim_time_witness :
  Home.timeUntilNextClaim
    (Home.updateClaimStatus
       [Browser.cookieOptions Home.LAST_CLAIM_TIME_COOKIE "soon" true]
       1700000000000 1700000000001 Home.initial)
  = "NaN minutes".
Proof.
  apply (unreadable_last_claim_time
           [Browser.cookieOptions Home.LAST_CLAIM_TIME_COOKIE "soon" true]
           "soon" 1700000000000 1700000000001 Home.initial);
    [reflexivity | discriminate | reflexivity].
Defined.

(** X30. A cookie without a name defeats both lookups.  The browser
    lists such a cookie as its bare value; when that value is the name of
    the session cookie and the cookie is listed first, the lookup finds
    the bare row, takes nothing from it, and [getOrCreateSessionId] hands
    out a newly generated identifier at every call, also right after it
    wrote one.  In the same way a bare "last_claim_time" listed first makes
    the rate limiter answer "eligible" at every time, also right after
    [setLastClaimTime] wrote the cookie. *)
Theorem nameless_cookie_defeats_lookup
    (https : bool) (u1 u2 : string) (T N : Z) (attrs : list string)
    (j : Browser.Jar) :
  let js := bare Home.SESSION_ID_COOKIE attrs :: j in
  let jl := bare Home.LAST_CLAIM_TIME_COOKIE attrs :: j in
  fst (Home.getOrCreateSessionId https u1 js) = u1
  /\ fst (Home.getOrCreateSessionId https u2
            (snd (Home.getOrCreateSessionId https u1 js)))
     = u2
  /\ Browser.read_cookie Home.LAST_CLAIM_TIME_COOKIE
       (Home.setLastClaimTime https T jl)
     = None
  /\ Home.canUserClaim (Home.setLastClaimTime https T jl) N = true.
Proof.
  intros js jl. subst js jl.
  assert (Hs : forall u r,
             Home.getOrCreateSessionId https u
               (bare Home.SESSION_ID_COOKIE attrs :: r)
             = (u, bare Home.SESSION_ID_COOKIE attrs
                     :: Browser.document_cookie_set
                          (Browser.cookieOptions Home.SESSION_ID_COOKIE u https)
                          r)).
  { intros u r. reflexivity. }
  assert (Hl : Browser.read_cookie Home.LAST_CLAIM_TIME_COOKIE
                 (Home.setLastClaimTime https T
                    (bare Home.LAST_CLAIM_TIME_COOKIE attrs :: j))
               = None).
  { reflexivity. }
  split; [rewrite Hs; reflexivity |].
  split; [rewrite Hs; cbn [snd]; rewrite Hs; reflexivity |].
  split; [exact Hl |].
  apply canUserClaim_absent, Hl.
Qed.

(** ** Every path of the claim workflow *)

Section ClaimPaths.

Import Browser Remote Home.

Lemma update_fixed_columns (p : Patch) (fs : list Filter) (fault : bool)
    (s : Server) :
  map fixed_columns (coupons (tables (fst (update_coupons p fs fault s))))
  = map fixed_columns (coupons (tables s))
  /\ claims (tables (fst (update_coupons p fs fault s))) = claims (tables s).
Proof.
  unfold update_coupons. destruct fault; cbn; [split; reflexivity |].
  split; [| reflexivity]. rewrite map_map. apply map_ext.
  intros x. destruct (matches_all fs x); reflexivity.
Qed.

(** The remote part ends in one of two ways. *)
Lemma claim_remote_ends (e : Env) (sid : string) (st : State) (j : Jar)
    (s : Server) (ts : list Toast) :
  let w' := claim_remote e sid st j s ts in
  map fixed_columns (coupons (tables (server w')))
  = map fixed_columns (coupons (tables s))
  /\ ((exists m, toasts w' = (ts ++ [toast_error m])%list
                 /\ jar w' = j /\ ui w' = st
                 /\ claims (tables (server w')) = claims (tables s))
      \/ (exists c, toasts w'
                    = (ts ++ [toast_success "Coupon claimed successfully!"])%list
                    /\ jar w' = setLastClaimTime (https e) (now_done e) j
                    /\ claimedCoupon (ui w') = Some (code c)
                    /\ claims (tables (server w'))
                       = (claims (tables s) ++ [claim_record e sid c])%list)).
Proof.
  cbv zeta. unfold claim_remote.
  destruct (select_single [eq_status available] (select_fault e) s)
    as [s1 found] eqn:E1.
  assert (H1 : tables s1 = tables s).
  { unfold select_single in E1. destruct (select_fault e); inversion E1;
      reflexivity. }
  destruct found as [c |].
  2:{ cbn. rewrite H1. split; [reflexivity |]. left. eexists.
      repeat split; reflexivity. }
  cbn [DateTime.toISOString DateTime.Date_now].
  destruct (update_coupons _ _ (update_fault e) s1) as [s2 updated] eqn:E2.
  pose proof (update_fixed_columns
                {| set_status := Some claimed;
                   set_claimed_by := Some (Some sid);
                   set_claimed_at := Some (Some (now_update e)) |}
                [eq_id (id c); eq_status available] (update_fault e) s1)
    as [F2 C2].
  rewrite E2 in F2, C2. cbn [fst] in F2, C2. rewrite H1 in F2, C2.
  destruct updated; cbn [negb].
  2:{ cbn. split; [exact F2 |]. left. eexists. repeat split; [reflexivity .. |].
      exact C2. }
  destruct (insert_claim _ _ _ _ _ (insert_fault e) s2) as [s3 inserted] eqn:E3.
  unfold insert_claim in E3.
  destruct (insert_fault e); inversion E3; subst s3 inserted; cbn [negb].
  - destruct (update_coupons _ _ (revert_fault e) _) as [s4 r] eqn:E4.
    pose proof (update_fixed_columns
                  {| set_status := Some available;
                     set_claimed_by := Some None;
                     set_claimed_at := Some None |}
                  [eq_id (id c)] (revert_fault e)
                  (received
                     (InsertClaim (id c) (JS.or_else (client_ip e) "0.0.0.0") sid)
                     s2))
      as [F4 C4].
    rewrite E4 in F4, C4. cbn [fst] in F4, C4. cbn.
    split; [rewrite F4; exact F2 |]. left. eexists.
    repeat split; [reflexivity .. |]. rewrite C4. exact C2.
  - cbn. split; [exact F2 |]. right. exists c.
    repeat split; [rewrite updateClaimStatus_claimedCoupon; reflexivity |].
    rewrite C2. reflexivity.
Qed.

(** The checks before the remote part either stop the handler with an
    error toast or hand over to the remote part. *)
Lemma claimCoupon_shape (e : Env) (w : World) :
  exists (st1 : State) (j1 : Jar),
    read_cookie LAST_CLAIM_TIME_COOKIE j1
    = read_cookie LAST_CLAIM_TIME_COOKIE (jar w)
    /\ claimedCoupon st1 = claimedCoupon (ui w)
    /\ ((exists m, claimCoupon e w
                   = finish st1 j1 (server w) (toasts w) (toast_error m))
        \/ claimCoupon e w
           = finally_setLoading
               (claim_remote e (sessionId (ui w)) (setLoading true st1) j1
                  (server w) (toasts w))).
Proof.
  unfold claimCoupon.
  destruct (negb (JS.truthy (sessionId (ui w)))).
  - pose proof (getOrCreateSessionId_keeps_last (https e) (randomUUID e) (jar w))
      as Hk.
    destruct (getOrCreateSessionId _ _ _) as [fresh j]. cbn [snd] in Hk.
    destruct (negb (JS.truthy fresh)); cbn [negb].
    + exists (ui w), j. repeat split; [exact Hk |]. left. eexists. reflexivity.
    + exists (setSessionId fresh (ui w)), j. repeat split; [exact Hk |].
      destruct (negb (canUserClaim j (now_check e)));
        [left; eexists; reflexivity | right; reflexivity].
  - cbn [negb]. exists (ui w), (jar w). repeat split.
    destruct (negb (canUserClaim (jar w) (now_check e)));
      [left; eexists; reflexivity | right; reflexivity].
Qed.

End ClaimPaths.

(** X6. A click within the hour after the recorded last claim has no
    effect beyond one toast: no request is sent, no cookie is written and
    the page state stays as it is.  The toast quotes the wait text that the
    page state holds at that moment. *)
Theorem claimCoupon_rate_limited
    (e : Home.Env) (w : Home.World) (s : string) (T : Z) :
  Home.sessionId (Home.ui w) <> "" ->
  Browser.read_cookie Home.LAST_CLAIM_TIME_COOKIE (Home.jar w) = Some s ->
  JS.parseInt s = Some T ->
  Home.now_check e - T < 3600000 ->
  Home.claimCoupon e w
  = {| Home.ui := Home.ui w;
       Home.jar := Home.jar w;
       Home.server := Home.server w;
       Home.toasts :=
         Home.toasts w
           ++ [Browser.toast_error
                 ("Please wait " ++ Home.timeUntilNextClaim (Home.ui w)
                    ++ " before claiming another coupon")] |}.
Proof.
  intros Hsid Hread Hparse Hlt. unfold Home.claimCoupon.
  rewrite (truthy_nonempty _ Hsid). cbn [negb].
  rewrite (canUserClaim_too_early _ _ _ Hread Hparse _ Hlt). reflexivity.
Qed.

Lemma claimCoupon_rate_limited_witness :
  let w :=
    {| Home.ui := Home.setSessionId "s1" Home.initial;
       Home.jar :=
         [Browser.cookieOptions Home.LAST_CLAIM_TIME_COOKIE "1699999000000" true];
       Home.server :=
         {| Remote.tables :=
              {| Remote.coupons := [available_sample]; Remote.claims := [] |};
            Remote.requests := [] |};
       Home.toasts := [] |} in
  Remote.requests (Home.server (Home.claimCoupon calm w)) = []
  /\ Home.toasts (Home.claimCoupon calm w)
     = [Browser.toast_error "Please wait  before claiming another coupon"].
Proof.
  intros w.
  rewrite (claimCoupon_rate_limited calm w "1699999000000" 1699999000000);
    [split; reflexivity | discriminate | reflexivity | reflexivity
    | vm_compute; reflexivity].
Defined.

(** X7. When the store answers the guarded update with an error, the
    workflow stops there: both tables and the cookie jar are as before, no
    claim record is sent and no compensating update either, and the visitor
    sees "Failed to claim coupon". *)
Theorem claimCoupon_update_fails
    (e : Home.Env) (w : Home.World) (c : Remote.Coupon) :
  Home.sessionId (Home.ui w) <> "" ->
  under_rate_limit (Home.jar w) (Home.now_check e) ->
  Home.select_fault e = false ->
  find is_available (Remote.coupons (Remote.tables (Home.server w))) = Some c ->
  Home.update_fault e = true ->
  let w' := Home.claimCoupon e w in
  Remote.tables (Home.server w') = Remote.tables (Home.server w)
  /\ Remote.requests (Home.server w')
     = (Remote.requests (Home.server w)
          ++ [Remote.SelectSingle [Remote.eq_status Remote.available];
              Remote.UpdateCoupons
                (claim_patch (Home.sessionId (Home.ui w)) (Home.now_update e))
                [Remote.eq_id (Remote.id c);
                 Remote.eq_status Remote.available]])%list
  /\ Home.toasts w'
     = (Home.toasts w ++ [Browser.toast_error Home.failed_to_claim])%list
  /\ Home.jar w' = Home.jar w
  /\ Home.claimedCoupon (Home.ui w') = Home.claimedCoupon (Home.ui w)
  /\ Home.loading (Home.ui w') = false.
Proof.
  intros Hsid Hlimit Hsel Hfound Hupd w'. subst w'.
  rewrite (claimCoupon_ready e w Hsid (under_rate_limit_eligible _ _ Hlimit)).
  unfold Home.claim_remote, Remote.select_single.
  rewrite Hsel, find_available, Hfound.
  cbn [DateTime.toISOString DateTime.Date_now].
  unfold Remote.update_coupons. rewrite Hupd. cbn.
  rewrite <- app_assoc. repeat split; reflexivity.
Qed.

Lemma claimCoupon_update_fails_witness :
  let e :=
    {| Home.https := true; Home.randomUUID := "u1";
       Home.now_check := 1700000000000; Home.client_ip := None;
       Home.select_fault := false; Home.update_fault := true;
       Home.now_update := 1700000000100; Home.insert_fault := false;
       Home.claim_key := "c1"; Home.claim_stamp := 1700000000200;
       Home.revert_fault := false; Home.now_done := 1700000000300;
       Home.now_recheck := 1700000000301;
       Home.now_left := 1700000000302 |} in
  Remote.tables (Home.server (Home.claimCoupon e (visitor [available_sample])))
  = Remote.tables (Home.server (visitor [available_sample])).
Proof.
  intros e.
  apply (claimCoupon_update_fails e (visitor [available_sample]) available_sample);
    [discriminate | left; reflexivity | reflexivity | reflexivity | reflexivity].
Defined.

(** X8. When the insert of the claim record fails and the compensating
    update fails too, the coupon stays claimed by the session although no
    claim record exists and the visitor is told that the claim failed. *)
Theorem claimCoupon_stranded
    (e : Home.Env) (w : Home.World) (c : Remote.Coupon) :
  Home.sessionId (Home.ui w) <> "" ->
  under_rate_limit (Home.jar w) (Home.now_check e) ->
  Home.select_fault e = false ->
  find is_available (Remote.coupons (Remote.tables (Home.server w))) = Some c ->
  Home.update_fault e = false ->
  Home.insert_fault e = true ->
  Home.revert_fault e = true ->
  let w' := Home.claimCoupon e w in
  In (claimed_version (Home.sessionId (Home.ui w)) (Home.now_update e) c)
     (Remote.coupons (Remote.tables (Home.server w')))
  /\ Remote.claims (Remote.tables (Home.server w'))
     = Remote.claims (Remote.tables (Home.server w))
  /\ Home.toasts w'
     = (Home.toasts w ++ [Browser.toast_error Home.failed_to_claim])%list
  /\ Home.claimedCoupon (Home.ui w') = Home.claimedCoupon (Home.ui w).
Proof.
  intros Hsid Hlimit Hsel Hfound Hupd Hins Hrev w'. subst w'.
  rewrite (claimCoupon_reverted e w c Hsid
             (under_rate_limit_eligible _ _ Hlimit) Hsel Hfound Hupd Hins).
  rewrite Hrev. cbn. split; [| repeat split; reflexivity].
  unfold claimed_table. apply in_map_iff. exists c.
  destruct (find_some _ _ Hfound) as [Hin Hav]. split; [| exact Hin].
  unfold Remote.matches_all. cbn [forallb Remote.matches].
  fold (is_available c). rewrite Hav, String.eqb_refl. reflexivity.
Qed.

Lemma claimCoupon_stranded_witness :
  let e :=
    {| Home.https := true; Home.randomUUID := "u1";
       Home.now_check := 1700000000000; Home.client_ip := None;
       Home.select_fault := false; Home.update_fault := false;
       Home.now_update := 1700000000100; Home.insert_fault := true;
       Home.claim_key := "c1"; Home.claim_stamp := 1700000000200;
       Home.revert_fault := true; Home.now_done := 1700000000300;
       Home.now_recheck := 1700000000301;
       Home.now_left := 1700000000302 |} in
  In (claimed_version "s1" 1700000000100 available_sample)
     (Remote.coupons
        (Remote.tables
           (Home.server (Home.claimCoupon e (visitor [available_sample])))))
  /\ Remote.claims
       (Remote.tables
          (Home.server (Home.claimCoupon e (visitor [available_sample]))))
     = [].
Proof.
  intros e.
  destruct (claimCoupon_stranded e (visitor [available_sample]) available_sample)
    as (H1 & H2 & _);
    [discriminate | left; reflexivity | reflexivity | reflexivity
    | reflexivity | reflexivity | reflexivity |].
  split; [exact H1 | exact H2].
Defined.

(** X9. A claim that ends with an error toast, on whatever path, costs the
    visitor nothing: the last-claim time that is read from the cookies is
    the same as before, no claim record has been added, and no coupon code
    has been handed to the page. *)
Theorem failed_claim_costs_nothing
    (e : Home.Env) (w : Home.World) (m : string) :
  Home.toasts (Home.claimCoupon e w)
  = (Home.toasts w ++ [Browser.toast_error m])%list ->
  Browser.read_cookie Home.LAST_CLAIM_TIME_COOKIE (Home.jar (Home.claimCoupon e w))
  = Browser.read_cookie Home.LAST_CLAIM_TIME_COOKIE (Home.jar w)
  /\ Remote.claims (Remote.tables (Home.server (Home.claimCoupon e w)))
     = Remote.claims (Remote.tables (Home.server w))
  /\ Home.claimedCoupon (Home.ui (Home.claimCoupon e w))
     = Home.claimedCoupon (Home.ui w).
Proof.
  intros Htoast.
  destruct (claimCoupon_shape e w) as (st1 & j1 & Hj & Hc & [[m' Hw] | Hw]).
  - rewrite Hw. cbn. repeat split; assumption.
  - rewrite Hw in Htoast |- *.
    destruct (claim_remote_ends e (Home.sessionId (Home.ui w))
                (Home.setLoading true st1) j1 (Home.server w) (Home.toasts w))
      as [_ [(m' & Ht & Hjar & Hui & Hcl) | (c & Ht & _)]].
    + cbn [Home.finally_setLoading Home.jar Home.server Home.ui
             Home.setLoading Home.claimedCoupon].
      rewrite Hjar, Hui, Hcl. cbn. repeat split; assumption.
    + cbn [Home.finally_setLoading Home.toasts] in Htoast.
      rewrite Ht in Htoast. apply app_inj_tail in Htoast.
      destruct Htoast as [_ Hbad]. discriminate Hbad.
Qed.

Lemma failed_claim_costs_nothing_witness :
  Remote.claims
    (Remote.tables
       (Home.server
          (Home.claimCoupon (insert_fails true) (visitor [available_sample]))))
  = [].
Proof.
  apply (failed_claim_costs_nothing (insert_fails true)
           (visitor [available_sample]) Home.failed_to_claim).
  reflexivity.
Defined.

(** X10. On every path the claim workflow shows exactly one toast, leaves
    the key, code, expiry and creation time of every stored coupon and the
    number and order of the rows as they are, and adds at most one claim
    record, at the end of the table. *)
Theorem claimCoupon_footprint (e : Home.Env) (w : Home.World) :
  (exists t, Home.toasts (Home.claimCoupon e w) = (Home.toasts w ++ [t])%list)
  /\ map fixed_columns
       (Remote.coupons (Remote.tables (Home.server (Home.claimCoupon e w))))
     = map fixed_columns (Remote.coupons (Remote.tables (Home.server w)))
  /\ (Remote.claims (Remote.tables (Home.server (Home.claimCoupon e w)))
      = Remote.claims (Remote.tables (Home.server w))
      \/ exists r,
          Remote.claims (Remote.tables (Home.server (Home.claimCoupon e w)))
          = (Remote.claims (Remote.tables (Home.server w)) ++ [r])%list).
Proof.
  destruct (claimCoupon_shape e w) as (st1 & j1 & _ & _ & [[m' Hw] | Hw]).
  - rewrite Hw. cbn. split; [eexists; reflexivity |].
    split; [reflexivity | left; reflexivity].
  - rewrite Hw.
    destruct (claim_remote_ends e (Home.sessionId (Home.ui w))
                (Home.setLoading true st1) j1 (Home.server w) (Home.toasts w))
      as [Hfix [(m' & Ht & _ & _ & Hcl) | (c & Ht & _ & _ & Hcl)]];
      cbn [Home.finally_setLoading Home.toasts Home.server];
      (split; [eexists; exact Ht |]); (split; [exact Hfix |]).
    + left. exact Hcl.
    + right. eexists. exact Hcl.
Qed.

(** ** The page state around a claim *)

Section PageState.

Import Browser Remote Home.

Lemma updateClaimStatus_sessionId (j : Jar) (n n' : Z) (st : State) :
  sessionId (updateClaimStatus j n n' st) = sessionId st.
Proof. unfold updateClaimStatus. destruct (canUserClaim j n); reflexivity. Qed.

Lemma updateClaimStatus_loading (j : Jar) (n n' : Z) (st : State) :
  loading (updateClaimStatus j n n' st) = loading st.
Proof. unfold updateClaimStatus. destruct (canUserClaim j n); reflexivity. Qed.

Lemma updateClaimStatus_canClaim (j : Jar) (n n' : Z) (st : State) :
  canClaim (updateClaimStatus j n n' st) = canUserClaim j n.
Proof. unfold updateClaimStatus. destruct (canUserClaim j n); reflexivity. Qed.

Lemma claim_remote_inserted (e : Env) (sid : string) (st : State) (j : Jar)
    (s : Server) (ts : list Toast) (c : Coupon) :
  select_fault e = false ->
  find is_available (coupons (tables s)) = Some c ->
  update_fault e = false ->
  insert_fault e = false ->
  claim_remote e sid st j s ts
  = {| ui :=
         updateClaimStatus (setLastClaimTime (https e) (now_done e) j)
           (now_recheck e) (now_left e) (setClaimedCoupon (Some (code c)) st);
       jar := setLastClaimTime (https e) (now_done e) j;
       server :=
         {| tables :=
              {| coupons := claimed_table sid (now_update e) c (coupons (tables s));
                 claims := claims (tables s) ++ [claim_record e sid c] |};
            requests :=
              requests s
                ++ [SelectSingle [eq_status available];
                    UpdateCoupons (claim_patch sid (now_update e))
                      [eq_id (id c); eq_status available];
                    InsertClaim (id c) (JS.or_else (client_ip e) "0.0.0.0") sid] |};
       toasts := ts ++ [toast_success "Coupon claimed successfully!"] |}.
Proof.
  intros Hsel Hfound Hupd Hins.
  unfold claim_remote, select_single. rewrite Hsel, find_available, Hfound.
  cbn [DateTime.toISOString DateTime.Date_now].
  unfold update_coupons. rewrite Hupd. cbn [negb].
  unfold insert_claim. rewrite Hins. cbn [negb].
  unfold finish, received, with_coupons, with_claims, claimed_table,
    claim_record, claim_patch.
  cbn [tables requests coupons claims].
  rewrite <- !app_assoc. reflexivity.
Qed.

Lemma claimed_table_member (sid : string) (at_ : Z) (c : Coupon)
    (l : list Coupon) :
  find is_available l = Some c ->
  In (claimed_version sid at_ c) (claimed_table sid at_ c l).
Proof.
  intros Hfound. unfold claimed_table. apply in_map_iff. exists c.
  destruct (find_some _ _ Hfound) as [Hin Hav]. split; [| exact Hin].
  unfold matches_all. cbn [forallb matches].
  fold (is_available c). rewrite Hav, String.eqb_refl. reflexivity.
Qed.

(** The page state and the jar after a claim that went through. *)
Lemma after_claim (e : Env) (w : World) (c : Coupon) :
  sessionId (ui w) <> EmptyString ->
  canUserClaim (jar w) (now_check e) = true ->
  select_fault e = false ->
  find is_available (coupons (tables (server w))) = Some c ->
  update_fault e = false ->
  insert_fault e = false ->
  jar_unambiguous (jar w) ->
  sessionId (ui (claimCoupon e w)) = sessionId (ui w)
  /\ loading (ui (claimCoupon e w)) = false
  /\ read_cookie LAST_CLAIM_TIME_COOKIE (jar (claimCoupon e w))
     = Some (JS.string_of_Z (now_done e))
  /\ ui (claimCoupon e w)
     = setLoading false
         (updateClaimStatus (jar (claimCoupon e w))
            (now_recheck e) (now_left e)
            (setClaimedCoupon (Some (code c)) (setLoading true (ui w)))).
Proof.
  intros Hsid Hcan Hsel Hfound Hupd Hins Hj.
  rewrite (claimCoupon_inserted e w c Hsid Hcan Hsel Hfound Hupd Hins).
  cbn [ui jar]. split.
  { cbn [setLoading sessionId]. rewrite updateClaimStatus_sessionId. reflexivity. }
  split; [reflexivity |]. split; [| reflexivity].
  unfold setLastClaimTime.
  cbn [DateTime.getTime DateTime.Date_now JS.toString].
  apply (read_back _ _ _ Hj (string_of_Z_plain _)).
Qed.

End PageState.

(** X11. When the handler runs while the page state holds no session
    identifier, it fetches or creates the identifier and stores it in the
    page state, but the rows it writes in the same run carry the empty
    text it started with: the coupon is claimed by "" and the claim record
    has session_id "". *)
Theorem claimCoupon_empty_session_state
    (e : Home.Env) (w : Home.World) (c : Remote.Coupon) :
  Home.sessionId (Home.ui w) = "" ->
  fst (Home.getOrCreateSessionId (Home.https e) (Home.randomUUID e) (Home.jar w))
  <> "" ->
  under_rate_limit (Home.jar w) (Home.now_check e) ->
  Home.select_fault e = false ->
  find is_available (Remote.coupons (Remote.tables (Home.server w))) = Some c ->
  Home.update_fault e = false ->
  Home.insert_fault e = false ->
  let w' := Home.claimCoupon e w in
  Home.sessionId (Home.ui w')
  = fst (Home.getOrCreateSessionId (Home.https e) (Home.randomUUID e) (Home.jar w))
  /\ In (claimed_version "" (Home.now_update e) c)
        (Remote.coupons (Remote.tables (Home.server w')))
  /\ Remote.claims (Remote.tables (Home.server w'))
     = (Remote.claims (Remote.tables (Home.server w))
          ++ [claim_record e "" c])%list
  /\ Remote.session_id (claim_record e "" c) = ""
  /\ Home.toasts w'
     = (Home.toasts w
          ++ [Browser.toast_success "Coupon claimed successfully!"])%list.
Proof.
  intros Hempty Hfresh Hlimit Hsel Hfound Hupd Hins w'. subst w'.
  pose proof (under_rate_limit_eligible _ _ Hlimit) as Hcan.
  pose proof (getOrCreateSessionId_keeps_last (Home.https e) (Home.randomUUID e)
                (Home.jar w)) as Hk.
  unfold Home.claimCoupon. rewrite Hempty. cbn [JS.truthy negb].
  destruct (Home.getOrCreateSessionId (Home.https e) (Home.randomUUID e)
              (Home.jar w)) as [fresh j].
  cbn [fst snd] in *.
  rewrite (truthy_nonempty _ Hfresh). cbn [negb].
  rewrite (canUserClaim_by_cookie j (Home.jar w) _ Hk), Hcan. cbn [negb].
  rewrite (claim_remote_inserted e "" _ j _ _ c Hsel Hfound Hupd Hins).
  cbn [Home.finally_setLoading Home.ui Home.server Home.toasts Remote.tables
         Remote.coupons Remote.claims].
  split.
  { cbn [Home.setLoading Home.sessionId]. rewrite updateClaimStatus_sessionId.
    reflexivity. }
  split; [apply claimed_table_member, Hfound |].
  repeat split; reflexivity.
Qed.

Lemma claimCoupon_empty_session_state_witness :
  let w :=
    {| Home.ui := Home.initial;
       Home.jar := [Browser.cookieOptions Home.SESSION_ID_COOKIE "s1" true];
       Home.server :=
         {| Remote.tables :=
              {| Remote.coupons := [available_sample]; Remote.claims := [] |};
            Remote.requests := [] |};
       Home.toasts := [] |} in
  Home.sessionId (Home.ui (Home.claimCoupon calm w)) = "s1"
  /\ In (claimed_version "" 1700000000100 available_sample)
        (Remote.coupons (Remote.tables (Home.server (Home.claimCoupon calm w)))).
Proof.
  intros w.
  destruct (claimCoupon_empty_session_state calm w available_sample)
    as (H1 & H2 & _);
    [reflexivity | discriminate | left; reflexivity | reflexivity
    | reflexivity | reflexivity | reflexivity |].
  split; [exact H1 | exact H2].
Defined.

(** X12. A claim that went through closes the button at once.  The
    handler writes the last-claim cookie at one clock reading and then runs
    [updateClaimStatus], which reads the clock twice more.  When the first
    of these readings is less than an hour after the cookie was written,
    the page state says "cannot claim" and the button is disabled; the wait
    text is the number of minutes, rounded up, from the second reading to
    one hour after the cookie was written, and it is "60 minutes" when the
    second reading is less than a minute after the cookie was written.  The
    claimed code is shown.  (The only cookies listed with a row beginning
    with "last_claim_time", a cookie without a name included, are the
    page's own last-claim cookies.) *)
Theorem claim_then_wait
    (e : Home.Env) (w : Home.World) (c : Remote.Coupon) :
  Home.sessionId (Home.ui w) <> "" ->
  under_rate_limit (Home.jar w) (Home.now_check e) ->
  Home.select_fault e = false ->
  find is_available (Remote.coupons (Remote.tables (Home.server w))) = Some c ->
  Home.update_fault e = false ->
  Home.insert_fault e = false ->
  only_own Home.LAST_CLAIM_TIME_COOKIE (Home.https e) (Home.jar w) ->
  Z.abs (Home.now_done e + 3600000) <= DateTime.maxTime ->
  Home.now_recheck e - Home.now_done e < 3600000 ->
  let w1 := Home.claimCoupon e w in
  Home.canClaim (Home.ui w1) = false
  /\ HomeEffects.button_disabled (Home.ui w1) = true
  /\ Home.claimedCoupon (Home.ui w1) = Some (Remote.code c)
  /\ (exists m : Z,
        (m - 1) * 60000 < Home.now_done e + 3600000 - Home.now_left e
                        <= m * 60000
        /\ Home.timeUntilNextClaim (Home.ui w1) = Home.waitText (Some m))
  /\ (Home.now_done e <= Home.now_left e < Home.now_done e + 60000 ->
      Home.timeUntilNextClaim (Home.ui w1) = "60 minutes").
Proof.
  intros Hsid Hlimit Hsel Hfound Hupd Hins Hown Hv Hsoon w1. subst w1.
  pose proof (only_own_clear _ _ _ Hown) as Hj.
  pose proof (under_rate_limit_eligible _ _ Hlimit) as Hcan.
  destruct (after_claim e w c Hsid Hcan Hsel Hfound Hupd Hins Hj)
    as (Hs1 & Hl1 & Hread & Hui).
  destruct (updateClaimStatus_wait _ _ _ Hread (parseInt_string_of_Z _)
              (Home.now_recheck e) (Home.now_left e)
              (Home.setClaimedCoupon (Some (Remote.code c))
                 (Home.setLoading true (Home.ui w))) Hv Hsoon)
    as [Hc Hm].
  pose proof (minutes_ceiling_bounds
                (Home.now_done e + 3600000 - Home.now_left e)) as Hb.
  cbv zeta in Hb.
  replace (- (Home.now_done e + 3600000 - Home.now_left e))
    with (Home.now_left e - (Home.now_done e + 3600000)) in Hb by lia.
  assert (Hcan1 : Home.canClaim (Home.ui (Home.claimCoupon e w)) = false).
  { rewrite Hui. exact Hc. }
  assert (Htext : Home.timeUntilNextClaim (Home.ui (Home.claimCoupon e w))
                  = Home.waitText
                      (Some (- ((Home.now_left e - (Home.now_done e + 3600000))
                                  / 60000)))).
  { rewrite Hui. exact Hm. }
  split; [exact Hcan1 |]. split.
  { unfold HomeEffects.button_disabled. rewrite Hcan1.
    cbn [negb]. apply orb_true_r. }
  split.
  { rewrite Hui. cbn [Home.setLoading Home.claimedCoupon].
    rewrite updateClaimStatus_claimedCoupon. reflexivity. }
  split.
  { eexists. split; [exact Hb | exact Htext]. }
  intros Hmin. rewrite Htext.
  replace (- ((Home.now_left e - (Home.now_done e + 3600000)) / 60000))
    with 60 by (Z.to_euclidean_division_equations; lia).
  reflexivity.
Qed.

Lemma claim_then_wait_witness :
  let w1 := Home.claimCoupon calm (visitor [available_sample]) in
  Home.canClaim (Home.ui w1) = false
  /\ HomeEffects.button_disabled (Home.ui w1) = true
  /\ Home.timeUntilNextClaim (Home.ui w1) = "60 minutes".
Proof.
  intros w1.
  destruct (claim_then_wait calm (visitor [available_sample]) available_sample)
    as (H1 & H2 & _ & _ & H5);
    [discriminate | left; reflexivity | reflexivity | reflexivity | reflexivity
    | reflexivity | repeat constructor; discriminate | vm_compute; discriminate
    | vm_compute; reflexivity |].
  split; [exact H1 |]. split; [exact H2 |].
  apply H5. vm_compute. split; [discriminate | reflexivity].
Defined.

(** ** Mounting the page and its timer *)

(** X13. Mounting the page establishes the session: afterwards the page
    state holds a non-empty session identifier, which is the one the cookie
    holds, the flag [canClaim] is the answer of the rate limiter at the
    first clock reading of the effect, and, when nothing is loading, the
    claim button is disabled exactly when the rate limiter says no.
    Nothing is sent to the store.  (The only cookies listed with a row
    beginning with "coupon_session_id", a cookie without a name included,
    are the page's own session cookies; the generated identifier is not
    empty and is made of hexadecimal digits and hyphens.) *)
Theorem mount_establishes_session
    (https : bool) (u : string) (now now' : Z) (w : Home.World) :
  only_own Home.SESSION_ID_COOKIE https (Home.jar w) ->
  u <> "" ->
  all_chars is_uuid_char u = true ->
  let w' := HomeEffects.mount https u now now' w in
  Home.sessionId (Home.ui w') <> ""
  /\ Browser.read_cookie Home.SESSION_ID_COOKIE (Home.jar w')
     = Some (Home.sessionId (Home.ui w'))
  /\ Home.canClaim (Home.ui w') = Home.canUserClaim (Home.jar w) now
  /\ (Home.loading (Home.ui w) = false ->
      HomeEffects.button_disabled (Home.ui w')
      = negb (Home.canUserClaim (Home.jar w) now))
  /\ Home.server w' = Home.server w
  /\ Home.toasts w' = Home.toasts w.
Proof.
  intros Hown Hu Huuid w'. subst w'. unfold HomeEffects.mount.
  destruct (getOrCreateSessionId_creates https u (Home.jar w)
              (only_own_clear _ _ _ Hown) Hu (uuid_plain _ Huuid))
    as (Hr & Ht & _).
  pose proof (getOrCreateSessionId_keeps_last https u (Home.jar w)) as Hk.
  destruct (Home.getOrCreateSessionId https u (Home.jar w)) as [sid j].
  cbn [fst snd] in *. cbn [Home.ui Home.jar Home.server Home.toasts].
  rewrite updateClaimStatus_sessionId, updateClaimStatus_canClaim.
  cbn [Home.setSessionId Home.sessionId].
  rewrite (canUserClaim_by_cookie j (Home.jar w) now Hk).
  split; [intros E; rewrite E in Ht; discriminate Ht |].
  split; [exact Hr |]. split; [reflexivity |].
  split; [| split; reflexivity].
  intros Hl. unfold HomeEffects.button_disabled.
  rewrite updateClaimStatus_loading, updateClaimStatus_sessionId,
    updateClaimStatus_canClaim.
  cbn [Home.setSessionId Home.loading Home.sessionId].
  rewrite Hl, Ht, (canUserClaim_by_cookie j (Home.jar w) now Hk).
  reflexivity.
Qed.

Lemma mount_establishes_session_witness :
  let w :=
    {| Home.ui := Home.initial; Home.jar := [];
       Home.server :=
         {| Remote.tables := {| Remote.coupons := []; Remote.claims := [] |};
            Remote.requests := [] |};
       Home.toasts := [] |} in
  Home.sessionId
    (Home.ui (HomeEffects.mount true "a1-0f" 1700000000000 1700000000001 w))
  <> ""
  /\ HomeEffects.button_disabled
       (Home.ui (HomeEffects.mount true "a1-0f" 1700000000000 1700000000001 w))
     = false.
Proof.
  intros w.
  destruct (mount_establishes_session true "a1-0f" 1700000000000 1700000000001 w)
    as (H1 & _ & _ & H4 & _);
    [constructor | discriminate | reflexivity |].
  split; [exact H1 |]. rewrite (H4 eq_refl). reflexivity.
Defined.

(** X15. After a claim that went through, the timer reopens the button
    when the hour is over and not before: whatever runs of its callback
    came before, a run whose first clock reading is [N] sets [canClaim] to
    true exactly when [N] is at least one hour after the reading at which
    the last-claim cookie was written.  (The only cookies listed with a row
    beginning with "last_claim_time", a cookie without a name included, are
    the page's own last-claim cookies.) *)
Theorem timer_reopens_after_an_hour
    (e : Home.Env) (w : Home.World) (c : Remote.Coupon)
    (https : bool) (runs : list (string * (Z * Z))) (u : string) (N N' : Z) :
  Home.sessionId (Home.ui w) <> "" ->
  under_rate_limit (Home.jar w) (Home.now_check e) ->
  Home.select_fault e = false ->
  find is_available (Remote.coupons (Remote.tables (Home.server w))) = Some c ->
  Home.update_fault e = false ->
  Home.insert_fault e = false ->
  only_own Home.LAST_CLAIM_TIME_COOKIE (Home.https e) (Home.jar w) ->
  Z.abs (Home.now_done e) <= DateTime.maxTime ->
  (Home.canClaim
     (Home.ui
        (HomeEffects.interval https u N N'
           (HomeEffects.intervals https runs (Home.claimCoupon e w))))
   = true
   <-> 3600000 <= N - Home.now_done e).
Proof.
  intros Hsid Hlimit Hsel Hfound Hupd Hins Hown Hv.
  pose proof (only_own_clear _ _ _ Hown) as Hj.
  pose proof (under_rate_limit_eligible _ _ Hlimit) as Hcan.
  destruct (after_claim e w c Hsid Hcan Hsel Hfound Hupd Hins Hj)
    as (_ & _ & Hread & _).
  rewrite <- (intervals_keep_last https runs) in Hread.
  set (w1 := HomeEffects.intervals https runs (Home.claimCoupon e w)) in *.
  pose proof (getOrCreateSessionId_keeps_last https u (Home.jar w1)) as Hk.
  unfold HomeEffects.interval.
  destruct (Home.getOrCreateSessionId https u (Home.jar w1)) as [cur j].
  cbn [snd] in Hk. cbn [Home.ui]. rewrite updateClaimStatus_canClaim.
  rewrite Hread in Hk.
  apply (canUserClaim_recorded _ _ _ Hk (parseInt_string_of_Z _) N Hv).
Qed.

Lemma timer_reopens_after_an_hour_witness :
  let w1 := Home.claimCoupon calm (visitor [available_sample]) in
  let runs := [("b2", (1700000001300, 1700000001301));
               ("c3", (1700000002300, 1700000002301))] in
  Home.canClaim
    (Home.ui
       (HomeEffects.interval true "d4" 1700003600300 1700003600301
          (HomeEffects.intervals true runs w1)))
  = true
  /\ Home.canClaim
       (Home.ui
          (HomeEffects.interval true "d4" 1700003600299 1700003600300
             (HomeEffects.intervals true runs w1)))
     = false.
Proof.
  intros w1 runs.
  assert (H : forall N N',
             Home.canClaim
               (Home.ui
                  (HomeEffects.interval true "d4" N N'
                     (HomeEffects.intervals true runs w1)))
             = true
             <-> 3600000 <= N - 1700000000300).
  { intros N N'.
    apply (timer_reopens_after_an_hour calm (visitor [available_sample])
             available_sample true runs "d4" N N');
      [discriminate | left; reflexivity | reflexivity | reflexivity
      | reflexivity | reflexivity | repeat constructor; discriminate
      | vm_compute; discriminate]. }
  split.
  - apply H. lia.
  - destruct (Home.canClaim _) eqn:E; [| reflexivity].
    apply H in E. lia.
Defined.

(** X29. When the jar lists no session cookie (none was written yet, or
    the browser has dropped it after its max-age), a run of the timer
    callback creates a session anew: the generated identifier is written
    as a new cookie at the end of the jar, it is what the lookup finds from
    then on, and it replaces the identifier in the page state.  Nothing is
    sent or shown.  (The generated identifier is not empty and is made of
    hexadecimal digits and hyphens.) *)
Theorem timer_renews_session
    (https : bool) (u : string) (N N' : Z) (w : Home.World) :
  not_listed Home.SESSION_ID_COOKIE (Home.jar w) ->
  u <> "" ->
  all_chars is_uuid_char u = true ->
  let w' := HomeEffects.interval https u N N' w in
  Home.sessionId (Home.ui w') = u
  /\ Home.jar w'
     = (Home.jar w ++ [Browser.cookieOptions Home.SESSION_ID_COOKIE u https])%list
  /\ Browser.read_cookie Home.SESSION_ID_COOKIE (Home.jar w') = Some u
  /\ Home.server w' = Home.server w
  /\ Home.toasts w' = Home.toasts w.
Proof.
  intros Hnone Hu Huuid w'. subst w'.
  unfold HomeEffects.interval, Home.getOrCreateSessionId.
  rewrite (read_not_listed _ _ Hnone). cbn [JS.truthy_opt].
  rewrite (session_set_appends u https _ Hnone).
  cbn [Home.ui Home.jar Home.server Home.toasts].
  rewrite updateClaimStatus_sessionId.
  assert (Hneq : String.eqb u (Home.sessionId Home.initial) = false).
  { apply String.eqb_neq. exact Hu. }
  rewrite Hneq. cbn [negb Home.setSessionId Home.sessionId].
  split; [reflexivity |]. split; [reflexivity |]. split; [| split; reflexivity].
  apply (read_appended_session u https _ Hnone (uuid_plain _ Huuid)).
Qed.

Lemma timer_renews_session_witness :
  let w :=
    {| Home.ui := Home.setSessionId "a1-0f" Home.initial;
       Home.jar :=
         [Browser.cookieOptions Home.LAST_CLAIM_TIME_COOKIE "1700000000000" true];
       Home.server :=
         {| Remote.tables := {| Remote.coupons := []; Remote.claims := [] |};
            Remote.requests := [] |};
       Home.toasts := [] |} in
  Home.sessionId
    (Home.ui (HomeEffects.interval true "b2-77" 1700086400000 1700086400001 w))
  = "b2-77".
Proof.
  intros w.
  destruct (timer_renews_session true "b2-77" 1700086400000 1700086400001 w)
    as (H & _);
    [repeat constructor | discriminate | reflexivity |].
  exact H.
Defined.

(** ** Listing the coupons *)

Section Listing.

Import Remote.

Lemma insert_desc_perm (c : Coupon) (l : list Coupon) :
  Permutation (insert_desc c l) (c :: l).
Proof.
  induction l as [|x r IH]; cbn [insert_desc]; [reflexivity |].
  destruct (created_at x <? created_at c); [reflexivity |].
  rewrite IH. apply perm_swap.
Qed.

Lemma order_desc_perm (l : list Coupon) : Permutation (order_desc l) l.
Proof.
  induction l as [|x r IH]; cbn [order_desc]; [reflexivity |].
  rewrite insert_desc_perm, IH. reflexivity.
Qed.

Lemma insert_desc_head (a c : Coupon) (l : list Coupon) :
  newer_or_same a c -> HdRel newer_or_same a l ->
  HdRel newer_or_same a (insert_desc c l).
Proof.
  intros Hac Hal. destruct l as [|x r]; cbn [insert_desc];
    [constructor; exact Hac |].
  destruct (created_at x <? created_at c); constructor;
    [exact Hac | inversion Hal; assumption].
Qed.

Lemma insert_desc_sorted (c : Coupon) (l : list Coupon) :
  Sorted newer_or_same l -> Sorted newer_or_same (insert_desc c l).
Proof.
  induction 1 as [|x r Hr IH Hx]; cbn [insert_desc];
    [repeat constructor |].
  destruct (Z.ltb_spec (created_at x) (created_at c)) as [Hlt | Hge].
  - constructor; [constructor; assumption |].
    constructor. unfold newer_or_same. lia.
  - constructor; [exact IH |].
    apply insert_desc_head; [unfold newer_or_same; lia | exact Hx].
Qed.

Lemma order_desc_sorted (l : list Coupon) : Sorted newer_or_same (order_desc l).
Proof.
  induction l as [|x r IH]; cbn [order_desc]; [constructor |].
  apply insert_desc_sorted, IH.
Qed.

End Listing.

(** X16. A load of the coupons that goes through shows every stored row
    once, newest first, and shows no toast; a load that fails leaves the
    list as it is and shows "Failed to load coupons".  Neither changes what
    is stored. *)
Theorem loadCoupons_lists_newest_first (fault : bool) (w : Admin.World) :
  Remote.tables (Admin.server (Admin.loadCoupons fault w))
  = Remote.tables (Admin.server w)
  /\ (fault = false ->
      Permutation (Admin.coupons (Admin.ui (Admin.loadCoupons fault w)))
        (Remote.coupons (Remote.tables (Admin.server w)))
      /\ Sorted newer_or_same
           (Admin.coupons (Admin.ui (Admin.loadCoupons fault w)))
      /\ Admin.toasts (Admin.loadCoupons fault w) = Admin.toasts w)
  /\ (fault = true ->
      Admin.coupons (Admin.ui (Admin.loadCoupons fault w))
      = Admin.coupons (Admin.ui w)
      /\ Admin.toasts (Admin.loadCoupons fault w)
         = (Admin.toasts w
              ++ [Browser.toast_error "Failed to load coupons"])%list).
Proof.
  unfold Admin.loadCoupons, Remote.select_coupons.
  destruct fault; cbn; (split; [reflexivity |]); split; intros H;
    try discriminate H.
  - split; reflexivity.
  - split; [apply order_desc_perm |]. split; [apply order_desc_sorted |].
    reflexivity.
Qed.

(** ** Creating coupons: the failure paths *)

Section AddPaths.

Import Browser Remote DateTime Admin.

Lemma TimeClip_invalid (t : Z) : maxTime < Z.abs t -> TimeClip t = None.
Proof.
  intros H. unfold TimeClip.
  destruct (Z.leb_spec (Z.abs t) maxTime); [lia | reflexivity].
Qed.

Lemma expiry_date_NaN (tza : Zone) (now : Z) :
  expiry_date tza now None = None.
Proof. reflexivity. Qed.

End AddPaths.

(** X17. With an expiry field that holds no number (an emptied field,
    since [parseInt] of the empty text is NaN), or one that moves the date
    out of the range of valid dates, the create-coupon handler sends nothing
    to the store and changes nothing; it only shows "Failed to add
    coupon". *)
Theorem addCoupon_invalid_expiry (e : Admin.AddEnv) (w : Admin.World) :
  Admin.expiryDays (Admin.ui w) = None
  \/ (exists d : Z,
         Admin.expiryDays (Admin.ui w) = Some d
         /\ DateTime.maxTime
            < Z.abs (DateTime.UTC (Admin.zone e)
                       (expiry_target (Admin.zone e) (Admin.now e) d))) ->
  Admin.addCoupon e w
  = {| Admin.ui := Admin.ui w;
       Admin.server := Admin.server w;
       Admin.toasts :=
         Admin.toasts w ++ [Browser.toast_error "Failed to add coupon"] |}.
Proof.
  intros [Hnan | (d & Hd & Hout)]; unfold Admin.addCoupon.
  - rewrite Hnan, expiry_date_NaN. reflexivity.
  - rewrite (expiry_date_days e w d Hd), (TimeClip_invalid _ Hout). reflexivity.
Qed.

Lemma addCoupon_invalid_expiry_witness :
  let e :=
    {| Admin.random := one_half; Admin.now := 1700000000000;
       Admin.zone := fun _ _ => 19800000; Admin.insert_fault := false;
       Admin.coupon_key := "k9"; Admin.coupon_stamp := 1700000000000;
       Admin.reload_fault := false |} in
  let w :=
    {| Admin.ui := Admin.setExpiryDays "" Admin.initial;
       Admin.server :=
         {| Remote.tables := {| Remote.coupons := []; Remote.claims := [] |};
            Remote.requests := [] |};
       Admin.toasts := [] |} in
  Remote.requests (Admin.server (Admin.addCoupon e w)) = []
  /\ Admin.toasts (Admin.addCoupon e w)
     = [Browser.toast_error "Failed to add coupon"].
Proof.
  intros e w.
  rewrite (addCoupon_invalid_expiry e w); [split; reflexivity |].
  left. reflexivity.
Defined.

(** X18. Creating a coupon never touches what is stored already: the
    coupons table afterwards is the one before with at most one row added
    at the end, a row that is available with claimed_by and claimed_at
    null; the claims table is unchanged.  When the store rejects the insert,
    no row is added, the list on the dashboard is not reloaded and "Failed
    to add coupon" is shown. *)
Theorem addCoupon_footprint (e : Admin.AddEnv) (w : Admin.World) :
  (Remote.coupons (Remote.tables (Admin.server (Admin.addCoupon e w)))
   = Remote.coupons (Remote.tables (Admin.server w))
   \/ exists c : Remote.Coupon,
       Remote.coupons (Remote.tables (Admin.server (Admin.addCoupon e w)))
       = (Remote.coupons (Remote.tables (Admin.server w)) ++ [c])%list
       /\ Remote.status c = Remote.available
       /\ Remote.claimed_by c = None
       /\ Remote.claimed_at c = None
       /\ Remote.code c = Admin.generate_code (Admin.random e))
  /\ Remote.claims (Remote.tables (Admin.server (Admin.addCoupon e w)))
     = Remote.claims (Remote.tables (Admin.server w))
  /\ (Admin.insert_fault e = true ->
      Remote.tables (Admin.server (Admin.addCoupon e w))
      = Remote.tables (Admin.server w)
      /\ Admin.ui (Admin.addCoupon e w) = Admin.ui w
      /\ Admin.toasts (Admin.addCoupon e w)
         = (Admin.toasts w
              ++ [Browser.toast_error "Failed to add coupon"])%list).
Proof.
  unfold Admin.addCoupon.
  destruct (DateTime.toISOString _) as [iso |].
  2:{ cbn. split; [left; reflexivity |]. split; [reflexivity |].
      intros _. repeat split. }
  unfold Remote.insert_coupon, Admin.loadCoupons, Remote.select_coupons.
  destruct (Admin.insert_fault e); cbn.
  - split; [left; reflexivity |]. split; [reflexivity |].
    intros _. repeat split.
  - destruct (Admin.reload_fault e); cbn;
      (split; [right; eexists; repeat split |]);
      (split; [reflexivity | intros H; discriminate H]).
Qed.

(** X19. The expiry field takes any integer as it is typed, zero and
    negative ones too: the text of [d] sets the field to [d], and with [d]
    not positive the handler stores a coupon whose expiry is the handler's
    clock reading plus [d] days, which is not later than that reading: the
    coupon has expired when it is created.  (The insert goes through and
    the UTC offset at the computed local time is the one at the clock
    reading.) *)
Theorem addCoupon_accepts_past_expiry
    (e : Admin.AddEnv) (w : Admin.World) (st : Admin.State) (d : Z) :
  Admin.ui w = Admin.setExpiryDays (JS.string_of_Z d) st ->
  d <= 0 ->
  Z.abs (DateTime.UTC (Admin.zone e)
           (expiry_target (Admin.zone e) (Admin.now e) d))
    <= DateTime.maxTime ->
  Admin.insert_fault e = false ->
  Admin.zone e (expiry_target (Admin.zone e) (Admin.now e) d) false
  = Admin.zone e (Admin.now e) true ->
  Admin.expiryDays (Admin.ui w) = Some d
  /\ exists c : Remote.Coupon,
      Remote.coupons (Remote.tables (Admin.server (Admin.addCoupon e w)))
      = (Remote.coupons (Remote.tables (Admin.server w)) ++ [c])%list
      /\ Remote.expires_at c = Admin.now e + d * DateTime.msPerDay
      /\ Remote.expires_at c <= Admin.now e.
Proof.
  intros Hui Hd Hr Hi Hz.
  assert (Hdays : Admin.expiryDays (Admin.ui w) = Some d).
  { rewrite Hui. cbn [Admin.setExpiryDays Admin.expiryDays].
    apply parseInt_string_of_Z. }
  split; [exact Hdays |].
  eexists. split; [apply (addCoupon_table e w d Hdays Hr Hi) |].
  cbn [Remote.new_coupon Remote.expires_at Remote.created_at].
  unfold DateTime.UTC. rewrite Hz.
  unfold expiry_target, DateTime.LocalTime, DateTime.msPerDay. lia.
Qed.

Lemma addCoupon_accepts_past_expiry_witness :
  let e :=
    {| Admin.random := one_half; Admin.now := 1700000000000;
       Admin.zone := fun _ _ => 19800000; Admin.insert_fault := false;
       Admin.coupon_key := "k9"; Admin.coupon_stamp := 1700000000250;
       Admin.reload_fault := false |} in
  let w :=
    {| Admin.ui := Admin.setExpiryDays "-3" Admin.initial;
       Admin.server :=
         {| Remote.tables := {| Remote.coupons := []; Remote.claims := [] |};
            Remote.requests := [] |};
       Admin.toasts := [] |} in
  exists c : Remote.Coupon,
    Remote.coupons (Remote.tables (Admin.server (Admin.addCoupon e w))) = [c]
    /\ Remote.expires_at c = 1700000000000 + (-3) * DateTime.msPerDay.
Proof.
  intros e w.
  destruct (addCoupon_accepts_past_expiry e w Admin.initial (-3))
    as (_ & c & Ht & Hx & _);
    [reflexivity | lia | vm_compute; discriminate | reflexivity
    | reflexivity |].
  exists c. split; [exact Ht | exact Hx].
Defined.

(** ** Toggling: what is written and what is not *)

Section TogglePaths.

Import Browser Remote Admin.

Lemma toggled_but_status (coupon x : Coupon) :
  but_status (toggled coupon x) = but_status x.
Proof. unfold toggled. destruct (matches_all _ x); reflexivity. Qed.

Lemma toggled_other (coupon x : Coupon) :
  id x <> id coupon -> toggled coupon x = x.
Proof.
  intros Hne. unfold toggled, matches_all. cbn [forallb matches].
  rewrite (proj2 (String.eqb_neq _ _) Hne). reflexivity.
Qed.

Lemma toggle_tables (e : ToggleEnv) (coupon : Coupon) (w : World) :
  tables (server (toggleCouponStatus e coupon w))
  = if update_fault e then tables (server w)
    else {| Remote.coupons :=
              map (toggled coupon) (Remote.coupons (tables (server w)));
            claims := claims (tables (server w)) |}.
Proof.
  unfold toggleCouponStatus, update_coupons, loadCoupons, select_coupons.
  destruct (update_fault e); cbn; [reflexivity |].
  destruct (refresh_fault e); reflexivity.
Qed.

Lemma toggled_settles (c : Coupon) :
  status (toggled c c) <> claimed
  /\ toggled (toggled (toggled c c) (toggled c c))
       (toggled (toggled c c) (toggled c c))
     = toggled c c.
Proof.
  rewrite !toggled_self. destruct c as [k cd st cb ca ex cr].
  unfold newStatus. cbn. destruct st; cbn; split; try discriminate; reflexivity.
Qed.

Lemma click_view (e : ToggleEnv) (w : World) (i : nat) (c : Coupon) :
  in_step w ->
  nth_error (coupons (ui w)) i = Some c ->
  update_fault e = false -> refresh_fault e = false ->
  in_step (click_toggle e i w)
  /\ nth_error (coupons (ui (click_toggle e i w))) i = Some (toggled c c).
Proof.
  intros Hstep Hrow Hu Hr. unfold click_toggle. rewrite Hrow.
  unfold in_step.
  rewrite (toggle_view e c w Hu Hr), (toggle_table e c w Hu Hr).
  split; [reflexivity |].
  rewrite order_desc_map by apply toggled_created_at.
  rewrite <- Hstep, nth_error_map, Hrow. reflexivity.
Qed.

End TogglePaths.

(** X20. The toggle writes the status column of the rows with the key of
    the clicked coupon and nothing else: every other column of every row,
    the rows of other keys, the order of the rows and the claims table are
    as before.  When the store rejects the update nothing is changed, the
    list is not reloaded and "Failed to update coupon status" is shown. *)
Theorem toggle_footprint
    (e : Admin.ToggleEnv) (coupon : Remote.Coupon) (w : Admin.World) :
  map but_status
    (Remote.coupons
       (Remote.tables (Admin.server (Admin.toggleCouponStatus e coupon w))))
  = map but_status (Remote.coupons (Remote.tables (Admin.server w)))
  /\ (forall (i : nat) (x : Remote.Coupon),
        nth_error (Remote.coupons (Remote.tables (Admin.server w))) i = Some x ->
        Remote.id x <> Remote.id coupon ->
        nth_error
          (Remote.coupons
             (Remote.tables (Admin.server (Admin.toggleCouponStatus e coupon w))))
          i
        = Some x)
  /\ Remote.claims
       (Remote.tables (Admin.server (Admin.toggleCouponStatus e coupon w)))
     = Remote.claims (Remote.tables (Admin.server w))
  /\ (Admin.update_fault e = true ->
      Remote.tables (Admin.server (Admin.toggleCouponStatus e coupon w))
      = Remote.tables (Admin.server w)
      /\ Admin.ui (Admin.toggleCouponStatus e coupon w) = Admin.ui w
      /\ Admin.toasts (Admin.toggleCouponStatus e coupon w)
         = (Admin.toasts w
              ++ [Browser.toast_error "Failed to update coupon status"])%list).
Proof.
  rewrite toggle_tables. split; [| split; [| split]].
  - destruct (Admin.update_fault e); cbn; [reflexivity |].
    rewrite map_map. apply map_ext, toggled_but_status.
  - intros i x Hx Hne. destruct (Admin.update_fault e); cbn; [exact Hx |].
    rewrite nth_error_map, Hx. cbn. rewrite (toggled_other _ _ Hne).
    reflexivity.
  - destruct (Admin.update_fault e); reflexivity.
  - intros Hf. rewrite Hf. split; [reflexivity |].
    unfold Admin.toggleCouponStatus, Remote.update_coupons. rewrite Hf. cbn.
    split; reflexivity.
Qed.

(** X21. After one click the toggle only alternates: the status shown for
    the clicked row is then available or disabled, never claimed, and two
    further clicks bring that status back, whatever the status was at the
    start. *)
Theorem toggle_settles
    (e1 e2 e3 : Admin.ToggleEnv) (w : Admin.World) (i : nat)
    (c : Remote.Coupon) :
  in_step w ->
  nth_error (Admin.coupons (Admin.ui w)) i = Some c ->
  Admin.update_fault e1 = false -> Admin.refresh_fault e1 = false ->
  Admin.update_fault e2 = false -> Admin.refresh_fault e2 = false ->
  Admin.update_fault e3 = false -> Admin.refresh_fault e3 = false ->
  let w1 := Admin.click_toggle e1 i w in
  Admin.shown_status i w1 = Some (Admin.newStatus c)
  /\ Admin.newStatus c <> Remote.claimed
  /\ Admin.shown_status i (Admin.click_toggle e3 i (Admin.click_toggle e2 i w1))
     = Admin.shown_status i w1.
Proof.
  intros Hstep Hrow Hu1 Hr1 Hu2 Hr2 Hu3 Hr3 w1.
  destruct (click_view e1 w i c Hstep Hrow Hu1 Hr1) as [Hstep1 Hrow1].
  fold w1 in Hstep1, Hrow1.
  destruct (toggled_settles c) as [Hnot Hback].
  unfold Admin.shown_status.
  rewrite (click_twice_view e2 e3 w1 i _ Hstep1 Hrow1 Hu2 Hr2 Hu3 Hr3).
  rewrite Hback, Hrow1. cbn [option_map]. rewrite toggled_self in *.
  cbn [Remote.status] in *. repeat split. exact Hnot.
Qed.

Lemma toggle_settles_witness :
  Admin.shown_status 0
    (Admin.click_toggle no_faults 0
       (Admin.click_toggle no_faults 0
          (Admin.click_toggle no_faults 0 (dashboard [claimed_sample]))))
  = Some Remote.available.
Proof.
  destruct (toggle_settles no_faults no_faults no_faults
              (dashboard [claimed_sample]) 0 claimed_sample)
    as (H1 & _ & H3);
    [reflexivity | reflexivity | reflexivity | reflexivity | reflexivity
    | reflexivity | reflexivity | reflexivity |].
  rewrite H3, H1. reflexivity.
Defined.

(** X22. The toggle keeps the coupon invariant whenever the rows with the
    key of the clicked coupon carry no claim: with claimed_by and claimed_at
    null in those rows, a table that satisfies the invariant satisfies it
    after the toggle. *)
Theorem toggle_keeps_invariant_when_unclaimed
    (e : Admin.ToggleEnv) (coupon : Remote.Coupon) (w : Admin.World) :
  (forall x : Remote.Coupon,
      In x (Remote.coupons (Remote.tables (Admin.server w))) ->
      Remote.id x = Remote.id coupon ->
      Remote.claimed_by x = None /\ Remote.claimed_at x = None) ->
  table_ok (Admin.server w) ->
  table_ok (Admin.server (Admin.toggleCouponStatus e coupon w)).
Proof.
  intros Hnone Hok. unfold table_ok in *. rewrite toggle_tables.
  destruct (Admin.update_fault e); [exact Hok |]. cbn.
  apply Forall_forall. intros y Hy. apply in_map_iff in Hy.
  destruct Hy as (x & <- & Hx).
  pose proof (proj1 (Forall_forall _ _) Hok x Hx) as Hxok.
  destruct (String.eqb_spec (Remote.id x) (Remote.id coupon)) as [Heq | Hne].
  - destruct (Hnone x Hx Heq) as [Hby Hat].
    unfold toggled, Remote.matches_all. cbn [forallb Remote.matches].
    rewrite Heq, String.eqb_refl. cbn [andb].
    unfold coupon_ok. cbn. rewrite Hby, Hat.
    destruct (Admin.newStatus coupon) eqn:E; [split; reflexivity | | exact I].
    unfold Admin.newStatus in E.
    destruct (Remote.Status_eqb (Remote.status coupon) Remote.available);
      discriminate E.
  - rewrite (toggled_other _ _ Hne). exact Hxok.
Qed.

Lemma toggle_keeps_invariant_when_unclaimed_witness :
  table_ok
    (Admin.server
       (Admin.toggleCouponStatus no_faults available_sample
          (dashboard [claimed_sample; available_sample]))).
Proof.
  apply (toggle_keeps_invariant_when_unclaimed no_faults available_sample
           (dashboard [claimed_sample; available_sample])).
  - intros x [<- | [<- | []]] H; [discriminate H | split; reflexivity].
  - repeat constructor; discriminate.
Defined.

(** ** Deleting a coupon *)

Section DeletePaths.

Import Browser Remote.

Lemma insert_desc_front (c : Coupon) (l : list Coupon) :
  Forall (fun y => created_at y < created_at c) l ->
  insert_desc c l = c :: l.
Proof.
  intros H. destruct l as [|x r]; [reflexivity |].
  inversion H as [|? ? Hx _]; subst. cbn [insert_desc].
  rewrite (proj2 (Z.ltb_lt _ _) Hx). reflexivity.
Qed.

Lemma filter_below (P : Coupon -> bool) (bound : Z) (l : list Coupon) :
  Forall (fun y => created_at y < bound) l ->
  Forall (fun y => created_at y < bound) (filter P l).
Proof.
  intros H. apply Forall_forall. intros y Hy.
  apply filter_In in Hy. destruct Hy as [Hy _].
  exact (proj1 (Forall_forall _ _) H y Hy).
Qed.

Lemma insert_desc_filter (P : Coupon -> bool) (c : Coupon) (l : list Coupon) :
  StronglySorted newer_or_same l ->
  filter P (insert_desc c l)
  = if P c then insert_desc c (filter P l) else filter P l.
Proof.
  induction 1 as [|x r Hr IH Hx]; cbn [insert_desc filter].
  - destruct (P c); reflexivity.
  - destruct (Z.ltb_spec (created_at x) (created_at c)) as [Hlt | Hge].
    + cbn [filter]. destruct (P c) eqn:Pc; [| reflexivity].
      destruct (P x) eqn:Px.
      * cbn [insert_desc]. rewrite (proj2 (Z.ltb_lt _ _) Hlt). reflexivity.
      * symmetry. apply insert_desc_front, filter_below.
        eapply Forall_impl; [| exact Hx]. unfold newer_or_same.
        intros y Hy. lia.
    + cbn [filter]. rewrite IH. destruct (P x) eqn:Px, (P c) eqn:Pc;
        try reflexivity.
      cbn [insert_desc]. rewrite (proj2 (Z.ltb_ge _ _) Hge). reflexivity.
Qed.

Lemma newer_or_same_trans : Relations_1.Transitive newer_or_same.
Proof. intros a b c Hab Hbc. unfold newer_or_same in *. lia. Qed.

Lemma order_desc_filter (P : Coupon -> bool) (l : list Coupon) :
  order_desc (filter P l) = filter P (order_desc l).
Proof.
  induction l as [|x r IH]; cbn [order_desc filter]; [reflexivity |].
  rewrite insert_desc_filter
    by (apply Sorted_StronglySorted;
        [exact newer_or_same_trans | apply order_desc_sorted]).
  destruct (P x); cbn [order_desc]; rewrite IH; reflexivity.
Qed.

End DeletePaths.

(** X23. Deleting a coupon removes it from what is stored and from the
    list: after a delete that goes through and the reload that follows, the
    coupons table and the list on the dashboard are the ones before without
    the rows of the deleted key, the other rows unchanged and in the same
    order, and "Coupon deleted successfully" is shown.  A delete that the
    store rejects changes neither and shows "Failed to delete coupon". *)
Theorem deleteCoupon_removes_the_row
    (e : Deletion.Env) (key : string) (w : Deletion.World) :
  in_step (Deletion.page w) ->
  Deletion.reload_fault e = false ->
  let w' := Deletion.deleteCoupon e key w in
  Deletion.deleted w' = (Deletion.deleted w ++ [key])%list
  /\ (Deletion.delete_fault e = false ->
      Remote.coupons (Remote.tables (Admin.server (Deletion.page w')))
      = without_key key
          (Remote.coupons (Remote.tables (Admin.server (Deletion.page w))))
      /\ Admin.coupons (Admin.ui (Deletion.page w'))
         = without_key key (Admin.coupons (Admin.ui (Deletion.page w)))
      /\ (forall x, In x (Admin.coupons (Admin.ui (Deletion.page w'))) ->
                    Remote.id x <> key)
      /\ Admin.toasts (Deletion.page w')
         = (Admin.toasts (Deletion.page w)
              ++ [Browser.toast_success "Coupon deleted successfully"])%list)
  /\ (Deletion.delete_fault e = true ->
      Remote.tables (Admin.server (Deletion.page w'))
      = Remote.tables (Admin.server (Deletion.page w))
      /\ Admin.ui (Deletion.page w') = Admin.ui (Deletion.page w)
      /\ Admin.toasts (Deletion.page w')
         = (Admin.toasts (Deletion.page w)
              ++ [Browser.toast_error "Failed to delete coupon"])%list).
Proof.
  intros Hstep Hreload w'. subst w'.
  unfold Deletion.deleteCoupon, Deletion.delete_coupons.
  destruct (Deletion.delete_fault e); cbn [negb].
  - cbn. split; [reflexivity |]. split; [intros H; discriminate H |].
    intros _. repeat split.
  - unfold Admin.loadCoupons, Remote.select_coupons. rewrite Hreload. cbn.
    split; [reflexivity |]. split; [| intros H; discriminate H].
    intros _. unfold without_key. split; [reflexivity |].
    assert (Hview :
              Remote.order_desc
                (filter (fun c => negb (String.eqb (Remote.id c) key))
                   (Remote.coupons
                      (Remote.tables (Admin.server (Deletion.page w)))))
              = filter (fun c => negb (String.eqb (Remote.id c) key))
                  (Admin.coupons (Admin.ui (Deletion.page w)))).
    { rewrite order_desc_filter, <- Hstep. reflexivity. }
    rewrite Hview. split; [reflexivity |]. split; [| reflexivity].
    intros x Hx. apply filter_In in Hx. destruct Hx as [_ Hx].
    apply negb_true_iff in Hx. apply String.eqb_neq. exact Hx.
Qed.

Lemma deleteCoupon_removes_the_row_witness :
  let e :=
    {| Deletion.delete_fault := false; Deletion.claims_left := [];
       Deletion.reload_fault := false |} in
  let w :=
    {| Deletion.page := dashboard [claimed_sample; available_sample];
       Deletion.deleted := [] |} in
  Admin.coupons (Admin.ui (Deletion.page (Deletion.click_delete e 0 w)))
  = [available_sample].
Proof.
  intros e w.
  change (Deletion.click_delete e 0 w) with (Deletion.deleteCoupon e "k1" w).
  destruct (deleteCoupon_removes_the_row e "k1" w) as (_ & H & _);
    [reflexivity | reflexivity |].
  destruct (H eq_refl) as (_ & Hv & _). rewrite Hv. reflexivity.
Defined.

(** ** The length of the generated code *)

Section CodeLength.

Lemma length_radix_chars (r : list JS.digit36) :
  String.length (JS.radix_chars r) = List.length r.
Proof. induction r as [|d r IH]; cbn; [reflexivity | rewrite IH; reflexivity]. Qed.

Lemma length_prefix_exact (k : nat) (s : string) :
  String.length (String.substring 0 k s) = Nat.min k (String.length s).
Proof.
  revert s. induction k as [|k IH]; intros s.
  - destruct s; reflexivity.
  - destruct s as [|c r]; cbn; [reflexivity |]. rewrite IH. reflexivity.
Qed.

End CodeLength.

(** X24. The generated code has as many characters as the random number
    prints fraction digits, up to 8: it is 8 characters long exactly when
    at least 8 fraction digits are printed, and empty when the generator
    yields zero. *)
Theorem generate_code_length_exact (r : JS.Random) :
  String.length (Admin.generate_code r) = Nat.min 8 (List.length r).
Proof.
  destruct r as [|d r]; [reflexivity |].
  rewrite generate_code_prefix, length_toUpperCase, length_prefix_exact,
    length_radix_chars.
  lia.
Qed.

(** ** Which rows a claim can touch *)

Section ClaimRows.

Import Browser Remote Home.

Lemma same_key_same_row (l : list Coupon) (x c : Coupon) :
  keys_unique l -> In x l -> In c l -> id x = id c -> x = c.
Proof.
  unfold keys_unique. induction l as [|y r IH]; cbn [map In]; [intros _ [] |].
  intros Hnd Hx Hc Hid. inversion Hnd as [|? ? Hnot Hr]; subst.
  destruct Hx as [-> | Hx], Hc as [-> | Hc].
  - reflexivity.
  - exfalso. apply Hnot. rewrite Hid. apply in_map, Hc.
  - exfalso. apply Hnot. rewrite <- Hid. apply in_map, Hx.
  - apply (IH Hr Hx Hc Hid).
Qed.

Lemma find_split {A : Type} (P : A -> bool) (l : list A) (c : A) :
  find P l = Some c ->
  exists l1 l2,
    l = (l1 ++ c :: l2)%list /\ P c = true /\ Forall (fun x => P x = false) l1.
Proof.
  induction l as [|x r IH]; cbn [find]; [discriminate |].
  destruct (P x) eqn:Px; intros H.
  - inversion H; subst. exists [], r. repeat split; [exact Px | constructor].
  - destruct (IH H) as (l1 & l2 & -> & Pc & H1).
    exists (x :: l1), l2. repeat split; [exact Pc |].
    constructor; assumption.
Qed.

Lemma map_unchanged_in {A : Type} (f : A -> A) (l : list A) :
  (forall x, In x l -> f x = x) -> map f l = l.
Proof.
  intros H. induction l as [|x r IH]; cbn [map]; [reflexivity |].
  rewrite (H x (or_introl eq_refl)), IH; [reflexivity |].
  intros y Hy. apply H. right. exact Hy.
Qed.

(** The coupons table after the remote part, on each of its paths. *)
Lemma claim_remote_coupons (e : Env) (sid : string) (st : State) (j : Jar)
    (s : Server) (ts : list Toast) :
  let after := coupons (tables (server (claim_remote e sid st j s ts))) in
  after = coupons (tables s)
  \/ exists c,
      find is_available (coupons (tables s)) = Some c
      /\ (after = claimed_table sid (now_update e) c (coupons (tables s))
          \/ after
             = map (compensated c)
                 (claimed_table sid (now_update e) c (coupons (tables s)))).
Proof.
  cbv zeta. unfold claim_remote, select_single.
  destruct (select_fault e); [left; reflexivity |].
  rewrite find_available.
  destruct (find is_available (coupons (tables s))) as [c |] eqn:Hfound;
    [| left; reflexivity].
  cbn [DateTime.toISOString DateTime.Date_now].
  unfold update_coupons at 2.
  destruct (update_fault e); cbn [negb]; [left; reflexivity |].
  unfold insert_claim.
  destruct (insert_fault e); cbn [negb].
  - unfold update_coupons.
    destruct (revert_fault e); cbn; right; exists c; (split; [reflexivity |]);
      [left | right]; reflexivity.
  - cbn. right. exists c. split; [reflexivity |]. left. reflexivity.
Qed.

Lemma claimed_table_skips (sid : string) (at_ : Z) (c x : Coupon) :
  is_available x = false \/ id x <> id c ->
  (if matches_all [eq_id (id c); eq_status available] x
   then apply_patch (claim_patch sid at_) x else x) = x.
Proof.
  intros H. unfold matches_all. cbn [forallb matches].
  fold (is_available x). destruct H as [H | H].
  - rewrite H. destruct (String.eqb (id x) (id c)); reflexivity.
  - rewrite (proj2 (String.eqb_neq _ _) H). reflexivity.
Qed.

Lemma compensated_other (c x : Coupon) : id x <> id c -> compensated c x = x.
Proof.
  intros H. unfold compensated, matches_all. cbn [forallb matches].
  rewrite (proj2 (String.eqb_neq _ _) H). reflexivity.
Qed.

End ClaimRows.

(** X25. The claim workflow never touches a coupon that is not available:
    with pairwise different keys in the coupons table, every row whose
    status is claimed or disabled is, after a run of the handler on whatever
    path, the same row in the same place. *)
Theorem claimCoupon_spares_unavailable
    (e : Home.Env) (w : Home.World) (i : nat) (x : Remote.Coupon) :
  keys_unique (Remote.coupons (Remote.tables (Home.server w))) ->
  nth_error (Remote.coupons (Remote.tables (Home.server w))) i = Some x ->
  Remote.status x <> Remote.available ->
  nth_error
    (Remote.coupons (Remote.tables (Home.server (Home.claimCoupon e w)))) i
  = Some x.
Proof.
  intros Hkeys Hx Hst.
  assert (Hxav : is_available x = false).
  { unfold is_available. destruct (Remote.status x); [congruence | |];
      reflexivity. }
  destruct (claimCoupon_shape e w) as (st1 & j1 & _ & _ & [[m Hw] | Hw]);
    rewrite Hw; [exact Hx |].
  cbn [Home.finally_setLoading Home.server].
  destruct (claim_remote_coupons e (Home.sessionId (Home.ui w))
              (Home.setLoading true st1) j1 (Home.server w) (Home.toasts w))
    as [-> | (c & Hfound & [-> | ->])]; [exact Hx | |].
  - unfold claimed_table. rewrite nth_error_map, Hx. cbn [option_map].
    rewrite claimed_table_skips by (left; exact Hxav). reflexivity.
  - unfold claimed_table. rewrite !nth_error_map, Hx. cbn [option_map].
    rewrite claimed_table_skips by (left; exact Hxav).
    rewrite compensated_other; [reflexivity |].
    intros Hid. destruct (find_some _ _ Hfound) as [Hcin Hcav].
    pose proof (same_key_same_row _ x c Hkeys (nth_error_In _ _ Hx) Hcin Hid)
      as Heq.
    subst x. rewrite Hcav in Hxav. discriminate Hxav.
Qed.

Lemma claimCoupon_spares_unavailable_witness :
  nth_error
    (Remote.coupons
       (Remote.tables
          (Home.server
             (Home.claimCoupon (insert_fails false)
                (visitor [claimed_sample; available_sample])))))
    0
  = Some claimed_sample.
Proof.
  apply (claimCoupon_spares_unavailable (insert_fails false)
           (visitor [claimed_sample; available_sample]) 0 claimed_sample);
    [repeat constructor; cbn; intuition discriminate | reflexivity | discriminate].
Defined.

(** X26. One click claims one coupon: with pairwise different keys and
    several available coupons stored, a claim that goes through marks the
    first available row in table order as claimed and leaves every other
    row, the other available ones included, as it was. *)
Theorem claimCoupon_claims_one
    (e : Home.Env) (w : Home.World) (c : Remote.Coupon) :
  Home.sessionId (Home.ui w) <> "" ->
  under_rate_limit (Home.jar w) (Home.now_check e) ->
  keys_unique (Remote.coupons (Remote.tables (Home.server w))) ->
  find is_available (Remote.coupons (Remote.tables (Home.server w))) = Some c ->
  Home.select_fault e = false ->
  Home.update_fault e = false ->
  Home.insert_fault e = false ->
  exists l1 l2 : list Remote.Coupon,
    Remote.coupons (Remote.tables (Home.server w)) = (l1 ++ c :: l2)%list
    /\ Forall (fun x => Remote.status x <> Remote.available) l1
    /\ Remote.coupons (Remote.tables (Home.server (Home.claimCoupon e w)))
       = (l1
            ++ claimed_version (Home.sessionId (Home.ui w)) (Home.now_update e) c
            :: l2)%list
    /\ Home.claimedCoupon (Home.ui (Home.claimCoupon e w))
       = Some (Remote.code c).
Proof.
  intros Hsid Hlimit Hkeys Hfound Hsel Hupd Hins.
  pose proof (under_rate_limit_eligible _ _ Hlimit) as Hcan.
  destruct (find_split _ _ _ Hfound) as (l1 & l2 & Hl & Hc & H1).
  exists l1, l2. split; [exact Hl |]. split.
  { eapply Forall_impl; [| exact H1]. intros x Hx E.
    unfold is_available in Hx. rewrite E in Hx. discriminate Hx. }
  rewrite (claimCoupon_inserted e w c Hsid Hcan Hsel Hfound Hupd Hins).
  cbn [Home.server Home.ui Remote.tables Remote.coupons].
  split.
  2:{ cbn [Home.setLoading Home.claimedCoupon].
      rewrite updateClaimStatus_claimedCoupon. reflexivity. }
  unfold claimed_table. rewrite Hl, map_app. cbn [map].
  f_equal; [| f_equal].
  - apply map_unchanged_in. intros x Hx. apply claimed_table_skips. left.
    exact (proj1 (Forall_forall _ _) H1 x Hx).
  - unfold Remote.matches_all. cbn [forallb Remote.matches].
    fold (is_available c). rewrite Hc, String.eqb_refl. reflexivity.
  - apply map_unchanged_in. intros x Hx. apply claimed_table_skips. right.
    intros Hid. rewrite Hl in Hkeys. unfold keys_unique in Hkeys.
    rewrite map_app in Hkeys. cbn [map] in Hkeys.
    apply NoDup_remove_2 in Hkeys. apply Hkeys, in_or_app. right.
    rewrite <- Hid. apply in_map, Hx.
Qed.

Lemma claimCoupon_claims_one_witness :
  let other :=
    {| Remote.id := "k3"; Remote.code := "QQ11WW22";
       Remote.status := Remote.available;
       Remote.claimed_by := None; Remote.claimed_at := None;
       Remote.expires_at := 1700600000000; Remote.created_at := 1699970000000 |} in
  Remote.coupons
    (Remote.tables
       (Home.server
          (Home.claimCoupon calm
             (visitor [claimed_sample; available_sample; other]))))
  = [claimed_sample; claimed_version "s1" 1700000000100 available_sample; other].
Proof.
  intros other.
  destruct (claimCoupon_claims_one calm
              (visitor [claimed_sample; available_sample; other])
              available_sample)
    as (l1 & l2 & _ & _ & _ & _);
    [discriminate | left; reflexivity
    | repeat constructor; cbn; intuition discriminate
    | reflexivity | reflexivity | reflexivity | reflexivity |].
  reflexivity.
Defined.

(** ** From the dashboard to the visitor *)

Section EndToEnd.

Lemma filter_nil_all {A : Type} (P : A -> bool) (l : list A) :
  filter P l = [] -> Forall (fun x => P x = false) l.
Proof.
  induction l as [|x r IH]; cbn [filter]; [constructor |].
  destruct (P x) eqn:Px; [discriminate |].
  intros H. constructor; [exact Px | apply IH, H].
Qed.

End EndToEnd.

(** X27. A coupon created on the dashboard can be claimed on the home
    page: when no coupon was available before the admin created one, the
    next claim that goes through hands the visitor the code that
    [addCoupon] generated. *)
Theorem created_coupon_is_claimed
    (ea : Admin.AddEnv) (wa : Admin.World) (d : Z)
    (e : Home.Env) (w : Home.World) :
  Admin.expiryDays (Admin.ui wa) = Some d ->
  Z.abs (DateTime.UTC (Admin.zone ea)
           (expiry_target (Admin.zone ea) (Admin.now ea) d))
    <= DateTime.maxTime ->
  Admin.insert_fault ea = false ->
  filter is_available (Remote.coupons (Remote.tables (Admin.server wa))) = [] ->
  Home.server w = Admin.server (Admin.addCoupon ea wa) ->
  Home.sessionId (Home.ui w) <> "" ->
  under_rate_limit (Home.jar w) (Home.now_check e) ->
  Home.select_fault e = false ->
  Home.update_fault e = false ->
  Home.insert_fault e = false ->
  Home.claimedCoupon (Home.ui (Home.claimCoupon e w))
  = Some (Admin.generate_code (Admin.random ea))
  /\ Home.toasts (Home.claimCoupon e w)
     = (Home.toasts w
          ++ [Browser.toast_success "Coupon claimed successfully!"])%list.
Proof.
  intros Hd Hr Hi Hnone Hserver Hsid Hlimit Hsel Hupd Hins.
  pose proof (under_rate_limit_eligible _ _ Hlimit) as Hcan.
  assert (Hfound :
            find is_available (Remote.coupons (Remote.tables (Home.server w)))
            = Some (Remote.new_coupon (Admin.coupon_key ea)
                      (Admin.generate_code (Admin.random ea))
                      (DateTime.UTC (Admin.zone ea)
                         (expiry_target (Admin.zone ea) (Admin.now ea) d))
                      (Admin.coupon_stamp ea))).
  { rewrite Hserver, (addCoupon_table ea wa d Hd Hr Hi).
    rewrite (find_app_skip _ _ _ (filter_nil_all _ _ Hnone)). reflexivity. }
  rewrite (claimCoupon_inserted e w _ Hsid Hcan Hsel Hfound Hupd Hins).
  cbn [Home.ui Home.toasts Home.setLoading Home.claimedCoupon].
  rewrite updateClaimStatus_claimedCoupon. split; reflexivity.
Qed.

Lemma created_coupon_is_claimed_witness :
  let ea :=
    {| Admin.random := one_half; Admin.now := 1700000000000;
       Admin.zone := fun _ _ => 19800000; Admin.insert_fault := false;
       Admin.coupon_key := "k9"; Admin.coupon_stamp := 1700000000000;
       Admin.reload_fault := false |} in
  let w :=
    {| Home.ui := Home.setSessionId "s1" Home.initial;
       Home.jar := [];
       Home.server :=
         Admin.server (Admin.addCoupon ea (dashboard [claimed_sample]));
       Home.toasts := [] |} in
  Home.claimedCoupon (Home.ui (Home.claimCoupon calm w)) = Some "I".
Proof.
  intros ea w.
  apply (created_coupon_is_claimed ea (dashboard [claimed_sample]) 7 calm w);
    [reflexivity | vm_compute; discriminate | reflexivity | reflexivity
    | reflexivity | discriminate | left; reflexivity | reflexivity
    | reflexivity | reflexivity].
Defined.
